(** * Birdfingers package manager: snapshot diff, snapshot store and job buffer

    A shallow embedding of the core of [birdfingers_pkgmgr.py]:
    [parse_requirements_text], [diff_envs], the command rendering of the two
    preview functions, [_safe_name], [save_snapshot], [list_snapshots],
    [get_snapshot], [delete_snapshot], the [Job] buffer with
    [_run_and_stream] and the [/api/job/poll] handler.

    Conventions of the embedding.
    - A Python [str] is a [string]; a character is a code point below 256,
      and [len], slicing, comparison and the predicates of [str] are those of
      Python restricted to that range.
    - A Python [dict] is an association list in insertion order with pairwise
      distinct keys: assignment to a present key replaces the value in place,
      assignment to a new key appends.
    - What the program obtains from its surroundings (the text of
      [pip freeze], the clock, the interpreter path, the outcome of starting
      a process and of reading its output, failing file operations) is an
      argument of the function that uses it.
    - Every file of the snapshot directory holds text in UTF-8 and can be
      opened for reading. Of a JSON document the embedding keeps what the
      program asks of it: whether it is an object, its truth value, its
      member [created_utc] and its text. *)

From Stdlib Require Import String Ascii List ZArith Lia Bool Arith.
From Stdlib Require Import Permutation Sorted.
Import ListNotations.
Open Scope string_scope.
Open Scope nat_scope.

(* ===================================================================== *)
(** * Python string primitives *)
(* ===================================================================== *)

Module Py.

Definition code (c : ascii) : nat := nat_of_ascii c.

Definition between (lo hi n : nat) : bool := (lo <=? n) && (n <=? hi).

(** [str.isspace] on one character. *)
Definition isspace (c : ascii) : bool :=
  let n := code c in
  between 9 13 n || between 28 32 n || (n =? 133) || (n =? 160).

(** The characters at which [str.splitlines] ends a line. *)
Definition is_linebreak (c : ascii) : bool :=
  let n := code c in
  between 10 13 n || between 28 30 n || (n =? 133).

Definition is_upper (c : ascii) : bool :=
  let n := code c in
  between 65 90 n || (between 192 222 n && negb (n =? 215)).

Definition lower_char (c : ascii) : ascii :=
  if is_upper c then ascii_of_nat (code c + 32) else c.

(** [s.lower()] *)
Fixpoint lower (s : string) : string :=
  match s with
  | EmptyString => EmptyString
  | String c s' => String (lower_char c) (lower s')
  end.

(** [bool(s)]: a string is true when it is not empty. *)
Definition truthy (s : string) : bool :=
  match s with EmptyString => false | String _ _ => true end.

(** [s.lstrip()] *)
Fixpoint lstrip (s : string) : string :=
  match s with
  | EmptyString => EmptyString
  | String c s' => if isspace c then lstrip s' else s
  end.

(** [s.rstrip()] *)
Fixpoint rstrip (s : string) : string :=
  match s with
  | EmptyString => EmptyString
  | String c s' =>
      let r := rstrip s' in
      if isspace c && negb (truthy r) then EmptyString else String c r
  end.

(** [s.strip()] *)
Definition strip (s : string) : string := rstrip (lstrip s).

(** [s.startswith(p)] *)
Definition startswith (p s : string) : bool := prefix p s.

(** [s[n:]] for [n >= 0]. *)
Fixpoint drop (n : nat) (s : string) : string :=
  match n, s with
  | O, _ => s
  | S _, EmptyString => EmptyString
  | S n', String _ s' => drop n' s'
  end.

(** [s[:n]] for [n >= 0]. *)
Fixpoint take (n : nat) (s : string) : string :=
  match n, s with
  | O, _ => EmptyString
  | S _, EmptyString => EmptyString
  | S n', String c s' => String c (take n' s')
  end.

(** [s[pos:]] for any integer [pos]: a negative [pos] counts from the
    end of [s]. *)
Definition slice_from (pos : Z) (s : string) : string :=
  if (pos <? 0)%Z
  then drop (Z.to_nat (Z.max 0 (Z.of_nat (String.length s) + pos))) s
  else drop (Z.to_nat pos) s.

(** [sub in s] *)
Fixpoint contains (sub s : string) : bool :=
  prefix sub s ||
  match s with
  | EmptyString => false
  | String _ s' => contains sub s'
  end.

(** [s.split(sep, 1)] when [sep in s]: the text before and after the
    leftmost occurrence of [sep]; [None] when [sep] does not occur. *)
Fixpoint split_once (sep s : string) : option (string * string) :=
  if prefix sep s then Some (EmptyString, drop (String.length sep) s)
  else match s with
       | EmptyString => None
       | String c s' =>
           match split_once sep s' with
           | Some (a, b) => Some (String c a, b)
           | None => None
           end
       end.

(** [s.splitlines()]: the lines of [s] without their terminators; a
    carriage return followed by a line feed is one terminator, and a
    terminator at the very end opens no further line. *)
Fixpoint splitlines (s : string) : list string :=
  match s with
  | EmptyString => []
  | String c s' =>
      if is_linebreak c then
        match s' with
        | String d s'' =>
            if (code c =? 13) && (code d =? 10)
            then EmptyString :: splitlines s''
            else EmptyString :: splitlines s'
        | EmptyString => [EmptyString]
        end
      else
        match splitlines s' with
        | [] => [String c EmptyString]
        | l :: ls => String c l :: ls
        end
  end.

(** [sep.join(l)] *)
Definition join (sep : string) (l : list string) : string := String.concat sep l.

(** Insertion of [x] into an ascending list, before the first element
    that is not smaller. *)
Fixpoint insert_asc (x : string) (l : list string) : list string :=
  match l with
  | [] => [x]
  | y :: l' => if String.leb x y then x :: l else y :: insert_asc x l'
  end.

(** [sorted(l)] on strings: ascending by code points. *)
Definition sorted (l : list string) : list string :=
  fold_right insert_asc [] l.

End Py.

(* ===================================================================== *)
(** * Package sets: [parse_requirements_text] and [diff_envs] *)
(* ===================================================================== *)

Module Pkg.

(** The value stored under a key: [{"name": ..., "version": ...}]. *)
Record entry := mk_entry { name : string; version : string }.

(** A [dict] from normalized name to entry, in insertion order. *)
Definition dict := list (string * entry).

Definition keys (d : dict) : list string := map fst d.

(** [d.get(k)] *)
Fixpoint get (k : string) (d : dict) : option entry :=
  match d with
  | [] => None
  | (k', v) :: d' => if String.eqb k k' then Some v else get k d'
  end.

(** [k in d] *)
Definition mem (k : string) (d : dict) : bool :=
  match get k d with Some _ => true | None => false end.

(** [d[k] = v] *)
Fixpoint set (k : string) (v : entry) (d : dict) : dict :=
  match d with
  | [] => [(k, v)]
  | (k', v') :: d' =>
      if String.eqb k k' then (k', v) :: d' else (k', v') :: set k v d'
  end.

(** One iteration of the loop of [parse_requirements_text] on the pair
    [(pkgs, others)]. *)
Definition parse_line (st : dict * list string) (line : string)
  : dict * list string :=
  let (pkgs, others) := st in
  let s := Py.strip line in
  if negb (Py.truthy s) || Py.startswith "#" s then st
  else if Py.contains " @ " s || Py.startswith "-e " s
       then (pkgs, (others ++ [s])%list)
       else match Py.split_once "==" s with
            | Some (nm, ver) =>
                (set (Py.lower nm) (mk_entry nm ver) pkgs, others)
            | None => (pkgs, (others ++ [s])%list)
            end.

Definition parse_requirements_text (text : string) : dict * list string :=
  fold_left parse_line (Py.splitlines text) ([], []).

(** The entries of the three result lists of [diff_envs]. *)
Record install := mk_install
  { i_name : string; i_from : option string; i_to : string }.
Record uninstall := mk_uninstall { u_name : string; u_from : string }.
Record same := mk_same { s_name : string; s_version : string }.

(** First loop of [diff_envs], over the items of [target_pkgs]. *)
Fixpoint diff_target (current_pkgs target_items : dict)
  : list install * list same :=
  match target_items with
  | [] => ([], [])
  | (key, tgt) :: rest =>
      let (installs, unchanged) := diff_target current_pkgs rest in
      match get key current_pkgs with
      | None =>
          (mk_install (name tgt) None (version tgt) :: installs, unchanged)
      | Some cur =>
          if negb (String.eqb (version cur) (version tgt))
          then (mk_install (name tgt) (Some (version cur)) (version tgt)
                  :: installs, unchanged)
          else (installs, mk_same (name tgt) (version tgt) :: unchanged)
      end
  end.

(** Second loop of [diff_envs], over the items of [current_pkgs]. *)
Fixpoint diff_current (current_items target_pkgs : dict) : list uninstall :=
  match current_items with
  | [] => []
  | (key, cur) :: rest =>
      if negb (mem key target_pkgs)
      then mk_uninstall (name cur) (version cur)
             :: diff_current rest target_pkgs
      else diff_current rest target_pkgs
  end.

Definition diff_envs (current_pkgs target_pkgs : dict)
  : list install * list uninstall * list same :=
  let (installs, unchanged) := diff_target current_pkgs target_pkgs in
  (installs, diff_current current_pkgs target_pkgs, unchanged).

(** [f"python -m pip install {it['name']}=={it['to']}"] *)
Definition install_command (it : install) : string :=
  "python -m pip install " ++ i_name it ++ "==" ++ i_to it.

(** The command list built by [preview_snapshot_vs_current] and, with the
    same statements, by [preview_snapshot_vs_snapshot]. *)
Definition render_commands (installs : list install)
    (uninstalls : list uninstall) : list string :=
  let cmds :=
    match uninstalls with
    | [] => []
    | _ :: _ =>
        ["python -m pip uninstall -y "
           ++ Py.join " " (Py.sorted (map u_name uninstalls))]
    end in
  (cmds ++ map install_command installs)%list.

(** The part of both preview functions that follows the reading of the
    two pin texts: parse both, diff, render. *)
Definition preview_commands (current_text target_text : string)
  : list string :=
  let (target_pkgs, _) := parse_requirements_text target_text in
  let (cur_pkgs, _) := parse_requirements_text current_text in
  let '(installs, uninstalls, _) := diff_envs cur_pkgs target_pkgs in
  render_commands installs uninstalls.

(** A package set as the data model describes it: distinct keys, each the
    lowercase form of the display name stored under it. *)
Definition keyed (d : dict) : Prop :=
  forall k v, In (k, v) d -> k = Py.lower (name v).

Definition wf (d : dict) : Prop := NoDup (keys d) /\ keyed d.

(** The normalized-name keys of the three result lists. *)
Definition install_keys (l : list install) : list string :=
  map (fun x => Py.lower (i_name x)) l.
Definition uninstall_keys (l : list uninstall) : list string :=
  map (fun x => Py.lower (u_name x)) l.
Definition same_keys (l : list same) : list string :=
  map (fun x => Py.lower (s_name x)) l.

End Pkg.

(** What a call gives back: a value, or an exception that leaves it. *)
Inductive outcome (A : Type) : Type :=
| Return (a : A)
| Raise.
Arguments Return {A} a.
Arguments Raise {A}.

(* ===================================================================== *)
(** * The snapshot store *)
(* ===================================================================== *)

Module Snap.

(** The metadata object that [save_snapshot] builds and dumps. *)
Record Meta := mk_meta
  { m_id : string;
    m_name : string;
    m_comment : string;
    m_created_utc : string;
    m_python : string;
    m_mode : string;
    m_count : nat;
    m_requirements : string;
    m_dir : string;
    m_path : string }.

(** The value of [created_utc] in a JSON object: a string, an integer or
    [null]; objects with another value there are left out. *)
Inductive key :=
| KStr (s : string)
| KNum (z : Z)
| KNull.

(** What [json.load] returns, by what the program asks of it: the object
    of a metadata record; another JSON object, with its text, its
    [created_utc] if it has one, and whether it has other members; or a JSON
    document that is no object (an array, a number, a string, [true],
    [false], [null]), with its text and its truth value. *)
Inductive doc :=
| MetaDoc (m : Meta)
| ObjectDoc (raw : string) (created_utc : option key) (more : bool)
| ValueDoc (raw : string) (truthy : bool).

(** What a file of the snapshot directory holds, as the program reads it:
    text that is no JSON document, on which [json.load] raises, or a JSON
    document. Every file holds text in UTF-8. *)
Inductive content :=
| Text (s : string)
| Json (d : doc).

(** [bool(d)]: an object is true when it has a member. *)
Definition doc_truthy (d : doc) : bool :=
  match d with
  | MetaDoc _ => true
  | ObjectDoc _ (Some _) _ => true
  | ObjectDoc _ None more => more
  | ValueDoc _ t => t
  end.

(** [m.get('created_utc', '')]: [None] is the [AttributeError] of a
    document that is no object. *)
Definition sort_key (d : doc) : option key :=
  match d with
  | MetaDoc m => Some (KStr (m_created_utc m))
  | ObjectDoc _ (Some k) _ => Some k
  | ObjectDoc _ None _ => Some (KStr EmptyString)
  | ValueDoc _ _ => None
  end.

(** The snapshot directory [SNAP_DIR]: file names with their contents, in
    the order in which [os.listdir] reports them. File names are compared
    exactly, and a snapshot id holds no path separator, so that
    [os.path.join(SNAP_DIR, id + ext)] names a file of the directory. *)
Definition store := list (string * content).

(** What the surroundings give to [save_snapshot]. *)
Record env := mk_env
  { SNAP_DIR : string;        (* the directory, without final separator *)
    os_sep : string;
    sys_executable : string;
    run_mode : string;        (* "venv", "embedded" or "system" *)
    utcnow : string;          (* the clock, as %Y%m%d_%H%M%S *)
    freeze : string;          (* the output of pip freeze *)
    open_fails : string -> bool; (* opening this file for writing raises *)
    freeze_raises : bool;     (* freeze_requirements() raises *)
    write_fails : string -> option string
      (* writing this file raises after it was opened: the text that is
         left in the file *)
  }.

Definition path_join (e : env) (file : string) : string :=
  SNAP_DIR e ++ os_sep e ++ file.

Fixpoint read (file : string) (fs : store) : option content :=
  match fs with
  | [] => None
  | (f, c) :: fs' => if String.eqb file f then Some c else read file fs'
  end.

(** [os.path.exists] *)
Definition exists_ (file : string) (fs : store) : bool :=
  match read file fs with Some _ => true | None => false end.

(** Writing a whole file: replaces the content of a file that is there,
    adds the file otherwise. *)
Fixpoint write (file : string) (c : content) (fs : store) : store :=
  match fs with
  | [] => [(file, c)]
  | (f, c') :: fs' =>
      if String.eqb file f then (f, c) :: fs' else (f, c') :: write file c fs'
  end.

(** [os.remove] when it succeeds. *)
Fixpoint remove (file : string) (fs : store) : store :=
  match fs with
  | [] => []
  | (f, c) :: fs' =>
      if String.eqb file f then remove file fs' else (f, c) :: remove file fs'
  end.

(** [s.endswith(suf)] *)
Definition endswith (suf s : string) : bool :=
  (String.length suf <=? String.length s)
  && String.eqb (Py.drop (String.length s - String.length suf) s) suf.

Definition allowed (c : ascii) : bool :=
  let n := Py.code c in
  Py.between 65 90 n || Py.between 97 122 n || Py.between 48 57 n
  || (n =? 95) || (n =? 46) || (n =? 45).

(** [re.sub(r"[^A-Za-z0-9_.-]+", "_", s)]: each maximal run of characters
    outside the class becomes one underscore; [in_run] says that the
    character before belongs to such a run. *)
Fixpoint squash (in_run : bool) (s : string) : string :=
  match s with
  | EmptyString => EmptyString
  | String c s' =>
      if allowed c then String c (squash false s')
      else if in_run then squash true s'
           else String "_"%char (squash true s')
  end.

(** [x or d] on strings. *)
Definition or_else (x d : string) : string := if Py.truthy x then x else d.

Definition _safe_name (s : string) : string :=
  let s := or_else (Py.strip s) "snapshot" in
  let s := squash false s in
  Py.take 60 s.

(** The count of [save_snapshot]:
    [len([l for l in req_text.splitlines() if l and not l.startswith("#")])] *)
Definition count_lines (req_text : string) : nat :=
  List.length
    (filter (fun l => Py.truthy l && negb (Py.startswith "#" l))
       (Py.splitlines req_text)).

Definition snapshot_id (e : env) (name : string) : string :=
  or_else (_safe_name name) "snapshot" ++ "_" ++ utcnow e.

Definition build_meta (e : env) (name comment : string) : Meta :=
  let base := snapshot_id e name in
  {| m_id := base;
     m_name := name;
     m_comment := comment;
     m_created_utc := utcnow e;
     m_python := sys_executable e;
     m_mode := run_mode e;
     m_count := count_lines (freeze e);
     m_requirements := base ++ ".txt";
     m_dir := SNAP_DIR e;
     m_path := path_join e (base ++ ".txt") |}.

(** [with open(file, "w") as f: ...]: opening raises and leaves the store
    as it is; or the file is opened, which empties or creates it, and
    writing raises and leaves a part of the text; or the text [c] is
    written. *)
Definition write_file (e : env) (file : string) (c : content) (fs : store)
  : store * outcome unit :=
  if open_fails e file then (fs, Raise)
  else match write_fails e file with
       | Some part => (write file (Text part) fs, Raise)
       | None => (write file c fs, Return tt)
       end.

(** [save_snapshot(name, comment)]: the directory is there, so that
    [os.makedirs] does nothing; the freeze output is taken first; the
    payload is written, then the metadata; an exception of either write
    leaves what was written before it. The part of a JSON text that a
    failing [json.dump] leaves is no JSON document. *)
Definition save_snapshot (e : env) (name comment : string) (fs : store)
  : store * outcome Meta :=
  let base := snapshot_id e name in
  let req_file := base ++ ".txt" in
  let meta_file := base ++ ".json" in
  let meta := build_meta e name comment in
  if freeze_raises e then (fs, Raise)
  else
    match write_file e req_file (Text (freeze e)) fs with
    | (fs1, Raise) => (fs1, Raise)
    | (fs1, Return _) =>
        match write_file e meta_file (Json (MetaDoc meta)) fs1 with
        | (fs2, Raise) => (fs2, Raise)
        | (fs2, Return _) => (fs2, Return meta)
        end
    end.

(** The loop of [list_snapshots]: every file whose name ends in [.json]
    is loaded, and a file on which [json.load] raises is passed over. *)
Fixpoint load_metas (fs : store) : list doc :=
  match fs with
  | [] => []
  | (f, c) :: fs' =>
      if endswith ".json" f then
        match c with
        | Json d => d :: load_metas fs'
        | Text _ => load_metas fs'
        end
      else load_metas fs'
  end.

(** The key of a document that is an object. *)
Definition key_of (d : doc) : key :=
  match sort_key d with Some k => k | None => KNull end.

Definition is_str (k : key) : bool :=
  match k with KStr _ => true | _ => false end.

Definition is_num (k : key) : bool :=
  match k with KNum _ => true | _ => false end.

(** [a < b] on two keys that Python compares: two strings or two
    integers. *)
Definition key_lt (a b : key) : bool :=
  match a, b with
  | KStr x, KStr y => String.ltb x y
  | KNum x, KNum y => Z.ltb x y
  | _, _ => false
  end.

(** The keys that a sort compares without a [TypeError]: fewer than two,
    or all strings, or all integers. A sort of two or more keys compares
    every key with another one, and keys of both kinds one with the
    other. *)
Definition comparable (keys : list key) : bool :=
  (List.length keys <? 2) || forallb is_str keys || forallb is_num keys.

(** Stable insertion into a list that descends by the key: [d] stands
    before the elements whose key is not greater. *)
Fixpoint insert_desc (d : doc) (l : list doc) : list doc :=
  match l with
  | [] => [d]
  | y :: l' =>
      if key_lt (key_of d) (key_of y)
      then y :: insert_desc d l'
      else d :: l
  end.

Definition sort_desc (l : list doc) : list doc :=
  fold_right insert_desc [] l.

Definition has_key (d : doc) : bool :=
  match sort_key d with Some _ => true | None => false end.

(** [metas.sort(key=lambda m: m.get('created_utc',''), reverse=True)]:
    the keys of all elements are taken first, then the elements are
    sorted; both stand outside the [try] of the loop. *)
Definition sort_metas (metas : list doc) : outcome (list doc) :=
  if forallb has_key metas
  then if comparable (map key_of metas) then Return (sort_desc metas)
       else Raise
  else Raise.

(** [list_snapshots()]; the directory is there, as the module creates it
    when it is loaded. *)
Definition list_snapshots (fs : store) : outcome (list doc) :=
  sort_metas (load_metas fs).

(** [get_snapshot(id_)]: [(None, None)] unless both files exist;
    otherwise the loaded document and the path of the payload. *)
Definition get_snapshot (e : env) (id_ : string) (fs : store)
  : outcome (option doc * option string) :=
  let meta_file := id_ ++ ".json" in
  let req_file := id_ ++ ".txt" in
  if negb (exists_ meta_file fs && exists_ req_file fs)
  then Return (None, None)
  else match read meta_file fs with
       | Some (Json d) => Return (Some d, Some (path_join e req_file))
       | _ => Raise
       end.

(** One turn of the loop of [delete_snapshot] on the file [p];
    [remove_fails p] says that [os.remove(p)] raises. *)
Definition delete_step (remove_fails : string -> bool) (p : string)
    (st : bool * store) : bool * store :=
  let (ok, fs) := st in
  if exists_ p fs then
    if remove_fails p then (false, fs) else (ok, remove p fs)
  else (ok, fs).

Definition delete_snapshot (remove_fails : string -> bool) (id_ : string)
    (fs : store) : bool * store :=
  let meta_file := id_ ++ ".json" in
  let req_file := id_ ++ ".txt" in
  delete_step remove_fails req_file
    (delete_step remove_fails meta_file (true, fs)).

End Snap.

(** A metadata record is read as the document that it is, also where it
    stands under [Some], in a pair or under [Return]. *)
Coercion Snap.MetaDoc : Snap.Meta >-> Snap.doc.
#[local] Arguments Some {A} & a.
#[local] Arguments pair {A B} & a b.
#[local] Arguments Return {A} & a.

(* ===================================================================== *)
(** * Jobs: the output buffer, the worker and the poll *)
(* ===================================================================== *)

Module Job.

(** The fields of [Job] that the worker and the poll read or write. *)
Record t := mk_job
  { id : string;
    kind : string;
    text : string;
    done : bool;
    returncode : option Z }.

(** [Job(kind, args)] with the [uuid] it draws. *)
Definition new (uuid kind : string) : t :=
  {| id := uuid; kind := kind; text := EmptyString; done := false;
     returncode := None |}.

(** [job.append(s)] *)
Definition append (j : t) (s : string) : t :=
  {| id := id j; kind := kind j; text := text j ++ s; done := done j;
     returncode := returncode j |}.

(** What [subprocess.Popen] and the process do: the launch raises; or
    the process writes its lines and ends with a return code; or reading
    its output raises, after the lines that were read, as on output that
    is no text in the encoding of the pipe. *)
Inductive process :=
| LaunchFails
| Exits (lines : list string) (rc : Z)
| ReadFails (lines : list string).

(** [_run_and_stream(job, cmd)], the body of the worker thread. An
    exception of [Popen] leaves the function before any statement on
    [job]; an exception of the read loop leaves it before [job.done] is
    set. *)
Definition _run_and_stream (j : t) (p : process) : t * outcome unit :=
  match p with
  | LaunchFails => (j, Raise)
  | Exits lines rc =>
      let j1 := fold_left append lines j in
      ({| id := id j1; kind := kind j1; text := text j1; done := true;
          returncode := Some rc |}, Return tt)
  | ReadFails lines => (fold_left append lines j, Raise)
  end.

(** The table [JOBS]. *)
Definition table := list (string * t).

Fixpoint get_job (job_id : string) (jobs : table) : option t :=
  match jobs with
  | [] => None
  | (k, j) :: jobs' => if String.eqb job_id k then Some j else get_job job_id jobs'
  end.

Fixpoint register_job (j : t) (jobs : table) : table :=
  match jobs with
  | [] => [(id j, j)]
  | (k, j') :: jobs' =>
      if String.eqb (id j) k then (k, j) :: jobs'
      else (k, j') :: register_job j jobs'
  end.

(** The JSON object that the poll answers. *)
Record reply := mk_reply
  { r_text : string; r_pos : Z; r_done : bool; r_returncode : option Z }.

(** The statements of [/api/job/poll] under [job.lock]. *)
Definition poll (j : t) (pos : Z) : reply :=
  let len := Z.of_nat (String.length (text j)) in
  {| r_text := if (pos <? len)%Z then Py.slice_from pos (text j)
               else EmptyString;
     r_pos := len;
     r_done := done j;
     r_returncode := returncode j |}.

(** The handler: [None] is the answer 404 for an unknown job. *)
Definition handle_poll (jobs : table) (job_id : string) (pos : Z)
  : option reply :=
  match get_job job_id jobs with
  | None => None
  | Some j => Some (poll j pos)
  end.

(** What happens to one job while a client follows it: the worker
    appends a line, or the client polls. *)
Inductive event :=
| Appended (s : string)
| Polled.

(** One poll as the client sees it: the cursor it sent, the text it got,
    the cursor it got. *)
Record seen := mk_seen { sent : Z; delta : string; got : Z }.

(** The client of [startPolling]: it sends its cursor [jobPos], which
    starts at 0, and stores the cursor of each answer. *)
Fixpoint follow (evs : list event) (j : t) (jobPos : Z) : list seen * t * Z :=
  match evs with
  | [] => ([], j, jobPos)
  | Appended s :: evs' => follow evs' (append j s) jobPos
  | Polled :: evs' =>
      let r := poll j jobPos in
      let '(l, j', p') := follow evs' j (r_pos r) in
      (mk_seen jobPos (r_text r) (r_pos r) :: l, j', p')
  end.

End Job.

(** A line feed, and a text made of lines. *)
Definition nl : string := String (ascii_of_nat 10) EmptyString.

Definition text_of (lines : list string) : string := String.concat nl lines.

(** The order of [sorted] on strings. *)
Definition str_le (a b : string) : Prop := String.leb a b = true.

(** The test of the first loop of [diff_envs] on an item of the target:
    the key is new, or its version differs. *)
Definition to_install (current_pkgs : Pkg.dict) (item : string * Pkg.entry)
  : bool :=
  match Pkg.get (fst item) current_pkgs with
  | None => true
  | Some cur => negb (String.eqb (Pkg.version cur) (Pkg.version (snd item)))
  end.

(** The test of the second loop of [diff_envs] on an item of the source. *)
Definition to_uninstall (target_pkgs : Pkg.dict) (item : string * Pkg.entry)
  : bool :=
  negb (Pkg.mem (fst item) target_pkgs).

(** A pin: what the parser stores for a line that it takes as an exact
    [name==version] requirement, and [None] for every other line. *)
Definition pin_of (line : string) : option (string * Pkg.entry) :=
  let s := Py.strip line in
  if negb (Py.truthy s) || Py.startswith "#" s then None
  else if Py.contains " @ " s || Py.startswith "-e " s then None
       else match Py.split_once "==" s with
            | Some (nm, ver) => Some (Py.lower nm, Pkg.mk_entry nm ver)
            | None => None
            end.

(** The test of the count of [save_snapshot] on a line. *)
Definition counted (l : string) : bool :=
  Py.truthy l && negb (Py.startswith "#" l).

Definition is_pin (line : string) : bool :=
  match pin_of line with Some _ => true | None => false end.

Definition pin_key (line : string) : string :=
  match pin_of line with Some (k, _) => k | None => EmptyString end.

(** [buf[a:b]] for [0 <= a <= b]. *)
Definition segment (buf : string) (a b : Z) : string :=
  Py.take (Z.to_nat (b - a)) (Py.drop (Z.to_nat a) buf).

(** The polls of a client lie end to end on the buffer [buf] from
    [start]: each sends the cursor that the poll before it got, and its text
    is the segment of [buf] between the cursor sent and the cursor got. *)
Fixpoint tiles (polls : list Job.seen) (buf : string) (start : Z) : Prop :=
  match polls with
  | [] => True
  | p :: polls' =>
      Job.sent p = start
      /\ (start <= Job.got p)%Z
      /\ Job.delta p = segment buf (Job.sent p) (Job.got p)
      /\ tiles polls' buf (Job.got p)
  end.

Definition deltas (polls : list Job.seen) : string :=
  String.concat EmptyString (map Job.delta polls).

(** Surroundings in which no file operation fails, at the time [ts] and
    with the freeze output [frz]. *)
Definition quiet_env (ts frz : string) : Snap.env :=
  {| Snap.SNAP_DIR := "/data/birdfingers_snapshots";
     Snap.os_sep := "/";
     Snap.sys_executable := "/usr/bin/python3";
     Snap.run_mode := "system";
     Snap.utcnow := ts;
     Snap.freeze := frz;
     Snap.open_fails := fun _ => false;
     Snap.freeze_raises := false;
     Snap.write_fails := fun _ => None |}.

Definition never (file : string) : bool := false.

(** ** Sample data *)

(** A source and a target package set. *)
Definition sample_S : Pkg.dict :=
  [("a", Pkg.mk_entry "a" "1.0"); ("b", Pkg.mk_entry "b" "2.0");
   ("d", Pkg.mk_entry "D" "0.1")].

Definition sample_T : Pkg.dict :=
  [("a", Pkg.mk_entry "a" "1.1"); ("b", Pkg.mk_entry "b" "2.0");
   ("c", Pkg.mk_entry "c" "3.0")].

(** A freeze output with two pins, a comment and a URL requirement. *)
Definition sample_text : string :=
  text_of ["Foo==1.0"; "# a comment"; "bar @ file:///tmp/bar"; "baz==2"].

Definition sample_env : Snap.env := quiet_env "20240101_120000" sample_text.

(** Two captures within one second with differing freeze outputs. *)
Definition env_a : Snap.env := quiet_env "20240101_120000" "a==1".
Definition env_b : Snap.env := quiet_env "20240101_120000" "a==2".

Definition first_save : Snap.store * outcome Snap.Meta :=
  Snap.save_snapshot env_a "env" "one" [].

Definition second_save : Snap.store * outcome Snap.Meta :=
  Snap.save_snapshot env_b "env" "two" (fst first_save).

(** A store that holds the metadata record of a snapshot without its
    payload record. *)
Definition lone_meta : Snap.Meta := Snap.build_meta env_a "env" "one".

Definition lone_store : Snap.store :=
  [("env_20240101_120000.json", Snap.Json lone_meta)].

(** A job whose buffer holds two characters. *)
Definition job_ab : Job.t := Job.append (Job.new "j1" "install") "ab".

(* ===================================================================== *)
(** * The previews *)
(* ===================================================================== *)

Module Preview.

(** [f.read()] on a file of the store; [dumps] is the text of the JSON
    document of a metadata record, which the program never reads as text
    itself. *)
Definition read_text (dumps : Snap.Meta -> string) (c : Snap.content)
  : string :=
  match c with
  | Snap.Text s => s
  | Snap.Json (Snap.MetaDoc m) => dumps m
  | Snap.Json (Snap.ObjectDoc raw _ _) => raw
  | Snap.Json (Snap.ValueDoc raw _) => raw
  end.

(** The [counts] of a preview against the current environment. *)
Record counts := mk_counts
  { c_install : nat; c_uninstall : nat; c_unchanged : nat;
    c_other_lines_target : nat }.

(** The object that [preview_snapshot_vs_current] returns, without its
    constant [notes]. *)
Record preview := mk_preview
  { p_snapshot : Snap.doc;
    p_counts : counts;
    p_installs : list Pkg.install;
    p_uninstalls : list Pkg.uninstall;
    p_unchanged : list Pkg.same;
    p_commands : list string }.

(** [preview_snapshot_vs_current(id_)]: [Return None] when the snapshot is
    not found or its metadata document is false. The payload is read at
    the file of [req_path]; then the freeze output is taken, which may
    raise. *)
Definition preview_snapshot_vs_current (dumps : Snap.Meta -> string)
    (e : Snap.env) (id_ : string) (fs : Snap.store)
  : outcome (option preview) :=
  match Snap.get_snapshot e id_ fs with
  | Raise => Raise
  | Return (None, _) => Return None
  | Return (Some meta, _) =>
      if negb (Snap.doc_truthy meta) then Return None
      else
        match Snap.read (id_ ++ ".txt") fs with
        | None => Raise
        | Some c =>
            let target_text := read_text dumps c in
            let (target_pkgs, target_other) :=
              Pkg.parse_requirements_text target_text in
            if Snap.freeze_raises e then Raise
            else
              let cur_text := Snap.freeze e in
              let (cur_pkgs, cur_other) :=
                Pkg.parse_requirements_text cur_text in
              let '(installs, uninstalls, unchanged) :=
                Pkg.diff_envs cur_pkgs target_pkgs in
              Return (Some
                {| p_snapshot := meta;
                   p_counts :=
                     {| c_install := List.length installs;
                        c_uninstall := List.length uninstalls;
                        c_unchanged := List.length unchanged;
                        c_other_lines_target := List.length target_other |};
                   p_installs := installs;
                   p_uninstalls := uninstalls;
                   p_unchanged := unchanged;
                   p_commands := Pkg.render_commands installs uninstalls |})
        end
  end.

(** The [counts] of a diff of two snapshots. *)
Record counts2 := mk_counts2
  { n_install : nat; n_uninstall : nat; n_unchanged : nat;
    n_other_a : nat; n_other_b : nat }.

(** The object that [preview_snapshot_vs_snapshot] returns, without its
    constant [notes]. *)
Record diff := mk_diff
  { d_a : Snap.doc;
    d_b : Snap.doc;
    d_counts : counts2;
    d_installs : list Pkg.install;
    d_uninstalls : list Pkg.uninstall;
    d_unchanged : list Pkg.same;
    d_commands : list string }.

(** [preview_snapshot_vs_snapshot(a_id, b_id)]: both snapshots are
    looked up before either result is tested; [Return None] when one is
    not found or its metadata document is false. *)
Definition preview_snapshot_vs_snapshot (dumps : Snap.Meta -> string)
    (e : Snap.env) (a_id b_id : string) (fs : Snap.store)
  : outcome (option diff) :=
  match Snap.get_snapshot e a_id fs with
  | Raise => Raise
  | Return (a_meta, _) =>
      match Snap.get_snapshot e b_id fs with
      | Raise => Raise
      | Return (b_meta, _) =>
          match a_meta, b_meta with
          | Some am, Some bm =>
              if negb (Snap.doc_truthy am && Snap.doc_truthy bm)
              then Return None
              else
                match Snap.read (a_id ++ ".txt") fs,
                      Snap.read (b_id ++ ".txt") fs with
                | Some ca, Some cb =>
                    let (a_pkgs, a_other) :=
                      Pkg.parse_requirements_text (read_text dumps ca) in
                    let (b_pkgs, b_other) :=
                      Pkg.parse_requirements_text (read_text dumps cb) in
                    let '(installs, uninstalls, unchanged) :=
                      Pkg.diff_envs a_pkgs b_pkgs in
                    Return (Some
                      {| d_a := am;
                         d_b := bm;
                         d_counts :=
                           {| n_install := List.length installs;
                              n_uninstall := List.length uninstalls;
                              n_unchanged := List.length unchanged;
                              n_other_a := List.length a_other;
                              n_other_b := List.length b_other |};
                         d_installs := installs;
                         d_uninstalls := uninstalls;
                         d_unchanged := unchanged;
                         d_commands :=
                           Pkg.render_commands installs uninstalls |})
                | _, _ => Raise
                end
          | _, _ => Return None
          end
      end
  end.

End Preview.

(* ===================================================================== *)
(** * The list of installed packages *)
(* ===================================================================== *)

Module Installed.

(** What [list_installed] reads of a distribution: [metadata["Name"]],
    which may raise; the attribute [project_name], [None] when it is
    missing; and [version], which may raise as well. *)
Record dist := mk_dist
  { metadata_name : outcome (option string);
    project_name : option string;
    dist_version : outcome (option string) }.

Record item := mk_item { name : string; version : string }.

(** [x or d] for a value [x] that is a string or [None]. *)
Definition opt_or (x : option string) (d : string) : string :=
  match x with
  | Some s => if Py.truthy s then s else d
  | None => d
  end.

(** The name that the loop takes for a distribution: the exception of
    [metadata["Name"]] is caught. *)
Definition dist_name (d : dist) : string :=
  match metadata_name d with
  | Return x => opt_or x EmptyString
  | Raise => opt_or (project_name d) EmptyString
  end.

(** The loop of [list_installed]: an exception of [version] is not
    caught and ends the function. *)
Fixpoint collect (dists : list dist) : outcome (list item) :=
  match dists with
  | [] => Return []
  | d :: rest =>
      let nm := dist_name d in
      match dist_version d with
      | Raise => Raise
      | Return v =>
          let ver := opt_or v "unknown" in
          match collect rest with
          | Raise => Raise
          | Return items =>
              if Py.truthy nm then Return (mk_item nm ver :: items)
              else Return items
          end
      end
  end.

(** Stable insertion into a list that ascends by [name.lower()]. *)
Fixpoint insert_by_name (x : item) (l : list item) : list item :=
  match l with
  | [] => [x]
  | y :: l' =>
      if String.leb (Py.lower (name x)) (Py.lower (name y))
      then x :: l
      else y :: insert_by_name x l'
  end.

(** [items.sort(key=lambda x: x["name"].lower())] *)
Definition sort_by_name (l : list item) : list item :=
  fold_right insert_by_name [] l.

Definition list_installed (dists : list dist) : outcome (list item) :=
  match collect dists with
  | Raise => Raise
  | Return items => Return (sort_by_name items)
  end.

End Installed.

(* ===================================================================== *)
(** * Site packages of an embedded interpreter *)
(* ===================================================================== *)

Module Site.

(** What the surroundings give to [enable_site_packages_in_embedded]:
    the path that [_embedded_pth_path()] finds with its base name, the text
    of that file or the text of the exception of reading it, and the text
    of the exception of writing it, if writing raises. *)
Record env := mk_env
  { pth : option (string * string);
    read_result : string + string;
    write_error : option string }.

(** The pair that the function returns, and the text that it has written
    to the file, if it has written. *)
Record result := mk_result
  { ok : bool; message : string; written : option string }.

Definition is_import_site (line : string) : bool :=
  String.eqb (Py.strip line) "import site".

Definition is_commented_import (line : string) : bool :=
  Py.startswith "#" (Py.strip line) && Py.contains "import site" line.

(** One turn of the loop on [(new_lines, changed)]. *)
Definition rewrite_step (st : list string * bool) (line : string)
  : list string * bool :=
  let (new_lines, changed) := st in
  if is_commented_import line
  then ((new_lines ++ ["import site"])%list, true)
  else ((new_lines ++ [line])%list, changed).

(** The loop and the statement after it. *)
Definition rewrite (lines : list string) : list string :=
  let (new_lines, changed) := fold_left rewrite_step lines ([], false) in
  if negb changed then (new_lines ++ ["import site"])%list else new_lines.

Definition enable_site_packages_in_embedded (e : env) : result :=
  match pth e with
  | None =>
      mk_result false "No pythonXY._pth found; not an embedded distro?" None
  | Some (path, basename) =>
      match read_result e with
      | inr err =>
          mk_result false ("Failed to read " ++ path ++ ": " ++ err) None
      | inl content =>
          let lines := Py.splitlines content in
          if existsb is_import_site lines
          then mk_result false
                 (basename ++ " already enables site-packages.") None
          else
            let new_lines := rewrite lines in
            match write_error e with
            | Some err =>
                mk_result false ("Failed to write " ++ path ++ ": " ++ err)
                  None
            | None =>
                mk_result true
                  ("Updated " ++ path
                   ++ ": enabled site-packages (added 'import site').")
                  (Some (Py.join nl new_lines ++ nl))
            end
      end
  end.

End Site.

(* ===================================================================== *)
(** * Starting jobs *)
(* ===================================================================== *)

Module Start.

(** What a [start_job_...] function does before its thread runs: the new
    job is in the table, and [cmd] is the command of the thread. *)
Record started := mk_started
  { jid : string; jobs : Job.table; cmd : list string }.

Definition start (uuid kind : string) (command : list string)
    (table : Job.table) : started :=
  let job := Job.new uuid kind in
  {| jid := Job.id job; jobs := Job.register_job job table; cmd := command |}.

Definition start_job_install_exact (sys_executable uuid pkg ver : string)
    (table : Job.table) : started :=
  start uuid "install_exact"
    [sys_executable; "-m"; "pip"; "install"; pkg ++ "==" ++ ver] table.

(** [ver] is [None] or a string; the empty string is false as [None] is. *)
Definition start_job_install_name (sys_executable uuid pkg : string)
    (ver : option string) (table : Job.table) : started :=
  let target :=
    match ver with
    | Some v => if Py.truthy v then pkg ++ "==" ++ v else pkg
    | None => pkg
    end in
  start uuid "install" [sys_executable; "-m"; "pip"; "install"; target] table.

Definition start_job_uninstall_multi (sys_executable uuid : string)
    (pkgs : list string) (table : Job.table) : started :=
  start uuid "uninstall"
    ([sys_executable; "-m"; "pip"; "uninstall"; "-y"] ++ pkgs)%list table.

Definition start_job_restore_requirements (sys_executable uuid req_path : string)
    (table : Job.table) : started :=
  start uuid "restore_snapshot"
    [sys_executable; "-m"; "pip"; "install"; "-r"; req_path] table.

(** The branch [/api/job/restore] of [do_POST]: [None] is the answer 404,
    for a snapshot that is not found or whose metadata document is false;
    [Raise] is an exception of [get_snapshot]. *)
Definition post_job_restore (e : Snap.env) (uuid sid : string)
    (fs : Snap.store) (table : Job.table) : outcome (option started) :=
  match Snap.get_snapshot e sid fs with
  | Raise => Raise
  | Return (Some meta, Some req_path) =>
      if Snap.doc_truthy meta
      then Return (Some (start_job_restore_requirements
                           (Snap.sys_executable e) uuid req_path table))
      else Return None
  | Return _ => Return None
  end.

End Start.

(** ** Vocabulary of the further properties *)

(** The entry of the last pin line with the key [k] among [lines], and
    [acc] when there is none. *)
Definition last_pin_from (acc : option Pkg.entry) (k : string)
    (lines : list string) : option Pkg.entry :=
  fold_left
    (fun acc line =>
       match pin_of line with
       | Some (k', v) => if String.eqb k k' then Some v else acc
       | None => acc
       end)
    lines acc.

(** A line that the parser neither passes over nor takes as a pin. *)
Definition is_other (line : string) : bool :=
  let s := Py.strip line in
  Py.truthy s && negb (Py.startswith "#" s) && negb (is_pin line).

(** All characters of [s] satisfy [p]. *)
Fixpoint all_chars (p : ascii -> bool) (s : string) : bool :=
  match s with
  | EmptyString => true
  | String c s' => p c && all_chars p s'
  end.

(** The install of a target entry that the source lacks, and the uninstall
    of a source entry. *)
Definition fresh_install (kv : string * Pkg.entry) : Pkg.install :=
  Pkg.mk_install (Pkg.name (snd kv)) None (Pkg.version (snd kv)).

Definition removal (kv : string * Pkg.entry) : Pkg.uninstall :=
  Pkg.mk_uninstall (Pkg.name (snd kv)) (Pkg.version (snd kv)).

Definition is_fresh (i : Pkg.install) : bool :=
  match Pkg.i_from i with None => true | Some _ => false end.


(** The documents that the files named [*.json] of a store hold, file by
    file. *)
Definition json_file (fc : string * Snap.content) : bool :=
  Snap.endswith ".json" (fst fc)
  && match snd fc with Snap.Json _ => true | Snap.Text _ => false end.

Definition doc_of (fc : string * Snap.content) : list Snap.doc :=
  match snd fc with Snap.Json d => [d] | Snap.Text _ => [] end.

Definition stored_docs (fs : Snap.store) : list Snap.doc :=
  flat_map doc_of (filter json_file fs).

(** A document that is an object with a text under [created_utc], or
    with no such member. *)
Definition str_keyed (d : Snap.doc) : bool :=
  match Snap.sort_key d with Some (Snap.KStr _) => true | _ => false end.




(** The package set of the text of a file. *)
Definition pkgs_of (dumps : Snap.Meta -> string) (c : Snap.content)
  : Pkg.dict :=
  fst (Pkg.parse_requirements_text (Preview.read_text dumps c)).

(** The number of commands for the counts of a plan. *)
Definition commands_for (n_install n_uninstall : nat) : nat :=
  (if n_uninstall =? 0 then 0 else 1) + n_install.

(** The order of [list_installed]. *)
Definition name_le (a b : Installed.item) : Prop :=
  str_le (Py.lower (Installed.name a)) (Py.lower (Installed.name b)).

(** The line that [rewrite] puts in the place of [line]. *)
Definition uncomment (line : string) : string :=
  if Site.is_commented_import line then "import site" else line.

(** No character of [l] ends a line. *)
Definition no_break (l : string) : bool :=
  all_chars (fun c => negb (Py.is_linebreak c)) l.

(** The lines that [enable_site_packages_in_embedded] writes for the lines
    that it has read. *)
Definition with_import_site (lines : list string) : list string :=
  (map uncomment lines
   ++ (if existsb Site.is_commented_import lines then [] else ["import site"]))%list.

(** Surroundings in which the writing of every metadata file breaks off
    after the first character. *)
Definition json_torn_env : Snap.env :=
  {| Snap.SNAP_DIR := "/data/birdfingers_snapshots";
     Snap.os_sep := "/";
     Snap.sys_executable := "/usr/bin/python3";
     Snap.run_mode := "system";
     Snap.utcnow := "20240101_120000";
     Snap.freeze := "a==3";
     Snap.open_fails := fun _ => false;
     Snap.freeze_raises := false;
     Snap.write_fails :=
       fun f => if Snap.endswith ".json" f then Some "{" else None |}.

(** The store after the sample save, and the metadata of that save. *)
Definition sample_meta : Snap.Meta := Snap.build_meta sample_env "env" "note".

Definition sample_store : Snap.store :=
  fst (Snap.save_snapshot sample_env "env" "note" []).

(** The object whose only member is [created_utc] with the number 5. *)
Definition numbered_doc : Snap.doc :=
  Snap.ObjectDoc
    ("{" ++ String (ascii_of_nat 34) "created_utc"
         ++ String (ascii_of_nat 34) ": 5}")
    (Some (Snap.KNum 5)) false.

(** A serializer of metadata for the samples. *)
Definition sample_dumps (m : Snap.Meta) : string := Snap.m_id m.

(** Surroundings two days after the sample save, with another freeze
    output, and the preview of the sample snapshot in them. *)
Definition sample_now : Snap.env :=
  quiet_env "20240103_000000" (text_of ["foo==1.0"; "qux==5"]).

Definition sample_preview : Preview.preview :=
  {| Preview.p_snapshot := sample_meta;
     Preview.p_counts := Preview.mk_counts 1 1 1 1;
     Preview.p_installs := [Pkg.mk_install "baz" None "2"];
     Preview.p_uninstalls := [Pkg.mk_uninstall "qux" "5"];
     Preview.p_unchanged := [Pkg.mk_same "Foo" "1.0"];
     Preview.p_commands :=
       ["python -m pip uninstall -y qux"; "python -m pip install baz==2"] |}.

(** A path file of an embedded interpreter with the import commented
    out. *)
Definition sample_pth : Site.env :=
  {| Site.pth := Some ("python311._pth", "python311._pth");
     Site.read_result := inl (text_of ["python311.zip"; "."; "#import site"]);
     Site.write_error := None |}.

(** The answer of a poll on a job that has no output and is not done. *)
Definition idle_reply : Job.reply :=
  {| Job.r_text := EmptyString; Job.r_pos := 0%Z; Job.r_done := false;
     Job.r_returncode := None |}.

(* ===================================================================== *)
(** * Facts on the string primitives *)
(* ===================================================================== *)

Section PyFacts.

Lemma prefix_drop (p s : string) :
  prefix p s = true -> s = (p ++ Py.drop (String.length p) s)%string.
Proof.
  revert s; induction p as [|c p IH]; intros [|d s]; simpl; try easy.
  destruct (ascii_dec c d) as [->|]; [|easy].
  intros H; f_equal; auto.
Qed.

Lemma split_once_app (sep s a b : string) :
  Py.split_once sep s = Some (a, b) -> s = (a ++ sep ++ b)%string.
Proof.
  revert a b; induction s as [|c s IH]; intros a b; cbn [Py.split_once].
  - destruct (prefix sep EmptyString) eqn:E; [|easy].
    intros [= <- <-]. now apply prefix_drop.
  - destruct (prefix sep (String c s)) eqn:E.
    + intros [= <- <-]. now apply prefix_drop.
    + destruct (Py.split_once sep s) as [[a' b']|]; [|easy].
      intros [= <- <-]. simpl. f_equal. now apply IH.
Qed.

Lemma truthy_false (s : string) : Py.truthy s = false -> s = EmptyString.
Proof. now destruct s. Qed.

(** A first character that is no space survives [strip]. *)
Lemma strip_keeps_head (c : ascii) (s : string) :
  Py.isspace c = false ->
  exists r, Py.strip (String c s) = String c r.
Proof.
  intros H. unfold Py.strip. simpl. rewrite H. simpl. rewrite H. simpl.
  eauto.
Qed.

Lemma strip_empty : Py.strip EmptyString = EmptyString.
Proof. reflexivity. Qed.

Lemma prefix_eqeq (t : string) :
  prefix "==" (String "=" (String "=" t)) = true.
Proof. destruct t; reflexivity. Qed.

(** The text before the separator [==] holds no [==], and none begins at
    its last character. *)
Lemma split_once_first (s a b : string) :
  Py.split_once "==" s = Some (a, b) ->
  forall x y, (a ++ "=")%string <> (x ++ "==" ++ y)%string.
Proof.
  revert a b; induction s as [|c s IH]; intros a b; cbn [Py.split_once].
  - cbn. discriminate.
  - destruct (prefix "==" (String c s)) eqn:E.
    + intros [= <- _] x y H.
      destruct x as [|c' [|c'' x]]; cbn in H; discriminate H.
    + destruct (Py.split_once "==" s) as [[a' b']|] eqn:Es; [|easy].
      intros [= <- <-] x y H. destruct x as [|c' x].
      * cbn in H. injection H as Hc Ht.
        apply split_once_app in Es. subst c s.
        destruct a' as [|c2 a'].
        -- change (prefix "==" (String "=" (String "=" (String "=" b')))
                   = false) in E.
           rewrite prefix_eqeq in E. discriminate E.
        -- cbn in Ht. injection Ht as -> _.
           change (prefix "==" (String "=" (String "=" (a' ++ "==" ++ b')))
                   = false) in E.
           rewrite prefix_eqeq in E. discriminate E.
      * cbn in H. injection H as _ Ht. exact (IH _ _ eq_refl x y Ht).
Qed.

Lemma startswith_cons (a b : ascii) (p s : string) :
  Py.startswith (String a p) (String b s)
  = if ascii_dec a b then Py.startswith p s else false.
Proof. reflexivity. Qed.

(** A line that the count of [save_snapshot] leaves out is also left out
    by the parser. *)
Lemma uncounted_is_skipped (l : string) :
  Py.truthy l && negb (Py.startswith "#" l) = false ->
  negb (Py.truthy (Py.strip l)) || Py.startswith "#" (Py.strip l) = true.
Proof.
  destruct l as [|c l]; [reflexivity|].
  cbn [Py.truthy andb]. rewrite startswith_cons.
  destruct (ascii_dec "#" c) as [<-|]; [|discriminate].
  intros _. destruct (strip_keeps_head "#" l eq_refl) as [r ->].
  rewrite startswith_cons.
  destruct (ascii_dec "#" "#") as [_|N]; [|now destruct N].
  destruct r; apply orb_true_r.
Qed.






End PyFacts.

(* ===================================================================== *)
(** * Facts on dictionaries *)
(* ===================================================================== *)

Section DictFacts.

Import Pkg.

Lemma get_In (k : string) (v : entry) (d : dict) :
  get k d = Some v -> In (k, v) d.
Proof.
  induction d as [|[k' v'] d IH]; simpl; [easy|].
  destruct (String.eqb_spec k k') as [->|_].
  - intros [= ->]. now left.
  - intros H. right. auto.
Qed.

Lemma get_None (k : string) (d : dict) :
  get k d = None <-> ~ In k (keys d).
Proof.
  induction d as [|[k' v'] d IH]; simpl; [tauto|].
  destruct (String.eqb_spec k k') as [->|N].
  - split; [easy|]. intros H. exfalso. apply H. now left.
  - rewrite IH. split; intros H; [intros [E|E]; [congruence|tauto]|tauto].
Qed.

Lemma In_keys (k : string) (v : entry) (d : dict) :
  In (k, v) d -> In k (keys d).
Proof. intros H. apply (in_map fst) in H. exact H. Qed.

Lemma In_get (k : string) (v : entry) (d : dict) :
  NoDup (keys d) -> In (k, v) d -> get k d = Some v.
Proof.
  induction d as [|[k' v'] d IH]; simpl; [easy|].
  intros Hnd [E|Hin].
  - injection E as -> ->. now rewrite String.eqb_refl.
  - inversion Hnd as [|? ? Hk Hnd']; subst.
    destruct (String.eqb_spec k k') as [->|_].
    + exfalso. apply Hk. eapply In_keys; eauto.
    + auto.
Qed.

Lemma mem_In (k : string) (d : dict) :
  mem k d = true <-> In k (keys d).
Proof.
  unfold mem. destruct (get k d) as [v|] eqn:E.
  - split; [|easy]. intros _. eapply In_keys, get_In; eauto.
  - apply get_None in E. split; [easy|tauto].
Qed.

Lemma keys_set (k : string) (v : entry) (d : dict) :
  keys (set k v d) = if mem k d then keys d else (keys d ++ [k])%list.
Proof.
  unfold mem. induction d as [|[k' v'] d IH]; simpl; [reflexivity|].
  destruct (String.eqb_spec k k') as [->|N]; simpl; [reflexivity|].
  rewrite IH. now destruct (get k d).
Qed.

Lemma In_set (k k' : string) (v v' : entry) (d : dict) :
  In (k', v') (set k v d) -> In (k', v') d \/ (k' = k /\ v' = v).
Proof.
  induction d as [|[k0 v0] d IH]; simpl.
  - intros [[= -> ->]|[]]. now right.
  - destruct (String.eqb_spec k k0) as [->|N]; simpl.
    + intros [[= -> ->]|H]; [now right|left; now right].
    + intros [E|H]; [left; now left|].
      destruct (IH H) as [H'|H']; [left; now right|now right].
Qed.

Lemma length_set (k : string) (v : entry) (d : dict) :
  List.length (set k v d) <= S (List.length d).
Proof.
  induction d as [|[k0 v0] d IH]; simpl; [lia|].
  destruct (String.eqb k k0); simpl; lia.
Qed.

Lemma NoDup_set (k : string) (v : entry) (d : dict) :
  NoDup (keys d) -> NoDup (keys (set k v d)).
Proof.
  intros H. rewrite keys_set. destruct (mem k d) eqn:E; [exact H|].
  apply NoDup_app; [exact H|repeat constructor; easy|].
  intros x Hx [<-|[]]. apply mem_In in Hx. congruence.
Qed.

(** Two entries under one key of a dictionary are one entry. *)
Lemma NoDup_keys_fun (k : string) (v v' : entry) (d : dict) :
  NoDup (keys d) -> In (k, v) d -> In (k, v') d -> v = v'.
Proof.
  intros Hnd H H'. apply (In_get _ _ _ Hnd) in H, H'. congruence.
Qed.

Lemma NoDup_keys_filter (f : string * entry -> bool) (d : dict) :
  NoDup (keys d) -> NoDup (keys (filter f d)).
Proof.
  induction d as [|[k v] d IH]; simpl; [constructor|].
  intros Hnd. inversion Hnd as [|? ? Hk Hnd']; subst.
  destruct (f (k, v)); simpl; auto.
  constructor; auto.
  intros Hin. apply Hk. unfold keys in *.
  apply in_map_iff in Hin as [[k' v'] [E Hin]]. simpl in E. subst.
  apply filter_In in Hin as [Hin _]. eapply In_keys; eauto.
Qed.

Lemma In_keys_filter (f : string * entry -> bool) (d : dict) (k : string) :
  In k (keys (filter f d)) <-> exists v, In (k, v) d /\ f (k, v) = true.
Proof.
  unfold keys. rewrite in_map_iff. split.
  - intros [[k' v] [E H]]. simpl in E. subst. apply filter_In in H. eauto.
  - intros [v [H E]]. exists (k, v). split; [reflexivity|].
    apply filter_In. auto.
Qed.

(** Every loop turn of the parser keeps a property of the entries that
    every parsed pin line establishes. *)
Lemma parse_line_entries (P : string -> entry -> Prop) (line : string)
    (st : dict * list string) :
  (forall nm ver, Py.split_once "==" (Py.strip line) = Some (nm, ver) ->
                  P (Py.lower nm) (mk_entry nm ver)) ->
  (forall k v, In (k, v) (fst st) -> P k v) ->
  forall k v, In (k, v) (fst (parse_line st line)) -> P k v.
Proof.
  intros Hline Hst k v. destruct st as [pkgs others]. unfold parse_line.
  destruct (negb _ || _); [apply Hst|].
  destruct (Py.contains _ _ || _); [apply Hst|].
  destruct (Py.split_once _ _) as [[nm ver]|]; [|apply Hst].
  simpl. intros H. apply In_set in H as [H|[-> ->]]; [now apply Hst|].
  now apply Hline.
Qed.

Lemma fold_parse_entries (P : string -> entry -> Prop) (lines : list string) :
  (forall line nm ver, In line lines ->
      Py.split_once "==" (Py.strip line) = Some (nm, ver) ->
      P (Py.lower nm) (mk_entry nm ver)) ->
  forall st, (forall k v, In (k, v) (fst st) -> P k v) ->
  forall k v, In (k, v) (fst (fold_left parse_line lines st)) -> P k v.
Proof.
  induction lines as [|l lines IH]; simpl; intros Hl st Hst; [exact Hst|].
  apply IH; [intros; eapply Hl; eauto|].
  apply parse_line_entries; [intros; eapply Hl; eauto|exact Hst].
Qed.

Lemma parse_line_NoDup (line : string) (st : dict * list string) :
  NoDup (keys (fst st)) -> NoDup (keys (fst (parse_line st line))).
Proof.
  destruct st as [pkgs others]. unfold parse_line. intros H.
  destruct (negb _ || _); [exact H|].
  destruct (Py.contains _ _ || _); [exact H|].
  destruct (Py.split_once _ _) as [[nm ver]|]; [|exact H].
  now apply NoDup_set.
Qed.

Lemma fold_parse_NoDup (lines : list string) (st : dict * list string) :
  NoDup (keys (fst st)) ->
  NoDup (keys (fst (fold_left parse_line lines st))).
Proof.
  revert st; induction lines as [|l lines IH]; simpl; intros st H; [exact H|].
  now apply IH, parse_line_NoDup.
Qed.

(** What [parse_requirements_text] returns is a package set. *)
Lemma parse_wf (text : string) : wf (fst (parse_requirements_text text)).
Proof.
  split.
  - apply fold_parse_NoDup. constructor.
  - unfold keyed.
    apply (fold_parse_entries (fun k v => k = Py.lower (name v))).
    + reflexivity.
    + intros k v [].
Qed.

End DictFacts.

(* ===================================================================== *)
(** * The diff *)
(* ===================================================================== *)

Section DiffFacts.

Import Pkg.

Lemma keyed_tail (kv : string * entry) (d : dict) :
  keyed (kv :: d) -> keyed d.
Proof. intros H k v Hin. apply H. now right. Qed.

Lemma diff_target_keys (S T : dict) :
  keyed T ->
  install_keys (fst (diff_target S T)) = keys (filter (to_install S) T)
  /\ same_keys (snd (diff_target S T))
     = keys (filter (fun kt => negb (to_install S kt)) T).
Proof.
  induction T as [|[k t] T IH]; intros HT; [now split|].
  destruct (IH (keyed_tail _ _ HT)) as [IHi IHs].
  assert (Hk : k = Py.lower (name t)) by (apply HT; now left).
  assert (E : to_install S (k, t)
              = match get k S with
                | None => true
                | Some cur => negb (String.eqb (version cur) (version t))
                end) by reflexivity.
  cbn [diff_target filter].
  destruct (diff_target S T) as [installs unchanged].
  cbn [fst snd] in IHi, IHs. rewrite E.
  unfold install_keys, same_keys, keys in *.
  destruct (get k S) as [cur|];
    [destruct (negb (String.eqb (version cur) (version t)))|];
    cbn [negb fst snd map i_name s_name]; rewrite <- ?Hk;
    split; congruence.
Qed.

Lemma diff_current_keys (S T : dict) :
  keyed S ->
  uninstall_keys (diff_current S T) = keys (filter (to_uninstall T) S).
Proof.
  induction S as [|[k c] S IH]; intros HS; [reflexivity|].
  assert (Hk : k = Py.lower (name c)) by (apply HS; now left).
  pose proof (IH (keyed_tail _ _ HS)) as IH'.
  cbn [diff_current filter]. unfold to_uninstall at 1. cbn [fst].
  unfold uninstall_keys, keys in *.
  destruct (negb (mem k T)); cbn [map u_name fst]; rewrite <- ?Hk;
    congruence.
Qed.

(** The first loop on a target whose items all stand in the source
    unchanged. *)
Lemma diff_target_same (S T : dict) :
  (forall k v, In (k, v) T -> get k S = Some v) ->
  diff_target S T
  = ([], map (fun kv => mk_same (name (snd kv)) (version (snd kv))) T).
Proof.
  induction T as [|[k t] T IH]; intros H; [reflexivity|].
  cbn [diff_target map snd]. rewrite IH by (intros; apply H; now right).
  rewrite (H k t) by now left. now rewrite String.eqb_refl.
Qed.

Lemma diff_current_none (S T : dict) :
  (forall k, In k (keys S) -> In k (keys T)) -> diff_current S T = [].
Proof.
  induction S as [|[k c] S IH]; intros H; [reflexivity|].
  cbn [diff_current].
  assert (E : mem k T = true) by (apply mem_In, H; now left).
  rewrite E. cbn [negb]. apply IH. intros; apply H; now right.
Qed.

Lemma same_keys_map (d : dict) :
  keyed d ->
  same_keys (map (fun kv => mk_same (name (snd kv)) (version (snd kv))) d)
  = keys d.
Proof.
  induction d as [|[k v] d IH]; intros H; [reflexivity|].
  cbn [map same_keys keys s_name snd fst].
  rewrite <- (H k v) by now left. f_equal.
  now apply IH, (keyed_tail (k, v)).
Qed.

End DiffFacts.

Section DiffPartition.

Import Pkg.

Variables S T : dict.
Hypothesis HS : wf S.
Hypothesis HT : wf T.

Local Abbreviation I := (keys (filter (to_install S) T)).
Local Abbreviation N := (keys (filter (fun kt => negb (to_install S kt)) T)).
Local Abbreviation U := (keys (filter (to_uninstall T) S)).

Lemma to_install_true (k : string) (t : entry) :
  to_install S (k, t) = true <->
  ~ In k (keys S) \/ exists s, In (k, s) S /\ version s <> version t.
Proof.
  unfold to_install. cbn [fst snd]. destruct (get k S) as [s|] eqn:E.
  - pose proof (get_In _ _ _ E) as Hin. rewrite negb_true_iff.
    rewrite String.eqb_neq. split.
    + intros H. right. eauto.
    + intros [H|[s' [H' Hv]]].
      * exfalso. apply H. eapply In_keys; eauto.
      * now rewrite (NoDup_keys_fun k s s' S (proj1 HS) Hin H').
  - apply get_None in E. tauto.
Qed.

Lemma in_I (k : string) :
  In k I <-> exists t, In (k, t) T /\ to_install S (k, t) = true.
Proof. apply In_keys_filter. Qed.

Lemma in_N (k : string) :
  In k N <-> exists t, In (k, t) T /\ to_install S (k, t) = false.
Proof.
  unfold N. rewrite In_keys_filter.
  split; intros [t [H E]]; exists t; split; auto;
    [now apply negb_true_iff in E|now apply negb_true_iff].
Qed.

Lemma in_U (k : string) :
  In k U <-> In k (keys S) /\ ~ In k (keys T).
Proof.
  unfold U. rewrite In_keys_filter. unfold to_uninstall. cbn [fst].
  split.
  - intros [s [H E]]. apply negb_true_iff in E. split.
    + eapply In_keys; eauto.
    + intros Hin. apply mem_In in Hin. congruence.
  - intros [H H']. apply in_map_iff in H as [[k' s] [E H]].
    cbn in E. subst k'. exists s. split; [exact H|].
    apply negb_true_iff. destruct (mem k T) eqn:M; [|reflexivity].
    apply mem_In in M. tauto.
Qed.

Lemma I_N_disjoint (k : string) : In k I -> ~ In k N.
Proof.
  intros [t [Ht E]]%in_I [t' [Ht' E']]%in_N.
  rewrite (NoDup_keys_fun k t t' T (proj1 HT) Ht Ht') in E. congruence.
Qed.

Lemma I_U_disjoint (k : string) : In k I -> ~ In k U.
Proof.
  intros [t [Ht _]]%in_I [_ H]%in_U. apply H. eapply In_keys; eauto.
Qed.

Lemma U_N_disjoint (k : string) : In k U -> ~ In k N.
Proof.
  intros [_ H]%in_U [t [Ht _]]%in_N. apply H. eapply In_keys; eauto.
Qed.

Lemma parts_NoDup : NoDup (I ++ U ++ N).
Proof.
  apply NoDup_app.
  - apply NoDup_keys_filter, HT.
  - apply NoDup_app.
    + apply NoDup_keys_filter, HS.
    + apply NoDup_keys_filter, HT.
    + apply U_N_disjoint.
  - intros k Hi [Hu|Hn]%in_app_or.
    + now apply (I_U_disjoint k).
    + now apply (I_N_disjoint k).
Qed.

Lemma parts_cover (k : string) :
  In k (I ++ U ++ N) <-> In k (keys S) \/ In k (keys T).
Proof.
  rewrite !in_app_iff, in_I, in_U, in_N. split.
  - intros [[t [Ht _]]|[[H _]|[t [Ht _]]]]; [right|now left|right];
      eapply In_keys; eauto.
  - assert (HinT : In k (keys T) ->
              (exists t, In (k, t) T /\ to_install S (k, t) = true)
              \/ (exists t, In (k, t) T /\ to_install S (k, t) = false)).
    { intros H. apply in_map_iff in H as [[k' t] [E H]]. cbn in E. subst k'.
      destruct (to_install S (k, t)) eqn:E; eauto. }
    intros [H|H].
    + destruct (in_dec string_dec k (keys T)) as [H'|H'].
      * destruct (HinT H'); tauto.
      * right; left. tauto.
    + destruct (HinT H); tauto.
Qed.

End DiffPartition.

(* ===================================================================== *)
(** * Claims on the package set and the diff *)
(* ===================================================================== *)

(** C1. For package sets [S] and [T] (distinct keys, each key the lowercase
    form of its display name), the normalized-name keys of the installs,
    uninstalls and unchanged lists of [diff_envs S T] hold no key twice,
    are pairwise disjoint, and together are the keys of [S] and of [T]. A
    key on both sides with equal version is in unchanged; a key of the
    target only, or on both sides with differing version, is in installs;
    a key of the source only is in uninstalls. *)
Theorem diff_envs_partition (S T : Pkg.dict) :
  Pkg.wf S -> Pkg.wf T ->
  let '(installs, uninstalls, unchanged) := Pkg.diff_envs S T in
  let I := Pkg.install_keys installs in
  let U := Pkg.uninstall_keys uninstalls in
  let N := Pkg.same_keys unchanged in
  NoDup (I ++ U ++ N)
  /\ (forall k, In k I -> ~ In k U)
  /\ (forall k, In k I -> ~ In k N)
  /\ (forall k, In k U -> ~ In k N)
  /\ (forall k, In k (I ++ U ++ N) <-> In k (Pkg.keys S) \/ In k (Pkg.keys T))
  /\ (forall k s t, In (k, s) S -> In (k, t) T ->
        Pkg.version s = Pkg.version t -> In k N)
  /\ (forall k t, In (k, t) T -> ~ In k (Pkg.keys S) -> In k I)
  /\ (forall k s t, In (k, s) S -> In (k, t) T ->
        Pkg.version s <> Pkg.version t -> In k I)
  /\ (forall k s, In (k, s) S -> ~ In k (Pkg.keys T) -> In k U).
Proof.
  intros HS HT. unfold Pkg.diff_envs.
  destruct (diff_target_keys S T (proj2 HT)) as [Ei En].
  pose proof (diff_current_keys S T (proj2 HS)) as Eu.
  destruct (Pkg.diff_target S T) as [installs unchanged].
  cbn [fst snd] in Ei, En. cbv zeta. rewrite Ei, En, Eu.
  split; [now apply parts_NoDup|].
  split; [now apply I_U_disjoint|].
  split; [now apply I_N_disjoint|].
  split; [now apply U_N_disjoint|].
  split; [now apply parts_cover|].
  split; [|split; [|split]].
  - intros k s t Hs Ht Hv. apply (in_N S T). exists t. split; [exact Ht|].
    destruct (to_install S (k, t)) eqn:E; [|reflexivity].
    apply (to_install_true S HS) in E as [E|[s' [Hs' Hv']]].
    + exfalso. apply E. eapply In_keys; eauto.
    + rewrite (NoDup_keys_fun k s s' S (proj1 HS) Hs Hs') in Hv. contradiction.
  - intros k t Ht Hk. apply (in_I S T). exists t. split; [exact Ht|].
    apply (to_install_true S HS). now left.
  - intros k s t Hs Ht Hv. apply (in_I S T). exists t. split; [exact Ht|].
    apply (to_install_true S HS). right. eauto.
  - intros k s Hs Hk. apply (in_U S T). split; [|exact Hk].
    eapply In_keys; eauto.
Qed.

(** C8. For a package set [S], [diff_envs S S] has no installs and no
    uninstalls, and its unchanged list is the list of the entries of [S], in
    the order of [S]: its keys are exactly the keys of [S]. *)
Theorem diff_envs_self (S : Pkg.dict) :
  Pkg.wf S ->
  Pkg.diff_envs S S
  = ([], [],
     map (fun kv => Pkg.mk_same (Pkg.name (snd kv)) (Pkg.version (snd kv))) S)
  /\ Pkg.same_keys (snd (Pkg.diff_envs S S)) = Pkg.keys S.
Proof.
  intros [Hnd Hk].
  assert (E : Pkg.diff_envs S S
              = ([], [],
                 map (fun kv => Pkg.mk_same (Pkg.name (snd kv))
                                  (Pkg.version (snd kv))) S)).
  { unfold Pkg.diff_envs.
    rewrite diff_target_same by (intros; now apply In_get).
    now rewrite diff_current_none. }
  split; [exact E|]. rewrite E. cbn [snd]. now apply same_keys_map.
Qed.

(** C6, as the code has it. For every text, every entry that
    [parse_requirements_text] returns stands under the lowercase form of its
    display name, and display name, [==] and version together are the
    stripped form of a line of the text, split at the first [==] of that
    line: no [==] begins inside the display name. The version is what
    follows that first [==], and nothing keeps it from being empty. *)
Theorem parse_entry_invariant (text : string) (k : string) (v : Pkg.entry) :
  In (k, v) (fst (Pkg.parse_requirements_text text)) ->
  k = Py.lower (Pkg.name v)
  /\ (exists line, In line (Py.splitlines text)
        /\ Py.strip line = (Pkg.name v ++ "==" ++ Pkg.version v)%string)
  /\ (forall x y, (Pkg.name v ++ "=")%string <> (x ++ "==" ++ y)%string).
Proof.
  revert k v. unfold Pkg.parse_requirements_text.
  apply (fold_parse_entries
           (fun k v => k = Py.lower (Pkg.name v)
              /\ (exists line, In line (Py.splitlines text)
                    /\ Py.strip line
                       = (Pkg.name v ++ "==" ++ Pkg.version v)%string)
              /\ (forall x y, (Pkg.name v ++ "=")%string
                              <> (x ++ "==" ++ y)%string))).
  - intros line nm ver Hin Hsp. split; [reflexivity|]. split.
    + exists line. split; [exact Hin|]. now apply split_once_app.
    + cbn [Pkg.name]. now apply (split_once_first (Py.strip line) nm ver).
  - intros k v [].
Qed.



Lemma render_commands_nil (installs : list Pkg.install)
    (uninstalls : list Pkg.uninstall) :
  Pkg.render_commands installs uninstalls = [] <->
  installs = [] /\ uninstalls = [].
Proof.
  unfold Pkg.render_commands.
  destruct uninstalls as [|u us]; destruct installs as [|i0 is0];
    cbn; split; try easy; intros [H1 H2]; discriminate.
Qed.

Lemma render_commands_length (installs : list Pkg.install)
    (uninstalls : list Pkg.uninstall) :
  List.length (Pkg.render_commands installs uninstalls)
  = commands_for (List.length installs) (List.length uninstalls).
Proof.
  unfold Pkg.render_commands, commands_for.
  destruct uninstalls; cbn [app List.length Nat.add Nat.eqb];
    now rewrite length_map.
Qed.

(* ===================================================================== *)
(** * The count of a snapshot *)
(* ===================================================================== *)

Section CountFacts.

Import Pkg.

Lemma fst_parse_line (st : dict * list string) (line : string) :
  fst (parse_line st line)
  = match pin_of line with
    | Some (k, v) => set k v (fst st)
    | None => fst st
    end.
Proof.
  destruct st as [pkgs others]. unfold parse_line, pin_of.
  destruct (negb _ || _); [reflexivity|].
  destruct (Py.contains _ _ || _); [reflexivity|].
  now destruct (Py.split_once _ _) as [[nm ver]|].
Qed.

(** A pin line is one of the lines that [save_snapshot] counts. *)
Lemma pin_is_counted (l : string) :
  is_pin l = true -> counted l = true.
Proof.
  unfold is_pin, pin_of, counted. cbv zeta. intros H.
  destruct (Py.truthy l && negb (Py.startswith "#" l)) eqn:E; [reflexivity|].
  apply uncounted_is_skipped in E. rewrite E in H. discriminate H.
Qed.

Lemma pins_le_counted (lines : list string) :
  List.length (filter is_pin lines) <= List.length (filter counted lines).
Proof.
  induction lines as [|l lines IH]; simpl; [lia|].
  destruct (is_pin l) eqn:E.
  - rewrite (pin_is_counted l E). simpl. lia.
  - destruct (counted l); simpl; lia.
Qed.

Lemma fold_parse_length (lines : list string) (st : dict * list string) :
  List.length (fst (fold_left parse_line lines st))
  <= List.length (fst st) + List.length (filter is_pin lines).
Proof.
  revert st; induction lines as [|l lines IH]; intros st; simpl; [lia|].
  eapply Nat.le_trans; [apply IH|]. rewrite fst_parse_line. unfold is_pin.
  destruct (pin_of l) as [[k v]|]; simpl; [|lia].
  pose proof (length_set k v (fst st)). lia.
Qed.

(** When the pin lines have pairwise distinct keys that are new to the
    dictionary, each of them adds its key. *)
Lemma fold_parse_keys (lines : list string) (st : dict * list string) :
  NoDup (keys (fst st) ++ map pin_key (filter is_pin lines)) ->
  keys (fst (fold_left parse_line lines st))
  = (keys (fst st) ++ map pin_key (filter is_pin lines))%list.
Proof.
  revert st; induction lines as [|l lines IH]; intros st.
  - cbn. now rewrite app_nil_r.
  - cbn [fold_left]. pose proof (fst_parse_line st l) as E.
    destruct (pin_of l) as [[k v]|] eqn:P.
    + assert (F : filter is_pin (l :: lines) = l :: filter is_pin lines)
        by (cbn [filter]; unfold is_pin at 1; now rewrite P).
      assert (Kl : pin_key l = k) by (unfold pin_key; now rewrite P).
      rewrite F. cbn [map]. rewrite Kl. intros Hnd.
      assert (M : mem k (fst st) = false).
      { destruct (mem k (fst st)) eqn:M; [|reflexivity].
        apply mem_In in M. apply NoDup_remove_2 in Hnd.
        exfalso. apply Hnd. apply in_or_app. now left. }
      assert (K : keys (fst (parse_line st l)) = (keys (fst st) ++ [k])%list).
      { rewrite E, keys_set. now rewrite M. }
      rewrite IH; rewrite K, <- app_assoc; [reflexivity|exact Hnd].
    + assert (F : filter is_pin (l :: lines) = filter is_pin lines)
        by (cbn [filter]; unfold is_pin at 1; now rewrite P).
      rewrite F. intros Hnd. rewrite IH; rewrite E; [reflexivity|exact Hnd].
Qed.

End CountFacts.

(* ===================================================================== *)
(** * Facts on the snapshot store *)
(* ===================================================================== *)

Section StoreFacts.

Import Snap.

Lemma read_write_eq (f : string) (c : content) (fs : store) :
  read f (write f c fs) = Some c.
Proof.
  induction fs as [|[g c'] fs IH]; simpl.
  - now rewrite String.eqb_refl.
  - destruct (String.eqb_spec f g) as [->|N]; simpl.
    + now rewrite String.eqb_refl.
    + destruct (String.eqb_spec f g); [contradiction|exact IH].
Qed.

Lemma read_write_ne (f g : string) (c : content) (fs : store) :
  f <> g -> read g (write f c fs) = read g fs.
Proof.
  intros N. induction fs as [|[h c'] fs IH]; simpl.
  - destruct (String.eqb_spec g f); [congruence|reflexivity].
  - destruct (String.eqb_spec f h) as [->|N']; simpl.
    + destruct (String.eqb_spec g h); [congruence|reflexivity].
    + now rewrite IH.
Qed.

Lemma read_remove_ne (f g : string) (fs : store) :
  f <> g -> read g (remove f fs) = read g fs.
Proof.
  intros N. induction fs as [|[h c'] fs IH]; simpl; [reflexivity|].
  destruct (String.eqb_spec f h) as [->|N']; simpl.
  - destruct (String.eqb_spec g h); [congruence|exact IH].
  - now rewrite IH.
Qed.

Lemma read_In (f : string) (c : content) (fs : store) :
  read f fs = Some c -> In (f, c) fs.
Proof.
  induction fs as [|[g c'] fs IH]; simpl; [easy|].
  destruct (String.eqb_spec f g) as [->|N].
  - intros [= ->]. now left.
  - intros H. right. auto.
Qed.

Lemma exists_read (f : string) (fs : store) :
  exists_ f fs = false <-> read f fs = None.
Proof. unfold exists_. destruct (read f fs); split; easy. Qed.

Lemma length_append (a b : string) :
  String.length (a ++ b) = String.length a + String.length b.
Proof. induction a as [|c a IH]; simpl; [reflexivity|now rewrite IH]. Qed.

Lemma drop_append (a b : string) : Py.drop (String.length a) (a ++ b) = b.
Proof.
  induction a as [|c a IH]; simpl; [now destruct b|exact IH].
Qed.

Lemma endswith_append (s suf : string) : endswith suf (s ++ suf) = true.
Proof.
  unfold endswith. rewrite length_append.
  replace (String.length s + String.length suf - String.length suf)
    with (String.length s) by lia.
  rewrite drop_append, String.eqb_refl.
  apply andb_true_iff. split; [apply Nat.leb_le; lia|reflexivity].
Qed.

Lemma append_inv_head (s a b : string) :
  (s ++ a = s ++ b)%string -> a = b.
Proof. induction s as [|c s IH]; simpl; [easy|]. intros [= H]. auto. Qed.

(** Two texts that end in parts of one length are equal only part by
    part. *)
Lemma append_inv_same_length (a a' b b' : string) :
  String.length b = String.length b' ->
  (a ++ b = a' ++ b')%string -> a = a' /\ b = b'.
Proof.
  intros Hl. revert a'. induction a as [|c a IH]; intros [|c' a'] E.
  - now split.
  - simpl in E. exfalso. apply (f_equal String.length) in E.
    simpl in E. rewrite length_append in E. lia.
  - simpl in E. exfalso. apply (f_equal String.length) in E.
    simpl in E. rewrite length_append in E. lia.
  - simpl in E. injection E as -> E. destruct (IH _ E) as [-> ->].
    now split.
Qed.

Lemma json_not_txt (a b : string) : (a ++ ".json")%string <> (b ++ ".txt")%string.
Proof.
  intros E. apply (f_equal (fun s => Py.drop (String.length s - 1) s)) in E.
  rewrite !length_append in E. cbn [String.length] in E.
  replace (String.length a + 5 - 1) with (String.length (a ++ ".jso")) in E
    by (rewrite length_append; simpl; lia).
  replace (String.length b + 4 - 1) with (String.length (b ++ ".tx")) in E
    by (rewrite length_append; simpl; lia).
  change (a ++ ".json")%string with (a ++ (".jso" ++ "n"))%string in E.
  change (b ++ ".txt")%string with (b ++ (".tx" ++ "t"))%string in E.
  assert (A : forall x y z : string, (x ++ (y ++ z) = (x ++ y) ++ z)%string).
  { intros x y z. induction x as [|c x IH]; simpl; [reflexivity|now rewrite IH]. }
  rewrite !A, !drop_append in E. discriminate E.
Qed.

Lemma load_metas_In (f : string) (d : doc) (fs : store) :
  endswith ".json" f = true -> In (f, Json d) fs -> In d (load_metas fs).
Proof.
  intros He. induction fs as [|[g c] fs IH]; simpl; [easy|].
  intros [[= -> ->]|H].
  - rewrite He. now left.
  - destruct (endswith ".json" g); [|auto]. destruct c; [auto|right; auto].
Qed.

(** What the loop loads is in a file named [*.json]. *)
Lemma load_metas_from (d : doc) (fs : store) :
  In d (load_metas fs) ->
  exists f, endswith ".json" f = true /\ In (f, Json d) fs.
Proof.
  induction fs as [|[g c] fs IH]; simpl; [easy|].
  destruct (endswith ".json" g) eqn:E.
  - destruct c as [t|d'].
    + intros H. destruct (IH H) as [f [Hf Hin]]. exists f. auto.
    + intros [<-|H].
      * exists g. auto.
      * destruct (IH H) as [f [Hf Hin]]. exists f. auto.
  - intros H. destruct (IH H) as [f [Hf Hin]]. exists f. auto.
Qed.

(** The loop, file by file. *)
Lemma load_metas_stored_docs (fs : store) : load_metas fs = stored_docs fs.
Proof.
  unfold stored_docs, json_file, doc_of.
  induction fs as [|[g c] fs IH]; [reflexivity|].
  cbn [load_metas filter fst snd].
  destruct (endswith ".json" g); cbn [andb]; [|exact IH].
  destruct c as [t|d]; cbn [flat_map snd app]; [exact IH|now rewrite IH].
Qed.

Lemma insert_desc_perm (d : doc) (l : list doc) :
  Permutation (d :: l) (insert_desc d l).
Proof.
  induction l as [|y l IH]; simpl; [apply Permutation_refl|].
  destruct (key_lt _ _); [|apply Permutation_refl].
  eapply perm_trans; [apply perm_swap|]. now apply perm_skip.
Qed.

Lemma sort_desc_perm (l : list doc) : Permutation (sort_desc l) l.
Proof.
  induction l as [|x l IH]; simpl; [constructor|].
  eapply perm_trans; [apply Permutation_sym, insert_desc_perm|].
  now apply perm_skip.
Qed.

(** A sort that returns has put its elements in another order, and
    nothing else. *)
Lemma sort_metas_perm (l l' : list doc) :
  sort_metas l = Return l' -> Permutation l' l.
Proof.
  unfold sort_metas. destruct (forallb has_key l); [|discriminate].
  destruct (comparable _); [|discriminate].
  intros [= <-]. apply sort_desc_perm.
Qed.

Lemma forallb_is_str_map (l : list doc) :
  forallb is_str (map key_of l) = forallb str_keyed l.
Proof.
  induction l as [|d l IH]; [reflexivity|]. cbn [map forallb]. rewrite IH.
  f_equal. unfold str_keyed, key_of. now destruct (sort_key d) as [[| |]|].
Qed.

Lemma str_keyed_has_key (l : list doc) :
  forallb str_keyed l = true -> forallb has_key l = true.
Proof.
  induction l as [|d l IH]; [reflexivity|]. cbn [forallb].
  intros H. apply andb_true_iff in H as [H1 H2]. rewrite (IH H2), andb_true_r.
  unfold str_keyed in H1. unfold has_key. now destruct (sort_key d).
Qed.

(** Documents that are objects with a text under [created_utc], or with
    no such member, are sorted without an exception. *)
Lemma sort_metas_str (l : list doc) :
  forallb str_keyed l = true -> sort_metas l = Return (sort_desc l).
Proof.
  intros H. unfold sort_metas, comparable.
  rewrite (str_keyed_has_key l H), forallb_is_str_map, H.
  now rewrite orb_true_r.
Qed.

(** When one of the documents is such an object, the sort returns only
    when all are. *)
Lemma sort_metas_returns_str (l l' : list doc) (d : doc) :
  In d l -> str_keyed d = true -> sort_metas l = Return l' ->
  forallb str_keyed l = true.
Proof.
  intros Hin Hd. unfold sort_metas, comparable.
  destruct (forallb has_key l) eqn:Hk; [|discriminate].
  rewrite forallb_is_str_map.
  destruct (forallb str_keyed l) eqn:Hs; [reflexivity|].
  rewrite orb_false_r.
  destruct (forallb is_num (map key_of l)) eqn:Hn.
  - exfalso. rewrite forallb_forall in Hn.
    specialize (Hn (key_of d) (in_map key_of l d Hin)).
    unfold str_keyed in Hd. unfold key_of in Hn.
    now destruct (sort_key d) as [[| |]|].
  - rewrite orb_false_r. destruct l as [|a [|b l]]; cbn [List.length map].
    + contradiction.
    + destruct Hin as [->|[]]. cbn [forallb] in Hs.
      rewrite Hd in Hs. discriminate.
    + cbn. discriminate.
Qed.

Lemma take_drop (n : nat) (s : string) :
  (Py.take n s ++ Py.drop n s)%string = s.
Proof.
  revert s; induction n as [|n IH]; intros [|c s]; cbn; try reflexivity.
  now rewrite IH.
Qed.

Lemma endswith_inv (suf s : string) :
  endswith suf s = true -> exists x, s = (x ++ suf)%string.
Proof.
  unfold endswith. intros [_ H]%andb_true_iff. apply String.eqb_eq in H.
  set (n := String.length s - String.length suf) in *.
  exists (Py.take n s). rewrite <- H. symmetry. apply take_drop.
Qed.

Lemma txt_is_not_json (b : string) : endswith ".json" (b ++ ".txt") = false.
Proof.
  destruct (endswith ".json" (b ++ ".txt")) eqn:E; [|reflexivity].
  apply endswith_inv in E as [x E]. symmetry in E.
  now apply json_not_txt in E.
Qed.

Lemma load_metas_write_other (f : string) (c : content) (fs : store) :
  endswith ".json" f = false -> load_metas (write f c fs) = load_metas fs.
Proof.
  intros E. induction fs as [|[g c'] fs IH]; simpl.
  - now rewrite E.
  - destruct (String.eqb_spec f g) as [<-|N]; simpl.
    + now rewrite E.
    + now rewrite IH.
Qed.










Lemma In_write (g f : string) (c c' : content) (fs : store) :
  In (g, c') (write f c fs) -> (g, c') = (f, c) \/ In (g, c') fs.
Proof.
  induction fs as [|[h c0] fs IH]; cbn [write].
  - intros [H|[]]. left. now symmetry.
  - destruct (String.eqb_spec f h) as [<-|N].
    + intros [H|H]; [left; now symmetry|right; now right].
    + intros [H|H]; [right; now left|].
      destruct (IH H) as [E|E]; [now left|right; now right].
Qed.

(** Text in the place of a file adds no document. *)
Lemma load_metas_write_text (f t : string) (fs : store) (d : doc) :
  In d (load_metas (write f (Text t) fs)) -> In d (load_metas fs).
Proof.
  intros H. destruct (load_metas_from _ _ H) as [g [Hg Hin]].
  apply In_write in Hin as [E|Hin]; [discriminate|].
  now apply (load_metas_In g).
Qed.

Lemma squash_truthy (s : string) :
  Py.truthy s = true -> Py.truthy (squash false s) = true.
Proof. destruct s as [|c s]; simpl; [easy|]. now destruct (allowed c). Qed.

Lemma or_else_truthy (x d : string) :
  Py.truthy d = true -> Py.truthy (or_else x d) = true.
Proof. unfold or_else. now destruct (Py.truthy x) eqn:E. Qed.

(** [_safe_name] never returns the empty string. *)
Lemma safe_name_truthy (s : string) : Py.truthy (_safe_name s) = true.
Proof.
  unfold _safe_name.
  pose proof (squash_truthy _ (or_else_truthy (Py.strip s) "snapshot" eq_refl)).
  now destruct (squash false _).
Qed.

Lemma snapshot_id_eq (e : env) (name : string) :
  snapshot_id e name = (_safe_name name ++ "_" ++ utcnow e)%string.
Proof.
  unfold snapshot_id, or_else. now rewrite safe_name_truthy.
Qed.

End StoreFacts.

Section SaveFacts.

Import Snap.

Lemma save_ok (e : env) (name comment : string) (fs fs' : store) (m : Meta) :
  save_snapshot e name comment fs = (fs', Return m) ->
  m = build_meta e name comment
  /\ fs' = write (snapshot_id e name ++ ".json") (Json m)
             (write (snapshot_id e name ++ ".txt") (Text (freeze e)) fs).
Proof.
  unfold save_snapshot, write_file.
  destruct (freeze_raises e); [easy|].
  destruct (open_fails e (snapshot_id e name ++ ".txt")); [easy|].
  destruct (write_fails e (snapshot_id e name ++ ".txt")); [easy|].
  destruct (open_fails e (snapshot_id e name ++ ".json")); [easy|].
  destruct (write_fails e (snapshot_id e name ++ ".json")); [easy|].
  intros [= <- <-]. now split.
Qed.

Lemma txt_ne (a b : string) : a <> b -> (a ++ ".txt")%string <> (b ++ ".txt")%string.
Proof.
  intros N E. apply N. now apply (append_inv_same_length a b ".txt" ".txt").
Qed.

Lemma json_ne (a b : string) :
  a <> b -> (a ++ ".json")%string <> (b ++ ".json")%string.
Proof.
  intros N E. apply N. now apply (append_inv_same_length a b ".json" ".json").
Qed.

(** After a save that returns, both records of the new id are in the
    store and [get_snapshot] finds them. *)
Lemma save_then_get (e : env) (name comment : string) (fs fs' : store)
    (m : Meta) :
  save_snapshot e name comment fs = (fs', Return m) ->
  read (m_id m ++ ".txt") fs' = Some (Text (freeze e))
  /\ read (m_id m ++ ".json") fs' = Some (Json m)
  /\ get_snapshot e (m_id m) fs' = Return (Some m, Some (m_path m)).
Proof.
  intros H. destruct (save_ok _ _ _ _ _ _ H) as [Hm Hfs].
  assert (Hid : m_id m = snapshot_id e name) by now rewrite Hm.
  assert (Ht : read (m_id m ++ ".txt") fs' = Some (Text (freeze e))).
  { rewrite Hfs, Hid, read_write_ne by apply json_not_txt.
    apply read_write_eq. }
  assert (Hj : read (m_id m ++ ".json") fs' = Some (Json m)).
  { rewrite Hfs, Hid. apply read_write_eq. }
  split; [exact Ht|]. split; [exact Hj|].
  unfold get_snapshot, exists_. rewrite Ht, Hj. cbn [andb negb].
  now rewrite Hm.
Qed.

(** A later save under another id leaves the records of an id as they
    are. *)
Lemma save_keeps_other (e : env) (name comment : string) (fs fs' : store)
    (m : Meta) (id_ : string) :
  save_snapshot e name comment fs = (fs', Return m) ->
  id_ <> m_id m ->
  read (id_ ++ ".txt") fs' = read (id_ ++ ".txt") fs
  /\ read (id_ ++ ".json") fs' = read (id_ ++ ".json") fs.
Proof.
  intros H N. destruct (save_ok _ _ _ _ _ _ H) as [Hm Hfs].
  assert (Hid : m_id m = snapshot_id e name) by now rewrite Hm.
  rewrite Hid in N. rewrite Hfs. split.
  - rewrite read_write_ne by apply json_not_txt.
    apply read_write_ne. apply txt_ne. congruence.
  - rewrite read_write_ne by (apply json_ne; congruence).
    apply read_write_ne. intros E. symmetry in E.
    now apply json_not_txt in E.
Qed.

End SaveFacts.

(* ===================================================================== *)
(** * Claims on the snapshot store *)
(* ===================================================================== *)

(** C2, as the code has it. A save that returns has stored its metadata
    under the new id, and the field [count] of that metadata is the number
    of lines of the captured text that are not empty and do not begin with
    [#]. That number is at least the number of entries of the captured
    package set, and equal to it when every line of the text is a pin and
    no two pins share a normalized name. *)
Theorem save_snapshot_count (e : Snap.env) (name comment : string)
    (fs fs' : Snap.store) (meta : Snap.Meta) :
  Snap.save_snapshot e name comment fs = (fs', Return meta) ->
  let lines := Py.splitlines (Snap.freeze e) in
  let pkgs := fst (Pkg.parse_requirements_text (Snap.freeze e)) in
  Snap.read (Snap.m_id meta ++ ".json") fs' = Some (Snap.Json meta)
  /\ Snap.m_count meta = List.length (filter counted lines)
  /\ List.length pkgs <= Snap.m_count meta
  /\ (Forall (fun l => is_pin l = true) lines ->
      NoDup (map pin_key lines) ->
      List.length pkgs = Snap.m_count meta).
Proof.
  intros H lines pkgs.
  destruct (save_then_get _ _ _ _ _ _ H) as [_ [Hj _]].
  destruct (save_ok _ _ _ _ _ _ H) as [Hm _].
  assert (Hc : Snap.m_count meta = List.length (filter counted lines))
    by now rewrite Hm.
  split; [exact Hj|]. split; [exact Hc|]. rewrite Hc. split.
  - eapply Nat.le_trans; [apply (fold_parse_length lines ([], []))|].
    apply pins_le_counted.
  - intros Hall Hnd.
    assert (Fp : filter is_pin lines = lines).
    { clear -Hall. induction Hall as [|l ls Hl _ IH]; simpl; [reflexivity|].
      now rewrite Hl, IH. }
    assert (Fc : filter counted lines = lines).
    { clear -Hall. induction Hall as [|l ls Hl _ IH]; simpl; [reflexivity|].
      now rewrite (pin_is_counted l Hl), IH. }
    rewrite Fc. unfold pkgs, Pkg.parse_requirements_text. fold lines.
    pose proof (fold_parse_keys lines ([], [])) as K.
    cbn [fst Pkg.keys map app] in K. rewrite Fp in K.
    specialize (K Hnd). apply (f_equal (@List.length string)) in K.
    unfold Pkg.keys in K. now rewrite !length_map in K.
Qed.

(** C3, as the code has it. When the metadata record of an id is in the
    store and its payload record is not, [get_snapshot] returns absent.
    [list_snapshots] does not look at payload records: it does the same
    with the payload record in place. It returns exactly when the
    document of every file named [*.json] is an object whose [created_utc]
    is a text or is missing, and what it then returns holds the metadata of
    the id, as stored. *)
Theorem corrupt_snapshot_get_and_list (e : Snap.env) (id_ : string)
    (fs : Snap.store) (m : Snap.Meta) :
  Snap.read (id_ ++ ".json") fs = Some (Snap.Json m) ->
  Snap.read (id_ ++ ".txt") fs = None ->
  Snap.get_snapshot e id_ fs = Return (None, None)
  /\ (forall l, Snap.list_snapshots fs = Return l -> In (Snap.MetaDoc m) l)
  /\ ((exists l, Snap.list_snapshots fs = Return l) <->
      (forall f d, Snap.endswith ".json" f = true ->
                   In (f, Snap.Json d) fs -> str_keyed d = true))
  /\ (forall t,
        Snap.list_snapshots (Snap.write (id_ ++ ".txt") (Snap.Text t) fs)
        = Snap.list_snapshots fs).
Proof.
  intros Hj Ht.
  assert (Hin : In (Snap.MetaDoc m) (Snap.load_metas fs)).
  { apply (load_metas_In (id_ ++ ".json")); [apply endswith_append|].
    now apply read_In. }
  split; [|split; [|split]].
  - unfold Snap.get_snapshot, Snap.exists_. now rewrite Hj, Ht.
  - intros l Hl.
    apply (Permutation_in _ (Permutation_sym (sort_metas_perm _ _ Hl)) Hin).
  - unfold Snap.list_snapshots. split.
    + intros [l Hl] f d Hf Hd.
      pose proof (sort_metas_returns_str _ _ _ Hin eq_refl Hl) as Hs.
      rewrite forallb_forall in Hs. apply Hs.
      now apply (load_metas_In f).
    + intros H. exists (Snap.sort_desc (Snap.load_metas fs)).
      apply sort_metas_str. apply forallb_forall. intros d Hd.
      destruct (load_metas_from _ _ Hd) as [f [Hf Hfd]]. now apply (H f).
  - intros t. unfold Snap.list_snapshots.
    now rewrite load_metas_write_other by apply txt_is_not_json.
Qed.

(** C4, as the code has it. For two saves that return, one after the other,
    with time stamps of one length: the two ids are equal exactly when the
    sanitized names are equal and the time stamps are equal. The second
    snapshot is retrievable with its own payload; the first one is
    retrievable with its own payload when the ids differ. *)
Theorem save_twice (e1 e2 : Snap.env) (n1 n2 c1 c2 : string)
    (fs fs1 fs2 : Snap.store) (m1 m2 : Snap.Meta) :
  Snap.save_snapshot e1 n1 c1 fs = (fs1, Return m1) ->
  Snap.save_snapshot e2 n2 c2 fs1 = (fs2, Return m2) ->
  String.length (Snap.utcnow e1) = String.length (Snap.utcnow e2) ->
  (Snap.m_id m1 = Snap.m_id m2 <->
     Snap._safe_name n1 = Snap._safe_name n2 /\ Snap.utcnow e1 = Snap.utcnow e2)
  /\ Snap.read (Snap.m_id m2 ++ ".txt") fs2 = Some (Snap.Text (Snap.freeze e2))
  /\ Snap.get_snapshot e2 (Snap.m_id m2) fs2
     = Return (Some m2, Some (Snap.m_path m2))
  /\ (Snap.m_id m1 <> Snap.m_id m2 ->
      Snap.read (Snap.m_id m1 ++ ".txt") fs2 = Some (Snap.Text (Snap.freeze e1))
      /\ Snap.get_snapshot e1 (Snap.m_id m1) fs2
         = Return (Some m1, Some (Snap.m_path m1))).
Proof.
  intros H1 H2 Hlen.
  destruct (save_then_get _ _ _ _ _ _ H1) as [T1 [J1 _]].
  destruct (save_then_get _ _ _ _ _ _ H2) as [T2 [J2 G2]].
  destruct (save_ok _ _ _ _ _ _ H1) as [M1 _].
  destruct (save_ok _ _ _ _ _ _ H2) as [M2 _].
  assert (I1 : Snap.m_id m1 = (Snap._safe_name n1 ++ "_" ++ Snap.utcnow e1)%string)
    by (rewrite M1; apply snapshot_id_eq).
  assert (I2 : Snap.m_id m2 = (Snap._safe_name n2 ++ "_" ++ Snap.utcnow e2)%string)
    by (rewrite M2; apply snapshot_id_eq).
  split; [|split; [exact T2|split; [exact G2|]]].
  - rewrite I1, I2. split.
    + intros E. apply append_inv_same_length in E as [Ea Eb].
      * split; [exact Ea|]. now injection Eb.
      * simpl. now rewrite Hlen.
    + now intros [-> ->].
  - intros N.
    destruct (save_keeps_other _ _ _ _ _ _ (Snap.m_id m1) H2 N) as [Kt Kj].
    rewrite <- Kt in T1. rewrite <- Kj in J1. split; [exact T1|].
    unfold Snap.get_snapshot, Snap.exists_. rewrite T1, J1. cbn [andb negb].
    now rewrite M1.
Qed.

(** C10. Deleting an id of which neither record exists returns true and
    leaves the store as it is; and for every store, [delete_snapshot]
    returns false exactly when one of the two records exists and its
    removal raises. *)
Theorem delete_snapshot_result (remove_fails : string -> bool) (id_ : string)
    (fs : Snap.store) :
  (Snap.exists_ (id_ ++ ".json") fs = false ->
   Snap.exists_ (id_ ++ ".txt") fs = false ->
   Snap.delete_snapshot remove_fails id_ fs = (true, fs))
  /\ (fst (Snap.delete_snapshot remove_fails id_ fs) = false <->
      (Snap.exists_ (id_ ++ ".json") fs = true
       /\ remove_fails (id_ ++ ".json") = true)
      \/ (Snap.exists_ (id_ ++ ".txt") fs = true
          /\ remove_fails (id_ ++ ".txt") = true)).
Proof.
  unfold Snap.delete_snapshot, Snap.delete_step. split.
  - intros Hj Ht. now rewrite Hj, Ht.
  - assert (Hx : Snap.exists_ (id_ ++ ".txt")
                   (Snap.remove (id_ ++ ".json") fs)
                 = Snap.exists_ (id_ ++ ".txt") fs).
    { unfold Snap.exists_. now rewrite read_remove_ne by apply json_not_txt. }
    destruct (Snap.exists_ (id_ ++ ".json") fs) eqn:Ej;
      [destruct (remove_fails (id_ ++ ".json")) eqn:Rj|];
      try rewrite Hx;
      (destruct (Snap.exists_ (id_ ++ ".txt") fs) eqn:Et;
       [destruct (remove_fails (id_ ++ ".txt")) eqn:Rt|]);
      cbn [fst]; split; try tauto; try discriminate;
      intros [[A B]|[A B]]; discriminate.
Qed.

(* ===================================================================== *)
(** * Facts on the job buffer *)
(* ===================================================================== *)

Section BufferFacts.

Import Job.

Lemma append_nil_r (s : string) : (s ++ EmptyString)%string = s.
Proof. induction s as [|c s IH]; simpl; [reflexivity|now rewrite IH]. Qed.

Lemma append_assoc (a b c : string) :
  ((a ++ b) ++ c)%string = (a ++ (b ++ c))%string.
Proof. induction a as [|x a IH]; simpl; [reflexivity|now rewrite IH]. Qed.

Lemma drop_all (n : nat) (s : string) :
  String.length s <= n -> Py.drop n s = EmptyString.
Proof.
  revert n; induction s as [|c s IH]; intros [|n]; simpl; intros H;
    try reflexivity; try lia.
  apply IH. lia.
Qed.

Lemma take_all (s : string) : Py.take (String.length s) s = s.
Proof. induction s as [|c s IH]; simpl; [reflexivity|now rewrite IH]. Qed.

Lemma length_drop (n : nat) (s : string) :
  String.length (Py.drop n s) = String.length s - n.
Proof.
  revert n; induction s as [|c s IH]; intros [|n]; simpl; auto.
Qed.

Lemma drop_append_le (n : nat) (a b : string) :
  n <= String.length a -> Py.drop n (a ++ b) = (Py.drop n a ++ b)%string.
Proof.
  revert n; induction a as [|c a IH]; intros [|n]; simpl; intros H;
    try reflexivity; try lia.
  apply IH. lia.
Qed.

Lemma take_append_length (a b : string) :
  Py.take (String.length a) (a ++ b) = a.
Proof. induction a as [|c a IH]; simpl; [now destruct b|now rewrite IH]. Qed.

Lemma take_plus (a b : nat) (s : string) :
  Py.take (a + b) s = (Py.take a s ++ Py.take b (Py.drop a s))%string.
Proof.
  revert s; induction a as [|a IH]; intros s; simpl; [reflexivity|].
  destruct s as [|c s]; simpl; [now destruct b|now rewrite IH].
Qed.

Lemma drop_plus (a b : nat) (s : string) :
  Py.drop (a + b) s = Py.drop b (Py.drop a s).
Proof.
  revert s; induction a as [|a IH]; intros s; simpl; [reflexivity|].
  destruct s as [|c s]; simpl; [now destruct b|apply IH].
Qed.

Lemma segment_split (buf : string) (a b c : Z) :
  (0 <= a <= b)%Z -> (b <= c)%Z ->
  segment buf a c = (segment buf a b ++ segment buf b c)%string.
Proof.
  intros Hab Hbc. unfold segment.
  replace (Z.to_nat (c - a)) with (Z.to_nat (b - a) + Z.to_nat (c - b)) by lia.
  rewrite take_plus. f_equal. rewrite <- drop_plus. f_equal. f_equal. lia.
Qed.

Lemma segment_empty (buf : string) (a : Z) : segment buf a a = EmptyString.
Proof. unfold segment. now rewrite Z.sub_diag. Qed.

Lemma concat_cons (x : string) (l : list string) :
  String.concat EmptyString (x :: l)
  = (x ++ String.concat EmptyString l)%string.
Proof. destruct l; simpl; [now rewrite append_nil_r|reflexivity]. Qed.

Lemma fold_append_text (lines : list string) (j : t) :
  text (fold_left append lines j)
  = (text j ++ String.concat EmptyString lines)%string
  /\ done (fold_left append lines j) = done j
  /\ returncode (fold_left append lines j) = returncode j.
Proof.
  revert j; induction lines as [|l lines IH]; intros j.
  - cbn. now rewrite append_nil_r.
  - cbn [fold_left]. destruct (IH (append j l)) as [Ht [Hd Hr]].
    rewrite Ht, Hd, Hr, concat_cons. cbn. now rewrite append_assoc.
Qed.

(** For a cursor that is not negative, the poll answers the buffer from
    the cursor on. *)
Lemma poll_text (j : t) (pos : Z) :
  (0 <= pos)%Z -> r_text (poll j pos) = Py.drop (Z.to_nat pos) (text j).
Proof.
  intros H. unfold poll, Py.slice_from. cbn [r_text].
  destruct (pos <? Z.of_nat (String.length (text j)))%Z eqn:E.
  - destruct (pos <? 0)%Z eqn:E0; [lia|reflexivity].
  - symmetry. apply drop_all. lia.
Qed.

Lemma follow_app (evs evs' : list event) (j : t) (c : Z) :
  follow (evs ++ evs') j c
  = let '(p1, j1, c1) := follow evs j c in
    let '(p2, j2, c2) := follow evs' j1 c1 in
    ((p1 ++ p2)%list, j2, c2).
Proof.
  revert j c; induction evs as [|[s|] evs IH]; intros j c.
  - cbn. now destruct (follow evs' j c) as [[p2 j2] c2].
  - cbn [app follow]. apply IH.
  - cbn [app follow]. rewrite IH.
    destruct (follow evs j (r_pos (poll j c))) as [[p1 j1] c1].
    now destruct (follow evs' j1 c1) as [[p2 j2] c2].
Qed.

(** What a client that stands at the cursor [c] of the buffer goes on
    to see. *)
Lemma follow_tiles (evs : list event) :
  forall (j : t) (c : Z),
    (0 <= c <= Z.of_nat (String.length (text j)))%Z ->
    let '(polls, jf, cur) := follow evs j c in
    (exists more, text jf = (text j ++ more)%string)
    /\ (c <= cur <= Z.of_nat (String.length (text jf)))%Z
    /\ tiles polls (text jf) c
    /\ deltas polls = segment (text jf) c cur.
Proof.
  induction evs as [|[s|] evs IH]; intros j c Hc.
  - cbn. repeat split; try lia.
    + exists EmptyString. now rewrite append_nil_r.
    + now rewrite segment_empty.
  - cbn [follow].
    assert (Hc' : (0 <= c <= Z.of_nat (String.length (text (append j s))))%Z).
    { cbn. rewrite length_append. lia. }
    specialize (IH (append j s) c Hc').
    destruct (follow evs (append j s) c) as [[polls jf] cur].
    destruct IH as [[more Hm] IH]. split; [|exact IH].
    exists (s ++ more)%string. rewrite Hm. cbn. apply append_assoc.
  - cbn [follow]. set (L := Z.of_nat (String.length (text j))).
    assert (HL : r_pos (poll j c) = L) by reflexivity.
    rewrite HL, (poll_text j c) by lia.
    specialize (IH j L ltac:(unfold L; lia)).
    destruct (follow evs j L) as [[polls jf] cur].
    destruct IH as [[more Hm] [Hcur [Ht Hd]]].
    assert (Hseg : Py.drop (Z.to_nat c) (text j) = segment (text jf) c L).
    { unfold segment. rewrite Hm, drop_append_le by lia.
      replace (Z.to_nat (L - c))
        with (String.length (Py.drop (Z.to_nat c) (text j)))
        by (rewrite length_drop; unfold L; lia).
      now rewrite take_append_length. }
    split; [now exists more|]. split; [lia|]. split.
    + cbn [tiles sent got delta]. repeat split; try lia; assumption.
    + unfold deltas in *. cbn [map delta]. rewrite concat_cons, Hd, Hseg.
      symmetry. apply segment_split; lia.
Qed.

Lemma get_register_eq (j : t) (jobs : table) :
  get_job (id j) (register_job j jobs) = Some j.
Proof.
  induction jobs as [|[k j'] jobs IH]; simpl.
  - now rewrite String.eqb_refl.
  - destruct (String.eqb_spec (id j) k) as [E|N]; simpl.
    + now rewrite E, String.eqb_refl.
    + destruct (String.eqb_spec (id j) k); [contradiction|exact IH].
Qed.

Lemma get_register_ne (k : string) (j : t) (jobs : table) :
  k <> id j -> get_job k (register_job j jobs) = get_job k jobs.
Proof.
  intros N. induction jobs as [|[k' j'] jobs IH]; simpl.
  - destruct (String.eqb_spec k (id j)); [contradiction|reflexivity].
  - destruct (String.eqb_spec (id j) k') as [E|N']; simpl.
    + destruct (String.eqb_spec k k'); [congruence|reflexivity].
    + now rewrite IH.
Qed.

End BufferFacts.

(* ===================================================================== *)
(** * Claims on jobs *)
(* ===================================================================== *)

(** C5, as the code has it. A job whose process cannot be started does
    not become done: the worker of the new job ends by the exception, and
    whatever table the job was registered in and whatever cursor is sent,
    every poll of the job goes on to answer not done, no return code and
    no text. *)
Theorem run_and_stream_outcome (uuid kind : string) (jobs : Job.table)
    (pos : Z) :
  let worker := Job._run_and_stream (Job.new uuid kind) Job.LaunchFails in
  snd worker = Raise
  /\ Job.handle_poll (Job.register_job (fst worker) jobs) uuid pos
     = Some {| Job.r_text := EmptyString; Job.r_pos := 0%Z;
               Job.r_done := false; Job.r_returncode := None |}.
Proof.
  cbv zeta. cbn [Job._run_and_stream fst snd]. split; [reflexivity|].
  unfold Job.handle_poll.
  pose proof (get_register_eq (Job.new uuid kind) jobs) as E.
  change (Job.id (Job.new uuid kind)) with uuid in E. rewrite E.
  f_equal. unfold Job.poll.
  cbn [Job.new Job.text Job.done Job.returncode String.length Z.of_nat].
  f_equal. destruct (pos <? 0)%Z eqn:Ep; [|reflexivity].
  unfold Py.slice_from. rewrite Ep. apply drop_all. cbn. lia.
Qed.

(** C9. For a cursor [pos] that is not negative, the poll answers the text
    of the buffer from offset [pos] to its end, which is empty when [pos] is
    at or past the end, and the length of the buffer as the new cursor. So
    for a client that starts at cursor 0 and sends in each poll the cursor
    of the answer before, while lines are appended to the buffer in between:
    the cursors do not decrease, the texts received lie end to end on the
    buffer, each being the segment between the cursor sent and the cursor
    received, and joined in order they are the buffer up to the last cursor
    received; after a last poll they are the whole buffer. *)
Theorem poll_delta_stream (j : Job.t) (pos : Z) (evs : list Job.event) :
  (0 <= pos)%Z ->
  Job.r_text (Job.poll j pos) = Py.drop (Z.to_nat pos) (Job.text j)
  /\ ((Z.of_nat (String.length (Job.text j)) <= pos)%Z ->
      Job.r_text (Job.poll j pos) = EmptyString)
  /\ Job.r_pos (Job.poll j pos) = Z.of_nat (String.length (Job.text j))
  /\ (let '(polls, jf, cur) := Job.follow evs j 0%Z in
      tiles polls (Job.text jf) 0%Z
      /\ deltas polls = Py.take (Z.to_nat cur) (Job.text jf))
  /\ (let '(polls, jf, cur) := Job.follow (evs ++ [Job.Polled]) j 0%Z in
      deltas polls = Job.text jf).
Proof.
  intros Hpos. split; [now apply poll_text|]. split; [|split; [reflexivity|]].
  - intros H. rewrite poll_text by exact Hpos. apply drop_all. lia.
  - assert (H0 : (0 <= 0 <= Z.of_nat (String.length (Job.text j)))%Z) by lia.
    split.
    + pose proof (follow_tiles evs j 0%Z H0) as F.
      destruct (Job.follow evs j 0%Z) as [[polls jf] cur].
      destruct F as [_ [_ [Ht Hd]]]. split; [exact Ht|].
      rewrite Hd. unfold segment. now rewrite Z.sub_0_r.
    + pose proof (follow_tiles (evs ++ [Job.Polled]) j 0%Z H0) as F.
      rewrite follow_app in F |- *.
      destruct (Job.follow evs j 0%Z) as [[p1 j1] c1].
      cbn [Job.follow Job.r_pos Job.poll] in F |- *.
      destruct F as [_ [_ [_ Hd]]]. rewrite Hd. unfold segment.
      rewrite Z.sub_0_r, Nat2Z.id. cbn [Z.to_nat Py.drop]. apply take_all.
Qed.

(* ===================================================================== *)
(** * The functions on concrete inputs *)
(* ===================================================================== *)

Example splitlines_blank_line :
  Py.splitlines (text_of ["a"; EmptyString; "b"] ++ nl) = ["a"; EmptyString; "b"].
Proof. reflexivity. Qed.

Example splitlines_crlf :
  Py.splitlines ("a" ++ String (ascii_of_nat 13) nl ++ "b") = ["a"; "b"].
Proof. reflexivity. Qed.

Example strip_both_ends : Py.strip "  a b  " = "a b".
Proof. reflexivity. Qed.

Example lower_keeps_others : Py.lower "AbC-Z@[_1" = "abc-z@[_1".
Proof. reflexivity. Qed.

Example sorted_by_code_point : Py.sorted ["b"; "a"; "B"; "ab"] = ["B"; "a"; "ab"; "b"].
Proof. reflexivity. Qed.

Example parse_sample :
  Pkg.parse_requirements_text sample_text
  = ([("foo", Pkg.mk_entry "Foo" "1.0"); ("baz", Pkg.mk_entry "baz" "2")],
     ["bar @ file:///tmp/bar"]).
Proof. reflexivity. Qed.

(** A later pin of a name replaces the entry in place. *)
Example parse_same_name_twice :
  fst (Pkg.parse_requirements_text (text_of ["Foo==1.0"; "x==1"; "foo==2"]))
  = [("foo", Pkg.mk_entry "foo" "2"); ("x", Pkg.mk_entry "x" "1")].
Proof. reflexivity. Qed.

(** The version is what follows the first [==]. *)
Example parse_triple_equals :
  fst (Pkg.parse_requirements_text "baz===3") = [("baz", Pkg.mk_entry "baz" "=3")].
Proof. reflexivity. Qed.

(** The scenario "simple upgrade" of the specification. *)
Example diff_simple_upgrade :
  Pkg.diff_envs
    [("a", Pkg.mk_entry "a" "1.0"); ("b", Pkg.mk_entry "b" "2.0")]
    sample_T
  = ([Pkg.mk_install "a" (Some "1.0") "1.1"; Pkg.mk_install "c" None "3.0"],
     [],
     [Pkg.mk_same "b" "2.0"]).
Proof. reflexivity. Qed.

(** The scenario "removal" of the specification. *)
Example diff_removal :
  Pkg.diff_envs
    [("a", Pkg.mk_entry "a" "1.0"); ("b", Pkg.mk_entry "b" "2.0")]
    [("a", Pkg.mk_entry "a" "1.0")]
  = ([], [Pkg.mk_uninstall "b" "2.0"], [Pkg.mk_same "a" "1.0"]).
Proof. reflexivity. Qed.

Example preview_commands_sample :
  Pkg.preview_commands
    (text_of ["a==1.0"; "b==2.0"; "z==1"; "D==1"])
    (text_of ["a==1.1"; "b==2.0"; "c==3.0"])
  = ["python -m pip uninstall -y D z";
     "python -m pip install a==1.1";
     "python -m pip install c==3.0"].
Proof. reflexivity. Qed.

Example safe_name_runs : Snap._safe_name "  my env!! (v2)  " = "my_env_v2_".
Proof. reflexivity. Qed.

Example safe_name_blank : Snap._safe_name "   " = "snapshot".
Proof. reflexivity. Qed.

Example save_sample :
  snd (Snap.save_snapshot sample_env "my env" "note" [])
  = Return
      {| Snap.m_id := "my_env_20240101_120000";
         Snap.m_name := "my env";
         Snap.m_comment := "note";
         Snap.m_created_utc := "20240101_120000";
         Snap.m_python := "/usr/bin/python3";
         Snap.m_mode := "system";
         Snap.m_count := 3;
         Snap.m_requirements := "my_env_20240101_120000.txt";
         Snap.m_dir := "/data/birdfingers_snapshots";
         Snap.m_path
         := "/data/birdfingers_snapshots/my_env_20240101_120000.txt" |}.
Proof. reflexivity. Qed.

(** A failing write of the metadata leaves the payload behind. *)
Example save_meta_write_fails :
  Snap.save_snapshot
    {| Snap.SNAP_DIR := "d"; Snap.os_sep := "/"; Snap.sys_executable := "py";
       Snap.run_mode := "venv"; Snap.utcnow := "20240101_120000";
       Snap.freeze := "a==1";
       Snap.open_fails := fun f => Snap.endswith ".json" f;
       Snap.freeze_raises := false;
       Snap.write_fails := fun _ => None |}
    "env" "c" []
  = ([("env_20240101_120000.txt", Snap.Text "a==1")], Raise).
Proof. reflexivity. Qed.

(** The newest snapshot comes first; equal time stamps keep the order of
    the directory. *)
Example list_snapshots_order :
  Snap.list_snapshots
    [("a.json", Snap.Json (Snap.build_meta (quiet_env "20240101_000000" "x") "a" "c"));
     ("a.txt", Snap.Text "x");
     ("b.json", Snap.Json (Snap.build_meta (quiet_env "20240102_000000" "x") "b" "c"));
     ("broken.json", Snap.Text "{");
     ("c.json", Snap.Json (Snap.build_meta (quiet_env "20240101_000000" "x") "c" "c"))]
  = Return
      [Snap.MetaDoc (Snap.build_meta (quiet_env "20240102_000000" "x") "b" "c");
       Snap.MetaDoc (Snap.build_meta (quiet_env "20240101_000000" "x") "a" "c");
       Snap.MetaDoc (Snap.build_meta (quiet_env "20240101_000000" "x") "c" "c")].
Proof. reflexivity. Qed.

(** A file named [*.json] that holds a JSON array: the key function of
    the sort raises, also when it is the only file. *)
Example list_snapshots_array :
  Snap.list_snapshots [("x.json", Snap.Json (Snap.ValueDoc "[1]" true))] = Raise.
Proof. reflexivity. Qed.

(** An object whose [created_utc] is a number beside a metadata record:
    the sort compares a number with a text and raises. Alone, the object
    is listed. *)
Example list_snapshots_mixed_keys :
  Snap.list_snapshots
    [("s.json", Snap.Json lone_meta); ("n.json", Snap.Json numbered_doc)]
  = Raise
  /\ Snap.list_snapshots [("n.json", Snap.Json numbered_doc)]
     = Return [numbered_doc].
Proof. split; reflexivity. Qed.

(** The empty object has no [created_utc]: it is listed with the key of
    the empty text, after every metadata record. *)
Example list_snapshots_empty_object :
  Snap.list_snapshots
    [("o.json", Snap.Json (Snap.ObjectDoc "{}" None false));
     ("s.json", Snap.Json lone_meta)]
  = Return [Snap.MetaDoc lone_meta; Snap.ObjectDoc "{}" None false].
Proof. reflexivity. Qed.

(** A write of the metadata that fails after the file was opened leaves
    both files, the metadata file with text that is no JSON document. *)
Example save_meta_dump_fails :
  Snap.save_snapshot
    {| Snap.SNAP_DIR := "d"; Snap.os_sep := "/"; Snap.sys_executable := "py";
       Snap.run_mode := "venv"; Snap.utcnow := "20240101_120000";
       Snap.freeze := "a==1";
       Snap.open_fails := fun _ => false;
       Snap.freeze_raises := false;
       Snap.write_fails :=
         fun f => if Snap.endswith ".json" f then Some "{" else None |}
    "env" "c" [("env_20240101_120000.json", Snap.Json lone_meta)]
  = ([("env_20240101_120000.json", Snap.Text "{");
      ("env_20240101_120000.txt", Snap.Text "a==1")], Raise).
Proof. reflexivity. Qed.

(** Removal of the metadata fails, the payload is removed all the same. *)
Example delete_partial :
  Snap.delete_snapshot (fun f => Snap.endswith ".json" f) "s"
    [("s.json", Snap.Json lone_meta); ("s.txt", Snap.Text "a==1")]
  = (false, [("s.json", Snap.Json lone_meta)]).
Proof. reflexivity. Qed.

Example poll_middle :
  Job.poll job_ab 1%Z
  = {| Job.r_text := "b"; Job.r_pos := 2%Z; Job.r_done := false;
       Job.r_returncode := None |}.
Proof. reflexivity. Qed.

(** A negative cursor is a Python slice from the end of the buffer. *)
Example poll_negative_cursor : Job.r_text (Job.poll job_ab (-1)%Z) = "b".
Proof. reflexivity. Qed.

Example follow_sample :
  Job.follow [Job.Appended "ab"; Job.Polled; Job.Polled; Job.Appended "c";
              Job.Appended "d"; Job.Polled]
    (Job.new "j1" "install") 0%Z
  = ([Job.mk_seen 0 "ab" 2; Job.mk_seen 2 EmptyString 2; Job.mk_seen 2 "cd" 4],
     Job.append (Job.new "j1" "install") "abcd", 4%Z).
Proof. reflexivity. Qed.

(* ===================================================================== *)
(** * The claims at concrete inputs *)
(* ===================================================================== *)

Lemma sample_S_wf : Pkg.wf sample_S.
Proof.
  split.
  - repeat constructor; simpl; intuition discriminate.
  - intros k v H. simpl in H.
    repeat (destruct H as [H|H]; [injection H as <- <-; reflexivity|]).
    destruct H.
Defined.

Lemma sample_T_wf : Pkg.wf sample_T.
Proof.
  split.
  - repeat constructor; simpl; intuition discriminate.
  - intros k v H. simpl in H.
    repeat (destruct H as [H|H]; [injection H as <- <-; reflexivity|]).
    destruct H.
Defined.

(** [diff_envs_partition] on the sample sets: the keys of the three lists
    are [a], [c]; [d]; [b]. *)
Lemma diff_envs_partition_witness :
  Pkg.wf sample_S /\ Pkg.wf sample_T
  /\ NoDup (["a"; "c"] ++ ["d"] ++ ["b"])
  /\ (forall k, In k (["a"; "c"] ++ ["d"] ++ ["b"]) <->
        In k (Pkg.keys sample_S) \/ In k (Pkg.keys sample_T)).
Proof.
  split; [exact sample_S_wf|]. split; [exact sample_T_wf|].
  pose proof (diff_envs_partition sample_S sample_T sample_S_wf sample_T_wf)
    as H.
  split; [exact (proj1 H)|exact (proj1 (proj2 (proj2 (proj2 (proj2 H)))))].
Defined.

(** [diff_envs_self] on the sample source. *)
Lemma diff_envs_self_witness :
  Pkg.wf sample_S
  /\ Pkg.diff_envs sample_S sample_S
     = ([], [], [Pkg.mk_same "a" "1.0"; Pkg.mk_same "b" "2.0";
                 Pkg.mk_same "D" "0.1"]).
Proof.
  split; [exact sample_S_wf|].
  exact (proj1 (diff_envs_self sample_S sample_S_wf)).
Defined.

(** [parse_entry_invariant] on the first entry of the sample text. *)
Lemma parse_entry_invariant_witness :
  In ("foo", Pkg.mk_entry "Foo" "1.0")
    (fst (Pkg.parse_requirements_text sample_text))
  /\ "foo" = Py.lower "Foo".
Proof.
  split; [left; reflexivity|].
  exact (proj1 (parse_entry_invariant sample_text "foo"
                  (Pkg.mk_entry "Foo" "1.0") (or_introl eq_refl))).
Defined.

(** A pin line that ends after [==] gives an entry with the empty
    version. *)
Lemma parse_empty_version :
  ~ (forall k v, In (k, v) (fst (Pkg.parse_requirements_text "a==")) ->
       k = Py.lower (Pkg.name v) /\ Pkg.version v <> EmptyString).
Proof.
  intros H.
  destruct (H "a" (Pkg.mk_entry "a" EmptyString) (or_introl eq_refl)) as [_ N].
  now apply N.
Qed.

(** [save_snapshot_count] on the sample text: three counted lines, two
    entries. *)
Lemma save_snapshot_count_witness :
  Snap.save_snapshot sample_env "env" "note" []
  = (fst (Snap.save_snapshot sample_env "env" "note" []),
     Return (Snap.build_meta sample_env "env" "note"))
  /\ List.length (fst (Pkg.parse_requirements_text (Snap.freeze sample_env)))
     <= Snap.m_count (Snap.build_meta sample_env "env" "note").
Proof.
  split; [reflexivity|].
  exact (proj1 (proj2 (proj2
           (save_snapshot_count sample_env "env" "note" []
              (fst (Snap.save_snapshot sample_env "env" "note" []))
              (Snap.build_meta sample_env "env" "note") eq_refl)))).
Defined.

(** The count of the sample text is 3, its package set has 2 entries. *)
Lemma count_is_not_number_of_pins :
  ~ (forall fs' meta,
       Snap.save_snapshot sample_env "env" "note" [] = (fs', Return meta) ->
       Snap.m_count meta
       = List.length
           (fst (Pkg.parse_requirements_text (Snap.freeze sample_env)))).
Proof.
  intros H. specialize (H _ _ eq_refl). discriminate H.
Qed.

(** [corrupt_snapshot_get_and_list] on the store with a lone metadata
    record. *)
Lemma corrupt_snapshot_get_and_list_witness :
  Snap.read ("env_20240101_120000" ++ ".json") lone_store
  = Some (Snap.Json lone_meta)
  /\ Snap.read ("env_20240101_120000" ++ ".txt") lone_store = None
  /\ Snap.get_snapshot env_a "env_20240101_120000" lone_store
     = Return (None, None)
  /\ In (Snap.MetaDoc lone_meta) [Snap.MetaDoc lone_meta].
Proof.
  split; [reflexivity|]. split; [reflexivity|].
  split.
  - exact (proj1 (corrupt_snapshot_get_and_list env_a "env_20240101_120000"
                    lone_store lone_meta eq_refl eq_refl)).
  - exact (proj1 (proj2 (corrupt_snapshot_get_and_list env_a
                           "env_20240101_120000" lone_store lone_meta
                           eq_refl eq_refl))
             [Snap.MetaDoc lone_meta] eq_refl).
Defined.

(** On the store with a lone metadata record, [get_snapshot] returns
    absent and the listing returns that record: it is not so that the
    listing returns without it. *)
Lemma list_surfaces_corrupt_snapshot :
  Snap.list_snapshots lone_store = Return [Snap.MetaDoc lone_meta]
  /\ ~ (Snap.get_snapshot env_a "env_20240101_120000" lone_store
        = Return (None, None)
        /\ exists l, Snap.list_snapshots lone_store = Return l
                     /\ ~ In (Snap.MetaDoc lone_meta) l).
Proof.
  split; [reflexivity|].
  intros [_ [l [Hl H]]]. injection Hl as <-. apply H. left. reflexivity.
Qed.

(** [save_twice] on two saves of the name [env] a second apart. *)
Lemma save_twice_witness :
  Snap.save_snapshot env_a "env" "one" [] = first_save
  /\ Snap.save_snapshot (quiet_env "20240101_120001" "a==2") "env" "two"
       (fst first_save)
     = (fst (Snap.save_snapshot (quiet_env "20240101_120001" "a==2") "env"
               "two" (fst first_save)),
        Return (Snap.build_meta (quiet_env "20240101_120001" "a==2") "env"
                  "two"))
  /\ String.length (Snap.utcnow env_a)
     = String.length (Snap.utcnow (quiet_env "20240101_120001" "a==2"))
  /\ Snap.read ("env_20240101_120001" ++ ".txt")
       (fst (Snap.save_snapshot (quiet_env "20240101_120001" "a==2") "env"
               "two" (fst first_save)))
     = Some (Snap.Text "a==2").
Proof.
  split; [reflexivity|]. split; [reflexivity|]. split; [reflexivity|].
  exact (proj1 (proj2
           (save_twice env_a (quiet_env "20240101_120001" "a==2")
              "env" "env" "one" "two" [] (fst first_save)
              (fst (Snap.save_snapshot (quiet_env "20240101_120001" "a==2")
                      "env" "two" (fst first_save)))
              lone_meta
              (Snap.build_meta (quiet_env "20240101_120001" "a==2") "env" "two")
              eq_refl eq_refl eq_refl))).
Defined.

(** Two saves of the name [env] within one second, with differing payloads,
    return one id. *)
Lemma same_second_same_id :
  ~ (forall m1 m2,
       snd first_save = Return m1 -> snd second_save = Return m2 ->
       Snap.freeze env_a <> Snap.freeze env_b ->
       Snap.m_id m1 <> Snap.m_id m2).
Proof.
  intros H. apply (H _ _ eq_refl eq_refl); [discriminate|reflexivity].
Qed.

(** After a launch that raises, the job is not done. *)
Lemma launch_failure_not_done :
  ~ (Job.done
       (fst (Job._run_and_stream (Job.new "j1" "install") Job.LaunchFails))
     = true).
Proof. discriminate. Qed.

(** [poll_delta_stream] on the buffer [ab] at cursor 1. *)
Lemma poll_delta_stream_witness :
  (0 <= 1)%Z /\ Job.r_text (Job.poll job_ab 1%Z) = "b".
Proof.
  split; [lia|].
  exact (proj1 (poll_delta_stream job_ab 1%Z [] ltac:(lia))).
Defined.

(** Two polls of the buffer [ab] with the cursors 0 and 1, which do not
    decrease: the texts received overlap, and joined they are not the
    buffer. *)
Lemma rising_cursors_overlap :
  ~ ((Job.r_text (Job.poll job_ab 0%Z) ++ Job.r_text (Job.poll job_ab 1%Z))%string
     = Job.text job_ab).
Proof. discriminate. Qed.

(* ===================================================================== *)
(** * Further properties of the parser *)
(* ===================================================================== *)

Section ParseMore.

Import Pkg.

Lemma snd_parse_line (st : dict * list string) (line : string) :
  snd (parse_line st line)
  = if is_other line then (snd st ++ [Py.strip line])%list else snd st.
Proof.
  destruct st as [pkgs others]. unfold parse_line, is_other, is_pin, pin_of.
  cbv zeta. destruct (negb (Py.truthy (Py.strip line))) eqn:E1.
  - apply negb_true_iff in E1. now rewrite E1.
  - apply negb_false_iff in E1. rewrite E1. cbn [orb andb].
    destruct (Py.startswith "#" (Py.strip line)); [reflexivity|].
    cbn [negb andb].
    destruct (Py.contains _ _ || _); [reflexivity|].
    now destruct (Py.split_once _ _) as [[nm ver]|].
Qed.

Lemma fold_parse_others (lines : list string) (st : dict * list string) :
  snd (fold_left parse_line lines st)
  = (snd st ++ map Py.strip (filter is_other lines))%list.
Proof.
  revert st; induction lines as [|l lines IH]; intros st.
  - cbn. now rewrite app_nil_r.
  - cbn [fold_left filter]. rewrite IH, snd_parse_line.
    destruct (is_other l); [|reflexivity].
    cbn [map]. now rewrite <- app_assoc.
Qed.

Lemma get_set_eq (k : string) (v : entry) (d : dict) :
  get k (set k v d) = Some v.
Proof.
  induction d as [|[k' v'] d IH]; simpl.
  - now rewrite String.eqb_refl.
  - destruct (String.eqb_spec k k') as [->|N]; simpl.
    + now rewrite String.eqb_refl.
    + destruct (String.eqb_spec k k'); [contradiction|exact IH].
Qed.

Lemma get_set_ne (k k' : string) (v : entry) (d : dict) :
  k <> k' -> get k (set k' v d) = get k d.
Proof.
  intros N. induction d as [|[k0 v0] d IH]; simpl.
  - destruct (String.eqb_spec k k'); [contradiction|reflexivity].
  - destruct (String.eqb_spec k' k0) as [->|N']; simpl.
    + destruct (String.eqb_spec k k0); [contradiction|reflexivity].
    + now rewrite IH.
Qed.

Lemma fold_parse_get (k : string) (lines : list string)
    (st : dict * list string) :
  get k (fst (fold_left parse_line lines st))
  = last_pin_from (get k (fst st)) k lines.
Proof.
  unfold last_pin_from.
  revert st; induction lines as [|l lines IH]; intros st; [reflexivity|].
  cbn [fold_left]. rewrite IH, fst_parse_line. f_equal.
  destruct (pin_of l) as [[k' v]|]; [|reflexivity].
  destruct (String.eqb_spec k k') as [->|N].
  - apply get_set_eq.
  - now apply get_set_ne.
Qed.

Lemma last_pin_from_some (v : entry) (k : string) (lines : list string) :
  last_pin_from (Some v) k lines <> None.
Proof.
  unfold last_pin_from. revert v.
  induction lines as [|l lines IH]; intros v; [easy|].
  cbn [fold_left]. destruct (pin_of l) as [[k' v']|]; [|apply IH].
  destruct (String.eqb k k'); apply IH.
Qed.

Lemma last_pin_found (acc : option entry) (k : string) (v : entry)
    (line : string) (lines : list string) :
  In line lines -> pin_of line = Some (k, v) ->
  last_pin_from acc k lines <> None.
Proof.
  revert acc. induction lines as [|l lines IH]; intros acc Hin Hp;
    [destruct Hin|].
  destruct Hin as [->|Hin].
  - unfold last_pin_from. cbn [fold_left]. rewrite Hp, String.eqb_refl.
    apply last_pin_from_some.
  - unfold last_pin_from. cbn [fold_left]. now apply IH.
Qed.

Lemma other_is_counted (l : string) : is_other l = true -> counted l = true.
Proof.
  unfold is_other. cbv zeta. intros H.
  destruct (counted l) eqn:C; [reflexivity|].
  apply uncounted_is_skipped in C.
  apply andb_true_iff in H as [H _]. apply andb_true_iff in H as [H1 H2].
  rewrite H1 in C. cbn [negb orb] in C. rewrite C in H2. discriminate H2.
Qed.

Lemma pin_is_not_other (l : string) : is_pin l = true -> is_other l = false.
Proof.
  intros H. unfold is_other. cbv zeta. rewrite H. apply andb_false_r.
Qed.

Lemma pins_others_le_counted (lines : list string) :
  List.length (filter is_pin lines) + List.length (filter is_other lines)
  <= List.length (filter counted lines).
Proof.
  induction lines as [|l lines IH]; [cbn; lia|].
  cbn [filter]. destruct (is_pin l) eqn:P.
  - rewrite (pin_is_not_other l P), (pin_is_counted l P). cbn [List.length]. lia.
  - destruct (is_other l) eqn:O.
    + rewrite (other_is_counted l O). cbn [List.length]. lia.
    + destruct (counted l); cbn [List.length]; lia.
Qed.

End ParseMore.

(** X1. The second result of [parse_requirements_text] is, in the order of
    the text, the stripped form of every line that is neither blank, nor a
    comment, nor taken as a pin; and every pin line has its key in the first
    result. So no requirement line of the text is lost. *)
Theorem parse_loses_no_line (text : string) :
  snd (Pkg.parse_requirements_text text)
  = map Py.strip (filter is_other (Py.splitlines text))
  /\ (forall line k v, In line (Py.splitlines text) ->
        pin_of line = Some (k, v) ->
        In k (Pkg.keys (fst (Pkg.parse_requirements_text text)))).
Proof.
  split.
  - unfold Pkg.parse_requirements_text. now rewrite fold_parse_others.
  - intros line k v Hin Hp.
    assert (H : Pkg.get k (fst (Pkg.parse_requirements_text text)) <> None).
    { unfold Pkg.parse_requirements_text. rewrite fold_parse_get.
      now apply (last_pin_found _ k v line). }
    destruct (Pkg.get k _) as [v'|] eqn:E; [|congruence].
    eapply In_keys, get_In; eauto.
Qed.

(** X2. When several pin lines of a text have one normalized name, the
    entry that [parse_requirements_text] keeps under it is the one of the
    last of these lines; a name that no pin line has is not a key. *)
Theorem parse_last_pin_wins (text : string) (k : string) :
  Pkg.get k (fst (Pkg.parse_requirements_text text))
  = last_pin_from None k (Py.splitlines text).
Proof.
  unfold Pkg.parse_requirements_text. now rewrite fold_parse_get.
Qed.

(** X3. The count of [save_snapshot] is at least the number of entries
    plus the number of other lines that the parser finds in the same
    text. *)
Theorem count_covers_pins_and_others (req_text : string) :
  List.length (fst (Pkg.parse_requirements_text req_text))
  + List.length (snd (Pkg.parse_requirements_text req_text))
  <= Snap.count_lines req_text.
Proof.
  assert (Ho : snd (Pkg.parse_requirements_text req_text)
               = map Py.strip (filter is_other (Py.splitlines req_text)))
    by (unfold Pkg.parse_requirements_text; now rewrite fold_parse_others).
  rewrite Ho.
  rewrite length_map. unfold Snap.count_lines.
  change (fun l => Py.truthy l && negb (Py.startswith "#" l)) with counted.
  pose proof (fold_parse_length (Py.splitlines req_text) ([], [])) as Hl.
  unfold Pkg.parse_requirements_text. cbn [fst List.length Nat.add] in Hl.
  pose proof (pins_others_le_counted (Py.splitlines req_text)).
  unfold Pkg.dict in *. lia.
Qed.

(* ===================================================================== *)
(** * Further properties of the diff *)
(* ===================================================================== *)

Section DiffMore.

Import Pkg.

Lemma diff_target_lengths (S T : dict) :
  List.length (fst (diff_target S T)) + List.length (snd (diff_target S T))
  = List.length T.
Proof.
  induction T as [|[k t] T IH]; [reflexivity|].
  cbn [diff_target]. destruct (diff_target S T) as [ins unch].
  cbn [fst snd] in IH.
  destruct (get k S) as [cur|];
    [destruct (negb (String.eqb (version cur) (version t)))|];
    cbn [fst snd List.length]; lia.
Qed.

Lemma diff_current_lengths (S T : dict) :
  List.length (diff_current S T)
  + List.length (filter (fun kv => mem (fst kv) T) S)
  = List.length S.
Proof.
  induction S as [|[k c] S IH]; [reflexivity|].
  cbn [diff_current filter fst]. destruct (mem k T); cbn [negb List.length]; lia.
Qed.

Lemma diff_current_swap (S T : dict) :
  map (fun u => (u_name u, u_from u)) (diff_current S T)
  = map (fun i => (i_name i, i_to i)) (filter is_fresh (fst (diff_target T S))).
Proof.
  induction S as [|[k s] S IH]; [reflexivity|].
  cbn [diff_current diff_target]. unfold mem.
  destruct (diff_target T S) as [ins unch]. cbn [fst] in IH.
  destruct (get k T) as [cur|].
  - cbn [negb]. destruct (negb (String.eqb (version cur) (version s)));
      cbn [fst filter is_fresh i_from]; exact IH.
  - cbn [negb fst filter is_fresh i_from map u_name u_from i_name i_to].
    now rewrite IH.
Qed.

Lemma diff_target_empty_source (T : dict) :
  diff_target [] T = (map fresh_install T, []).
Proof.
  induction T as [|[k t] T IH]; [reflexivity|].
  cbn [diff_target get map]. now rewrite IH.
Qed.

Lemma diff_current_empty_target (S : dict) :
  diff_current S [] = map removal S.
Proof.
  induction S as [|[k s] S IH]; [reflexivity|].
  cbn [diff_current map]. unfold mem. cbn [get negb]. now rewrite IH.
Qed.

End DiffMore.

(** X4. [diff_envs] puts every entry of the target into exactly one of
    installs and unchanged, and every entry of the source whose key the
    target lacks into uninstalls: the lengths of installs and unchanged add
    up to the size of the target, and the length of uninstalls and the
    number of source keys that the target has add up to the size of the
    source. *)
Theorem diff_envs_lengths (current_pkgs target_pkgs : Pkg.dict) :
  let '(installs, uninstalls, unchanged) :=
    Pkg.diff_envs current_pkgs target_pkgs in
  List.length installs + List.length unchanged = List.length target_pkgs
  /\ List.length uninstalls
     + List.length
         (filter (fun kv => Pkg.mem (fst kv) target_pkgs) current_pkgs)
     = List.length current_pkgs.
Proof.
  unfold Pkg.diff_envs.
  pose proof (diff_target_lengths current_pkgs target_pkgs) as H.
  destruct (Pkg.diff_target current_pkgs target_pkgs) as [ins unch].
  split; [exact H|apply diff_current_lengths].
Qed.

(** X5. Swapping source and target turns removals into new installs: the
    uninstalls of [diff_envs S T] and the installs without a former version
    of [diff_envs T S] are the same packages with the same versions, in the
    same order. *)
Theorem diff_envs_swap (S T : Pkg.dict) :
  map (fun u => (Pkg.u_name u, Pkg.u_from u)) (snd (fst (Pkg.diff_envs S T)))
  = map (fun i => (Pkg.i_name i, Pkg.i_to i))
      (filter is_fresh (fst (fst (Pkg.diff_envs T S)))).
Proof.
  unfold Pkg.diff_envs.
  pose proof (diff_current_swap S T) as H.
  destruct (Pkg.diff_target S T) as [i1 u1].
  destruct (Pkg.diff_target T S) as [i2 u2]. exact H.
Qed.

(** X6. Against an empty source every entry of the target is an install
    without a former version, in the order of the target; against an empty
    target every entry of the source is an uninstall, in the order of the
    source; nothing is unchanged in either case. *)
Theorem diff_envs_empty_side (d : Pkg.dict) :
  Pkg.diff_envs [] d = (map fresh_install d, [], [])
  /\ Pkg.diff_envs d [] = ([], map removal d, []).
Proof.
  unfold Pkg.diff_envs. rewrite diff_target_empty_source. split.
  - reflexivity.
  - cbn [Pkg.diff_target]. now rewrite diff_current_empty_target.
Qed.

(* ===================================================================== *)
(** * Further properties of the snapshot store *)
(* ===================================================================== *)

Section SafeName.

Import Snap.

Lemma all_chars_squash (b : bool) (s : string) :
  all_chars allowed (squash b s) = true.
Proof.
  revert b; induction s as [|c s IH]; intros b; [reflexivity|].
  cbn [squash]. destruct (allowed c) eqn:A.
  - cbn [all_chars]. now rewrite A, IH.
  - destruct b; [apply IH|]. cbn [all_chars]. now rewrite IH.
Qed.

Lemma all_chars_take (p : ascii -> bool) (n : nat) (s : string) :
  all_chars p s = true -> all_chars p (Py.take n s) = true.
Proof.
  revert s; induction n as [|n IH]; intros [|c s]; cbn; try easy.
  intros [H1 H2]%andb_true_iff. rewrite H1. now apply IH.
Qed.

Lemma length_take (n : nat) (s : string) : String.length (Py.take n s) <= n.
Proof.
  revert s; induction n as [|n IH]; intros [|c s]; cbn; try lia.
  specialize (IH s). lia.
Qed.

Lemma take_id (n : nat) (s : string) :
  String.length s <= n -> Py.take n s = s.
Proof.
  revert s; induction n as [|n IH]; intros [|c s]; cbn; intros H;
    try reflexivity; try lia.
  f_equal. apply IH. lia.
Qed.

Lemma allowed_not_space (c : ascii) :
  allowed c = true -> Py.isspace c = false.
Proof.
  destruct c as [[] [] [] [] [] [] [] []]; vm_compute; intros H;
    try reflexivity; discriminate H.
Qed.

Lemma rstrip_id (s : string) :
  all_chars allowed s = true -> Py.rstrip s = s.
Proof.
  induction s as [|c s IH]; [reflexivity|]. cbn [all_chars Py.rstrip].
  intros [H1 H2]%andb_true_iff.
  now rewrite (allowed_not_space c H1), (IH H2).
Qed.

Lemma strip_id (s : string) :
  all_chars allowed s = true -> Py.strip s = s.
Proof.
  intros H. unfold Py.strip.
  assert (L : Py.lstrip s = s).
  { destruct s as [|c s]; [reflexivity|]. cbn [all_chars] in H.
    apply andb_true_iff in H as [H1 _]. cbn [Py.lstrip].
    now rewrite (allowed_not_space c H1). }
  rewrite L. now apply rstrip_id.
Qed.

Lemma squash_id (b : bool) (s : string) :
  all_chars allowed s = true -> squash b s = s.
Proof.
  revert b; induction s as [|c s IH]; intros b; [reflexivity|].
  cbn [all_chars squash]. intros [H1 H2]%andb_true_iff.
  now rewrite H1, (IH false H2).
Qed.

Lemma truthy_length (s : string) :
  Py.truthy s = true -> 1 <= String.length s.
Proof. destruct s; cbn; [discriminate|lia]. Qed.

End SafeName.

(** X8. For every name, [_safe_name] returns between 1 and 60 characters,
    each of them a letter of A-Z or a-z, a digit, an underscore, a dot or a
    hyphen. *)
Theorem safe_name_is_safe (s : string) :
  all_chars Snap.allowed (Snap._safe_name s) = true
  /\ 1 <= String.length (Snap._safe_name s) <= 60.
Proof.
  split; [|split].
  - unfold Snap._safe_name. apply all_chars_take, all_chars_squash.
  - apply truthy_length, safe_name_truthy.
  - unfold Snap._safe_name. apply length_take.
Qed.

(** X9. [_safe_name] changes nothing in a name that it has returned. *)
Theorem safe_name_idempotent (s : string) :
  Snap._safe_name (Snap._safe_name s) = Snap._safe_name s.
Proof.
  assert (Ha : all_chars Snap.allowed (Snap._safe_name s) = true)
    by (unfold Snap._safe_name; apply all_chars_take, all_chars_squash).
  assert (Hl : String.length (Snap._safe_name s) <= 60)
    by (unfold Snap._safe_name; apply length_take).
  pose proof (safe_name_truthy s) as Ht.
  remember (Snap._safe_name s) as t eqn:E. clear E s.
  unfold Snap._safe_name. rewrite (strip_id t Ha).
  unfold Snap.or_else. rewrite Ht. rewrite (squash_id false t Ha).
  now apply take_id.
Qed.

Section StoreMore.

Import Snap.

Lemma read_remove_eq (f : string) (fs : store) : read f (remove f fs) = None.
Proof.
  induction fs as [|[g c] fs IH]; simpl; [reflexivity|].
  destruct (String.eqb_spec f g) as [->|N]; [exact IH|].
  simpl. destruct (String.eqb_spec f g); [contradiction|exact IH].
Qed.

Lemma remove_absent (f : string) (fs : store) :
  read f fs = None -> remove f fs = fs.
Proof.
  induction fs as [|[g c] fs IH]; simpl; [reflexivity|].
  destruct (String.eqb_spec f g) as [->|N]; [discriminate|].
  intros H. now rewrite IH.
Qed.

Lemma remove_write_fresh (f : string) (c : content) (fs : store) :
  read f fs = None -> remove f (write f c fs) = fs.
Proof.
  induction fs as [|[g c'] fs IH]; simpl.
  - now rewrite String.eqb_refl.
  - destruct (String.eqb_spec f g) as [->|N]; [discriminate|].
    intros H. simpl. destruct (String.eqb_spec f g); [contradiction|].
    now rewrite IH.
Qed.

Lemma delete_step_result (remove_fails : string -> bool) (p : string)
    (ok : bool) (fs : store) :
  let st := delete_step remove_fails p (ok, fs) in
  (fst st = true -> ok = true /\ read p (snd st) = None)
  /\ (fst st = false -> ok = false \/ exists_ p (snd st) = true)
  /\ (forall f, p <> f -> read f (snd st) = read f fs).
Proof.
  cbv zeta. unfold delete_step. destruct (exists_ p fs) eqn:E.
  - destruct (remove_fails p); cbn [fst snd].
    + split; [discriminate|]. split; [now right|reflexivity].
    + split; [intros ->; split; [reflexivity|apply read_remove_eq]|].
      split; [now left|]. intros f N. now apply read_remove_ne.
  - cbn [fst snd]. apply exists_read in E.
    split; [intros ->; now split|]. split; [now left|reflexivity].
Qed.

End StoreMore.

(** X10. [delete_snapshot] touches no file but the two records of its id.
    When it returns true, neither record exists afterwards and
    [get_snapshot] returns absent; when it returns false, one of the two
    records is still there. *)
Theorem delete_snapshot_effect (remove_fails : string -> bool) (e : Snap.env)
    (id_ : string) (fs : Snap.store) :
  let ok := fst (Snap.delete_snapshot remove_fails id_ fs) in
  let fs' := snd (Snap.delete_snapshot remove_fails id_ fs) in
  (forall f, f <> (id_ ++ ".json")%string -> f <> (id_ ++ ".txt")%string ->
     Snap.read f fs' = Snap.read f fs)
  /\ (ok = true ->
      Snap.read (id_ ++ ".json") fs' = None
      /\ Snap.read (id_ ++ ".txt") fs' = None
      /\ Snap.get_snapshot e id_ fs' = Return (None, None))
  /\ (ok = false ->
      Snap.exists_ (id_ ++ ".json") fs' = true
      \/ Snap.exists_ (id_ ++ ".txt") fs' = true).
Proof.
  cbv zeta. unfold Snap.delete_snapshot.
  pose proof (delete_step_result remove_fails (id_ ++ ".json") true fs) as H1.
  destruct (Snap.delete_step remove_fails (id_ ++ ".json") (true, fs))
    as [ok1 fs1].
  pose proof (delete_step_result remove_fails (id_ ++ ".txt") ok1 fs1) as H2.
  destruct (Snap.delete_step remove_fails (id_ ++ ".txt") (ok1, fs1))
    as [ok2 fs2].
  cbn [fst snd] in *.
  destruct H1 as [T1 [F1 O1]]. destruct H2 as [T2 [F2 O2]].
  assert (N : (id_ ++ ".txt")%string <> (id_ ++ ".json")%string).
  { intros E. symmetry in E. now apply json_not_txt in E. }
  split; [|split].
  - intros f Nj Nt. rewrite O2 by congruence. apply O1. congruence.
  - intros E. destruct (T2 E) as [E1 Ht]. destruct (T1 E1) as [_ Hj].
    assert (Hj2 : Snap.read (id_ ++ ".json") fs2 = None)
      by (rewrite O2 by exact N; exact Hj).
    split; [exact Hj2|]. split; [exact Ht|].
    unfold Snap.get_snapshot, Snap.exists_. now rewrite Hj2.
  - intros E. destruct (F2 E) as [E1|Ht]; [|now right].
    left. destruct (F1 E1) as [E0|Hj]; [discriminate|].
    unfold Snap.exists_ in *. now rewrite O2 by exact N.
Qed.

(** X11. A snapshot that is saved under an id of which no record existed
    and then deleted, with no removal failing, leaves the store exactly as
    it was before the save. *)
Theorem save_then_delete (e : Snap.env) (name comment : string)
    (fs fs' : Snap.store) (m : Snap.Meta) (remove_fails : string -> bool) :
  Snap.save_snapshot e name comment fs = (fs', Return m) ->
  Snap.exists_ (Snap.m_id m ++ ".json") fs = false ->
  Snap.exists_ (Snap.m_id m ++ ".txt") fs = false ->
  remove_fails (Snap.m_id m ++ ".json")%string = false ->
  remove_fails (Snap.m_id m ++ ".txt")%string = false ->
  Snap.delete_snapshot remove_fails (Snap.m_id m) fs' = (true, fs).
Proof.
  intros H Ej Et Rj Rt.
  destruct (save_then_get _ _ _ _ _ _ H) as [T [J _]].
  destruct (save_ok _ _ _ _ _ _ H) as [Hm Hfs].
  assert (Hid : Snap.snapshot_id e name = Snap.m_id m) by now rewrite Hm.
  rewrite Hid in Hfs. apply exists_read in Ej, Et.
  unfold Snap.delete_snapshot, Snap.delete_step, Snap.exists_.
  rewrite J, Rj.
  assert (R1 : Snap.remove (Snap.m_id m ++ ".json") fs'
               = Snap.write (Snap.m_id m ++ ".txt") (Snap.Text (Snap.freeze e)) fs).
  { rewrite Hfs. apply remove_write_fresh.
    rewrite read_write_ne; [exact Ej|].
    intros E. symmetry in E. now apply json_not_txt in E. }
  rewrite R1, read_write_eq, Rt. f_equal. now apply remove_write_fresh.
Qed.


(** X13. After a save that returns, a listing that returns holds the new
    metadata and every document that was readable before in another file
    named [*.json]; and the listing returns when every such document of
    the store before the save is an object whose [created_utc] is a text
    or is missing. *)
Theorem save_then_listed (e : Snap.env) (name comment : string)
    (fs fs' : Snap.store) (m : Snap.Meta) :
  Snap.save_snapshot e name comment fs = (fs', Return m) ->
  (forall l, Snap.list_snapshots fs' = Return l ->
     In (Snap.MetaDoc m) l
     /\ (forall f d, Snap.endswith ".json" f = true ->
           f <> (Snap.m_id m ++ ".json")%string ->
           Snap.read f fs = Some (Snap.Json d) ->
           In d l))
  /\ ((forall f d, Snap.endswith ".json" f = true ->
         In (f, Snap.Json d) fs -> str_keyed d = true) ->
      exists l, Snap.list_snapshots fs' = Return l).
Proof.
  intros H. destruct (save_then_get _ _ _ _ _ _ H) as [_ [J _]].
  destruct (save_ok _ _ _ _ _ _ H) as [Hm Hfs].
  assert (Hid : Snap.snapshot_id e name = Snap.m_id m) by now rewrite Hm.
  rewrite Hid in Hfs. split.
  - intros l Hl.
    assert (L : forall f x, Snap.endswith ".json" f = true ->
                  Snap.read f fs' = Some (Snap.Json x) -> In x l).
    { intros f x Hf Hr.
      apply (Permutation_in x (Permutation_sym (sort_metas_perm _ _ Hl))).
      apply (load_metas_In f); [exact Hf|now apply read_In]. }
    split.
    + apply (L (Snap.m_id m ++ ".json")%string);
        [apply endswith_append|exact J].
    + intros f d Hf N Hr. apply (L f); [exact Hf|].
      rewrite Hfs, read_write_ne by congruence.
      rewrite read_write_ne; [exact Hr|].
      intros E. subst f. now rewrite txt_is_not_json in Hf.
  - intros Hall. exists (Snap.sort_desc (Snap.load_metas fs')).
    apply sort_metas_str. apply forallb_forall. intros d Hd.
    destruct (load_metas_from _ _ Hd) as [f [Hf Hin]].
    rewrite Hfs in Hin. apply In_write in Hin as [E|Hin].
    + injection E as _ ->. reflexivity.
    + apply In_write in Hin as [E|Hin]; [discriminate|].
      now apply (Hall f).
Qed.

(** X14. A save that raises touches no file but the two of its id. When
    the freeze output cannot be taken or the payload file cannot be
    opened, the store is as it was. The metadata file of the id reads as
    before or holds text that is no JSON document, so that a listing after
    the failed save holds no document that was not stored before. *)
Theorem failed_save_effect (e : Snap.env) (name comment : string)
    (fs fs' : Snap.store) :
  Snap.save_snapshot e name comment fs = (fs', Raise) ->
  let id_ := Snap.snapshot_id e name in
  (forall f, f <> (id_ ++ ".txt")%string -> f <> (id_ ++ ".json")%string ->
     Snap.read f fs' = Snap.read f fs)
  /\ (Snap.freeze_raises e = true
      \/ Snap.open_fails e (id_ ++ ".txt") = true -> fs' = fs)
  /\ (Snap.read (id_ ++ ".json") fs' = Snap.read (id_ ++ ".json") fs
      \/ exists part, Snap.read (id_ ++ ".json") fs' = Some (Snap.Text part))
  /\ (forall l d, Snap.list_snapshots fs' = Return l -> In d l ->
        In d (stored_docs fs)).
Proof.
  intros H id_.
  assert (Nj : (id_ ++ ".json")%string <> (id_ ++ ".txt")%string)
    by apply json_not_txt.
  assert (L : forall fs0, (forall d, In d (Snap.load_metas fs0) ->
                             In d (Snap.load_metas fs)) ->
              fs' = fs0 ->
              forall l d, Snap.list_snapshots fs' = Return l -> In d l ->
                In d (stored_docs fs)).
  { intros fs0 Hsub -> l d Hl Hd. rewrite <- load_metas_stored_docs.
    apply Hsub. apply (Permutation_in d (sort_metas_perm _ _ Hl) Hd). }
  unfold Snap.save_snapshot, Snap.write_file in H. fold id_ in H.
  destruct (Snap.freeze_raises e) eqn:Ef.
  { injection H as <-. split; [reflexivity|]. split; [reflexivity|].
    split; [now left|]. now apply (L fs). }
  destruct (Snap.open_fails e (id_ ++ ".txt")) eqn:Eo.
  { injection H as <-. split; [reflexivity|]. split; [reflexivity|].
    split; [now left|]. now apply (L fs). }
  destruct (Snap.write_fails e (id_ ++ ".txt")) as [part|].
  { injection H as <-. split; [|split; [|split]].
    - intros f Nt _. apply read_write_ne. congruence.
    - intros [X|X]; discriminate.
    - left. now apply read_write_ne.
    - apply (L _ (load_metas_write_text _ _ _) eq_refl). }
  destruct (Snap.open_fails e (id_ ++ ".json")).
  { injection H as <-. split; [|split; [|split]].
    - intros f Nt _. apply read_write_ne. congruence.
    - intros [X|X]; discriminate.
    - left. now apply read_write_ne.
    - apply (L _ (load_metas_write_text _ _ _) eq_refl). }
  destruct (Snap.write_fails e (id_ ++ ".json")) as [part|]; [|discriminate].
  injection H as <-. split; [|split; [|split]].
  - intros f Nt Nj'. rewrite read_write_ne by congruence.
    apply read_write_ne. congruence.
  - intros [X|X]; discriminate.
  - right. exists part. apply read_write_eq.
  - apply (L _ (fun d Hd => load_metas_write_text _ _ _ d
                              (load_metas_write_text _ _ _ d Hd)) eq_refl).
Qed.

(* ===================================================================== *)
(** * Properties of the previews *)
(* ===================================================================== *)

Section PreviewFacts.

Lemma diff_same_dict (d : Pkg.dict) :
  NoDup (Pkg.keys d) ->
  Pkg.diff_envs d d
  = ([], [],
     map (fun kv => Pkg.mk_same (Pkg.name (snd kv)) (Pkg.version (snd kv))) d).
Proof.
  intros H. unfold Pkg.diff_envs.
  rewrite diff_target_same by (intros; now apply In_get).
  now rewrite diff_current_none.
Qed.

Lemma parse_NoDup (text : string) :
  NoDup (Pkg.keys (fst (Pkg.parse_requirements_text text))).
Proof. apply (proj1 (parse_wf text)). Qed.

Lemma get_snapshot_found (e : Snap.env) (id_ : string) (fs : Snap.store)
    (d : Snap.doc) (p : option string) :
  Snap.get_snapshot e id_ fs = Return (Some d, p) ->
  Snap.read (id_ ++ ".json") fs = Some (Snap.Json d)
  /\ exists c, Snap.read (id_ ++ ".txt") fs = Some c.
Proof.
  unfold Snap.get_snapshot, Snap.exists_.
  destruct (Snap.read (id_ ++ ".json") fs) as [[s|d']|];
    destruct (Snap.read (id_ ++ ".txt") fs) as [c|]; cbn; try discriminate.
  intros [= -> _]. split; [reflexivity|eauto].
Qed.

(** A save that returns has taken the freeze output. *)
Lemma save_freeze_ok (e : Snap.env) (name comment : string)
    (fs fs' : Snap.store) (m : Snap.Meta) :
  Snap.save_snapshot e name comment fs = (fs', Return m) ->
  Snap.freeze_raises e = false.
Proof.
  unfold Snap.save_snapshot. now destruct (Snap.freeze_raises e).
Qed.

(** What a preview that is returned is made of. *)
Lemma preview_current_inv (dumps : Snap.Meta -> string) (e : Snap.env)
    (id_ : string) (fs : Snap.store) (p : Preview.preview) :
  Preview.preview_snapshot_vs_current dumps e id_ fs = Return (Some p) ->
  exists c, Snap.read (id_ ++ ".txt") fs = Some c
    /\ (Preview.p_installs p, Preview.p_uninstalls p, Preview.p_unchanged p)
       = Pkg.diff_envs
           (fst (Pkg.parse_requirements_text (Snap.freeze e)))
           (pkgs_of dumps c)
    /\ Preview.p_commands p
       = Pkg.render_commands (Preview.p_installs p) (Preview.p_uninstalls p)
    /\ Preview.c_install (Preview.p_counts p)
       = List.length (Preview.p_installs p)
    /\ Preview.c_uninstall (Preview.p_counts p)
       = List.length (Preview.p_uninstalls p).
Proof.
  unfold Preview.preview_snapshot_vs_current, pkgs_of.
  destruct (Snap.get_snapshot e id_ fs) as [[[meta|] path]|]; try discriminate.
  destruct (negb (Snap.doc_truthy meta)); [discriminate|].
  destruct (Snap.read (id_ ++ ".txt") fs) as [c|]; [|discriminate].
  destruct (Pkg.parse_requirements_text (Preview.read_text dumps c))
    as [tp to_] eqn:Et.
  destruct (Snap.freeze_raises e); [discriminate|].
  destruct (Pkg.parse_requirements_text (Snap.freeze e)) as [cp co].
  cbn [fst].
  destruct (Pkg.diff_envs cp tp) as [[ins un] unch] eqn:Ed.
  intros [= <-]. exists c. rewrite Et. cbn. rewrite Ed. repeat split.
Qed.

Lemma preview_snapshot_inv (dumps : Snap.Meta -> string) (e : Snap.env)
    (a_id b_id : string) (fs : Snap.store) (d : Preview.diff) :
  Preview.preview_snapshot_vs_snapshot dumps e a_id b_id fs
  = Return (Some d) ->
  exists ca cb, Snap.read (a_id ++ ".txt") fs = Some ca
    /\ Snap.read (b_id ++ ".txt") fs = Some cb
    /\ (Preview.d_installs d, Preview.d_uninstalls d, Preview.d_unchanged d)
       = Pkg.diff_envs (pkgs_of dumps ca) (pkgs_of dumps cb)
    /\ Preview.d_commands d
       = Pkg.render_commands (Preview.d_installs d) (Preview.d_uninstalls d)
    /\ Preview.n_install (Preview.d_counts d)
       = List.length (Preview.d_installs d)
    /\ Preview.n_uninstall (Preview.d_counts d)
       = List.length (Preview.d_uninstalls d).
Proof.
  unfold Preview.preview_snapshot_vs_snapshot, pkgs_of.
  destruct (Snap.get_snapshot e a_id fs) as [[am pa]|]; [|discriminate].
  destruct (Snap.get_snapshot e b_id fs) as [[bm pb]|]; [|discriminate].
  destruct am as [am|]; [|discriminate].
  destruct bm as [bm|]; [|discriminate].
  destruct (negb (Snap.doc_truthy am && Snap.doc_truthy bm)); [discriminate|].
  destruct (Snap.read (a_id ++ ".txt") fs) as [ca|]; [|discriminate].
  destruct (Snap.read (b_id ++ ".txt") fs) as [cb|]; [|discriminate].
  destruct (Pkg.parse_requirements_text (Preview.read_text dumps ca))
    as [ap ao] eqn:Ea.
  destruct (Pkg.parse_requirements_text (Preview.read_text dumps cb))
    as [bp bo] eqn:Eb.
  destruct (Pkg.diff_envs ap bp) as [[ins un] unch] eqn:Ed.
  intros [= <-]. exists ca, cb. rewrite Ea, Eb. cbn. rewrite Ed.
  repeat split.
Qed.


End PreviewFacts.


(** X7. In every preview and every diff of two snapshots that is
    returned, the command list is empty exactly when the plan has no
    installs and no uninstalls, and the number of commands is the count of
    installs, plus one when the count of uninstalls is not zero. *)
Theorem render_commands_count (dumps : Snap.Meta -> string) (e : Snap.env)
    (fs : Snap.store) :
  (forall id_ p,
     Preview.preview_snapshot_vs_current dumps e id_ fs = Return (Some p) ->
     (Preview.p_commands p = [] <->
        Preview.p_installs p = [] /\ Preview.p_uninstalls p = [])
     /\ List.length (Preview.p_commands p)
        = commands_for (Preview.c_install (Preview.p_counts p))
            (Preview.c_uninstall (Preview.p_counts p)))
  /\ (forall a_id b_id d,
       Preview.preview_snapshot_vs_snapshot dumps e a_id b_id fs
       = Return (Some d) ->
       (Preview.d_commands d = [] <->
          Preview.d_installs d = [] /\ Preview.d_uninstalls d = [])
       /\ List.length (Preview.d_commands d)
          = commands_for (Preview.n_install (Preview.d_counts d))
              (Preview.n_uninstall (Preview.d_counts d))).
Proof.
  split.
  - intros id_ p H.
    destruct (preview_current_inv _ _ _ _ _ H)
      as [c [_ [_ [Hcmd [Hi Hu]]]]].
    rewrite Hcmd, Hi, Hu.
    split; [apply render_commands_nil|apply render_commands_length].
  - intros a_id b_id d H.
    destruct (preview_snapshot_inv _ _ _ _ _ _ H)
      as [ca [cb [_ [_ [_ [Hcmd [Hi Hu]]]]]]].
    rewrite Hcmd, Hi, Hu.
    split; [apply render_commands_nil|apply render_commands_length].
Qed.

(** X15. The preview of a snapshot against the environment it was just
    taken from shows no change: after a save that returns, and with the
    freeze output as it was, [preview_snapshot_vs_current] of the new id
    finds the snapshot and has no installs, no uninstalls and no
    commands, and all entries of the package set are unchanged. *)
Theorem preview_after_save (dumps : Snap.Meta -> string) (e : Snap.env)
    (name comment : string) (fs fs' : Snap.store) (m : Snap.Meta) :
  Snap.save_snapshot e name comment fs = (fs', Return m) ->
  exists p,
    Preview.preview_snapshot_vs_current dumps e (Snap.m_id m) fs'
    = Return (Some p)
    /\ Preview.p_snapshot p = m
    /\ Preview.p_installs p = []
    /\ Preview.p_uninstalls p = []
    /\ Preview.p_commands p = []
    /\ List.length (Preview.p_unchanged p)
       = List.length (fst (Pkg.parse_requirements_text (Snap.freeze e))).
Proof.
  intros H. destruct (save_then_get _ _ _ _ _ _ H) as [T [_ G]].
  unfold Preview.preview_snapshot_vs_current.
  rewrite G, T, (save_freeze_ok _ _ _ _ _ _ H).
  cbn [Preview.read_text Snap.doc_truthy negb].
  pose proof (parse_NoDup (Snap.freeze e)) as Hnd.
  destruct (Pkg.parse_requirements_text (Snap.freeze e)) as [pkgs others].
  cbn [fst] in Hnd |- *. rewrite (diff_same_dict pkgs Hnd).
  eexists. split; [reflexivity|]. cbn.
  repeat split. now rewrite length_map.
Qed.

(** X16. [preview_snapshot_vs_current] answers "not found" exactly when
    one of the two records of the id is missing or the metadata file
    holds a JSON document that is false, as the empty object is. It
    raises when both records exist and the metadata file holds no JSON
    document, and when the snapshot is found and the freeze output cannot
    be taken. *)
Theorem preview_not_found (dumps : Snap.Meta -> string) (e : Snap.env)
    (id_ : string) (fs : Snap.store) :
  (Preview.preview_snapshot_vs_current dumps e id_ fs = Return None <->
     Snap.exists_ (id_ ++ ".json") fs = false
     \/ Snap.exists_ (id_ ++ ".txt") fs = false
     \/ exists d, Snap.read (id_ ++ ".json") fs = Some (Snap.Json d)
                  /\ Snap.doc_truthy d = false)
  /\ ((exists s, Snap.read (id_ ++ ".json") fs = Some (Snap.Text s)) ->
      Snap.exists_ (id_ ++ ".txt") fs = true ->
      Preview.preview_snapshot_vs_current dumps e id_ fs = Raise)
  /\ (forall d, Snap.read (id_ ++ ".json") fs = Some (Snap.Json d) ->
        Snap.doc_truthy d = true ->
        Snap.exists_ (id_ ++ ".txt") fs = true ->
        Snap.freeze_raises e = true ->
        Preview.preview_snapshot_vs_current dumps e id_ fs = Raise).
Proof.
  unfold Preview.preview_snapshot_vs_current, Snap.get_snapshot, Snap.exists_.
  destruct (Snap.read (id_ ++ ".json") fs) as [[s|d]|];
    destruct (Snap.read (id_ ++ ".txt") fs) as [c|]; cbn [andb negb].
  - split; [split; [discriminate|]|split; [reflexivity|]].
    + intros [H|[H|[d [H _]]]]; discriminate.
    + intros d H. discriminate.
  - split; [split; [intros _; right; now left|reflexivity]|].
    split; [discriminate|]. intros d H. discriminate.
  - destruct (Snap.doc_truthy d) eqn:Et; cbn [negb].
    + destruct (Pkg.parse_requirements_text (Preview.read_text dumps c))
        as [tp to_].
      destruct (Snap.freeze_raises e) eqn:Ef.
      * split; [split; [discriminate|]|split; [reflexivity|reflexivity]].
        intros [H|[H|[d' [[= <-] H]]]]; congruence.
      * destruct (Pkg.parse_requirements_text (Snap.freeze e)) as [cp co].
        destruct (Pkg.diff_envs cp tp) as [[ins un] unch].
        split; [split; [discriminate|]|split].
        -- intros [H|[H|[d' [[= <-] H]]]]; congruence.
        -- intros [s H]. discriminate.
        -- intros d' _ _ _ H. discriminate.
    + split; [split; [intros _|reflexivity]|split].
      * right. right. now exists d.
      * intros [s H]. discriminate.
      * intros d' [= <-] H. congruence.
  - split; [split; [intros _; right; now left|reflexivity]|].
    split; [discriminate|]. intros d' _ _ H. discriminate.
  - split; [split; [intros _; now left|reflexivity]|].
    split; [intros [s H]; discriminate|]. intros d H. discriminate.
  - split; [split; [intros _; now left|reflexivity]|].
    split; [intros [s H]; discriminate|]. intros d H. discriminate.
Qed.

(** X17. The diff of a snapshot with itself shows no change: when
    [get_snapshot] finds the id, [preview_snapshot_vs_snapshot] of the id
    on both sides has no installs, no uninstalls and no commands. *)
Theorem diff_of_snapshot_with_itself (dumps : Snap.Meta -> string)
    (e : Snap.env) (id_ : string) (fs : Snap.store) (m : Snap.Meta)
    (path : option string) :
  Snap.get_snapshot e id_ fs = Return (Some m, path) ->
  exists d,
    Preview.preview_snapshot_vs_snapshot dumps e id_ id_ fs = Return (Some d)
    /\ Preview.d_a d = m /\ Preview.d_b d = m
    /\ Preview.d_installs d = []
    /\ Preview.d_uninstalls d = []
    /\ Preview.d_commands d = [].
Proof.
  intros G. destruct (get_snapshot_found _ _ _ _ _ G) as [_ [c Hc]].
  unfold Preview.preview_snapshot_vs_snapshot. rewrite G, Hc.
  cbn [Snap.doc_truthy andb negb].
  pose proof (parse_NoDup (Preview.read_text dumps c)) as Hnd.
  destruct (Pkg.parse_requirements_text (Preview.read_text dumps c))
    as [pkgs others].
  cbn [fst] in Hnd. rewrite (diff_same_dict pkgs Hnd).
  eexists. split; [reflexivity|]. cbn. repeat split.
Qed.

(* ===================================================================== *)
(** * Properties of the list of installed packages *)
(* ===================================================================== *)

Section InstalledFacts.

Import Installed.

Lemma insert_by_name_perm (x : item) (l : list item) :
  Permutation (x :: l) (insert_by_name x l).
Proof.
  induction l as [|y l IH]; simpl; [apply Permutation_refl|].
  destruct (String.leb _ _); [apply Permutation_refl|].
  eapply perm_trans; [apply perm_swap|]. now apply perm_skip.
Qed.

Lemma sort_by_name_perm (l : list item) : Permutation (sort_by_name l) l.
Proof.
  induction l as [|x l IH]; simpl; [constructor|].
  eapply perm_trans; [apply Permutation_sym, insert_by_name_perm|].
  now apply perm_skip.
Qed.

Lemma insert_by_name_hd (a x : item) (l : list item) :
  name_le a x -> HdRel name_le a l -> HdRel name_le a (insert_by_name x l).
Proof.
  intros Hax Hl. destruct l as [|y l]; simpl; [now constructor|].
  destruct (String.leb _ _); constructor; auto. now inversion Hl.
Qed.

Lemma insert_by_name_sorted (x : item) (l : list item) :
  Sorted name_le l -> Sorted name_le (insert_by_name x l).
Proof.
  induction 1 as [|y l Hs IH Hd]; simpl; [repeat constructor|].
  destruct (String.leb (Py.lower (name x)) (Py.lower (name y))) eqn:E.
  - constructor; [now constructor|]. now constructor.
  - constructor; [exact IH|]. apply insert_by_name_hd; [|exact Hd].
    unfold name_le, str_le.
    destruct (String.leb_total (Py.lower (name x)) (Py.lower (name y)));
      [congruence|assumption].
Qed.

Lemma sort_by_name_sorted (l : list item) : Sorted name_le (sort_by_name l).
Proof.
  induction l as [|x l IH]; simpl; [constructor|].
  now apply insert_by_name_sorted.
Qed.

Lemma opt_or_truthy (x : option string) (d : string) :
  Py.truthy d = true -> Py.truthy (opt_or x d) = true.
Proof.
  intros H. destruct x as [s|]; simpl; [|exact H].
  now destruct (Py.truthy s) eqn:E.
Qed.

Lemma collect_named (dists : list dist) (items : list item) :
  collect dists = Return items ->
  Forall (fun it => Py.truthy (name it) = true /\ Py.truthy (version it) = true)
    items.
Proof.
  revert items; induction dists as [|d dists IH]; intros items; cbn [collect].
  - intros [= <-]. constructor.
  - destruct (dist_version d) as [v|]; [|discriminate].
    destruct (collect dists) as [rest|]; [|discriminate].
    destruct (Py.truthy (dist_name d)) eqn:E; intros [= <-]; [|now apply IH].
    constructor; [|now apply IH]. split; [exact E|now apply opt_or_truthy].
Qed.

Lemma collect_length (dists : list dist) (items : list item) :
  collect dists = Return items -> List.length items <= List.length dists.
Proof.
  revert items; induction dists as [|d dists IH]; intros items; cbn [collect].
  - intros [= <-]. cbn. lia.
  - destruct (dist_version d) as [v|]; [|discriminate].
    destruct (collect dists) as [rest|]; [|discriminate].
    specialize (IH rest eq_refl).
    destruct (Py.truthy (dist_name d)); intros [= <-]; cbn [List.length]; lia.
Qed.

Lemma collect_has (dists : list dist) (items : list item) (d : dist)
    (v : option string) :
  collect dists = Return items -> In d dists ->
  dist_version d = Return v -> dist_name d <> EmptyString ->
  In (mk_item (dist_name d) (opt_or v "unknown")) items.
Proof.
  revert items; induction dists as [|d' dists IH]; intros items; cbn [collect];
    [intros _ []|].
  destruct (dist_version d') as [v'|] eqn:V; [|discriminate].
  destruct (collect dists) as [rest|]; [|discriminate].
  intros H [->|Hin] Hv Hn.
  - rewrite V in Hv. injection Hv as ->.
    destruct (dist_name d) eqn:E; [contradiction|].
    cbn [Py.truthy] in H. injection H as <-. now left.
  - specialize (IH rest eq_refl Hin Hv Hn).
    destruct (Py.truthy (dist_name d')); injection H as <-; [now right|exact IH].
Qed.

Lemma collect_raises (dists : list dist) :
  collect dists = Raise <-> exists d, In d dists /\ dist_version d = Raise.
Proof.
  induction dists as [|d dists IH]; cbn [collect].
  - split; [discriminate|intros [d [[] _]]].
  - destruct (dist_version d) as [v|] eqn:V.
    + destruct (collect dists) as [rest|].
      * destruct (Py.truthy (dist_name d)); split; try discriminate;
          intros [d' [[<-|Hin] Hr]]; try congruence;
          (assert (X : @Return (list item) rest = Raise)
             by (apply IH; eauto); discriminate X).
      * split; [|reflexivity]. intros _.
        destruct (proj1 IH eq_refl) as [d' [Hin Hr]].
        exists d'. split; [now right|exact Hr].
    + split; [|reflexivity]. intros _. exists d. split; [now left|exact V].
Qed.

End InstalledFacts.

(** X18. When [list_installed] returns, its items stand in ascending
    order of the lowercase name, and every item has a name and a version
    that are not empty: a distribution without a name is left out, every
    distribution with a name is listed, and one without a version is listed
    with the version [unknown]. It raises exactly when reading the version
    of some distribution raises. *)
Theorem list_installed_sorted (dists : list Installed.dist) :
  (forall items, Installed.list_installed dists = Return items ->
     Sorted name_le items
     /\ Forall (fun it => Installed.name it <> EmptyString
                          /\ Installed.version it <> EmptyString) items
     /\ List.length items <= List.length dists
     /\ (forall d v, In d dists ->
           Installed.dist_version d = Return v ->
           Installed.dist_name d <> EmptyString ->
           In (Installed.mk_item (Installed.dist_name d)
                 (Installed.opt_or v "unknown")) items))
  /\ (Installed.list_installed dists = Raise <->
      exists d, In d dists /\ Installed.dist_version d = Raise).
Proof.
  unfold Installed.list_installed. split.
  - intros items. destruct (Installed.collect dists) as [raw|] eqn:C;
      [|discriminate].
    intros [= <-]. split; [apply sort_by_name_sorted|]. split; [|split].
    + apply Forall_forall. intros it Hin.
      apply (Permutation_in it (sort_by_name_perm _)) in Hin.
      pose proof (collect_named dists raw C) as F.
      rewrite Forall_forall in F. destruct (F it Hin) as [H1 H2].
      split; intros E; [rewrite E in H1|rewrite E in H2]; discriminate.
    + rewrite (Permutation_length (sort_by_name_perm _)).
      now apply collect_length.
    + intros d v Hin Hv Hn.
      apply (Permutation_in _ (Permutation_sym (sort_by_name_perm _))).
      now apply (collect_has dists raw d v).
  - rewrite <- collect_raises.
    destruct (Installed.collect dists); split; try discriminate; reflexivity.
Qed.

(* ===================================================================== *)
(** * Properties of the site-packages switch *)
(* ===================================================================== *)

Section SiteFacts.

Import Site.

Lemma splitlines_no_break (s : string) :
  Forall (fun l => no_break l = true) (Py.splitlines s).
Proof.
  assert (G : forall n s, String.length s <= n ->
                Forall (fun l => no_break l = true) (Py.splitlines s)).
  { clear s. induction n as [|n IH]; intros [|c s] Hl; try (constructor; fail).
    - simpl in Hl. lia.
    - simpl in Hl. cbn [Py.splitlines].
      destruct (Py.is_linebreak c) eqn:B.
      + destruct s as [|d s]; [repeat constructor|].
        destruct ((Py.code c =? 13) && (Py.code d =? 10));
          (constructor; [reflexivity|apply IH; simpl in *; lia]).
      + specialize (IH s ltac:(lia)).
        destruct (Py.splitlines s) as [|l ls].
        * constructor; [|constructor]. unfold no_break. cbn. now rewrite B.
        * inversion IH as [|? ? Hl' Hls]; subst.
          constructor; [|exact Hls]. unfold no_break in *. cbn [all_chars].
          now rewrite B, Hl'. }
  apply (G (String.length s)). lia.
Qed.

Lemma splitlines_line (l rest : string) :
  no_break l = true ->
  Py.splitlines (l ++ nl ++ rest) = l :: Py.splitlines rest.
Proof.
  induction l as [|c l IH]; intros H.
  - cbn [append]. unfold nl. cbn [append Py.splitlines].
    change (Py.is_linebreak (ascii_of_nat 10)) with true. cbv iota.
    destruct rest as [|d rest]; [reflexivity|].
    change ((Py.code (ascii_of_nat 10) =? 13) && (Py.code d =? 10)) with false.
    reflexivity.
  - unfold no_break in H. cbn [all_chars] in H.
    apply andb_true_iff in H as [H1 H2]. apply negb_true_iff in H1.
    cbn [append Py.splitlines]. rewrite H1. now rewrite (IH H2).
Qed.

Lemma splitlines_join (lines : list string) :
  lines <> [] ->
  Forall (fun l => no_break l = true) lines ->
  Py.splitlines (Py.join nl lines ++ nl) = lines.
Proof.
  induction lines as [|l lines IH]; [easy|]. intros _ F.
  inversion F as [|? ? Hl Hls]; subst.
  destruct lines as [|l' lines].
  - cbn [Py.join String.concat].
    rewrite <- (append_nil_r (l ++ nl)), append_assoc.
    now rewrite splitlines_line.
  - change (Py.join nl (l :: l' :: lines))
      with (l ++ nl ++ Py.join nl (l' :: lines))%string.
    rewrite !append_assoc, splitlines_line by exact Hl.
    f_equal. apply IH; [discriminate|exact Hls].
Qed.

Lemma fold_rewrite_step (lines acc : list string) (changed : bool) :
  fold_left rewrite_step lines (acc, changed)
  = ((acc ++ map uncomment lines)%list,
     changed || existsb is_commented_import lines).
Proof.
  revert acc changed; induction lines as [|l lines IH]; intros acc changed.
  - cbn. now rewrite app_nil_r, orb_false_r.
  - cbn [fold_left rewrite_step map existsb]. unfold uncomment at 1.
    destruct (is_commented_import l); rewrite IH, <- app_assoc; cbn [app orb];
      [now rewrite orb_true_r|reflexivity].
Qed.

Lemma rewrite_spec (lines : list string) :
  rewrite lines = with_import_site lines.
Proof.
  unfold rewrite, with_import_site. rewrite fold_rewrite_step.
  cbn [app orb]. destruct (existsb is_commented_import lines); cbn [negb];
    [now rewrite app_nil_r|reflexivity].
Qed.

Lemma uncomment_no_break (l : string) :
  no_break l = true -> no_break (uncomment l) = true.
Proof. unfold uncomment. now destruct (is_commented_import l). Qed.

Lemma with_import_site_no_break (lines : list string) :
  Forall (fun l => no_break l = true) lines ->
  Forall (fun l => no_break l = true) (with_import_site lines).
Proof.
  intros F. unfold with_import_site. apply Forall_app. split.
  - induction F as [|l ls Hl _ IH]; cbn [map]; constructor;
      [now apply uncomment_no_break|exact IH].
  - destruct (existsb _ _); repeat constructor.
Qed.

Lemma with_import_site_has_import (lines : list string) :
  existsb is_import_site (with_import_site lines) = true.
Proof.
  unfold with_import_site. rewrite existsb_app.
  destruct (existsb is_commented_import lines) eqn:E.
  - rewrite orb_false_r. induction lines as [|l ls IH]; [discriminate|].
    cbn [existsb map] in *. unfold uncomment at 1.
    destruct (is_commented_import l); [reflexivity|].
    cbn [orb] in E. rewrite (IH E). apply orb_true_r.
  - apply orb_true_r.
Qed.

Lemma with_import_site_not_nil (lines : list string) :
  with_import_site lines <> [].
Proof.
  intros E. pose proof (with_import_site_has_import lines) as H.
  rewrite E in H. discriminate.
Qed.

End SiteFacts.

(** X19. When [enable_site_packages_in_embedded] reports success, the file
    it has written reads back, line by line, as the lines it had read with
    every commented line that holds [import site] replaced by the line
    [import site], and with that line added at the end when no line was
    replaced; all other lines are kept as they were, in their order. *)
Theorem enable_site_writes (e : Site.env) (w : string) (path base content : string) :
  Site.pth e = Some (path, base) ->
  Site.read_result e = inl content ->
  Site.written (Site.enable_site_packages_in_embedded e) = Some w ->
  Site.ok (Site.enable_site_packages_in_embedded e) = true
  /\ Py.splitlines w = with_import_site (Py.splitlines content).
Proof.
  intros Hp Hr. unfold Site.enable_site_packages_in_embedded. rewrite Hp, Hr.
  cbv zeta. destruct (existsb Site.is_import_site (Py.splitlines content));
    [discriminate|].
  destruct (Site.write_error e); [discriminate|].
  cbn [Site.written Site.ok]. intros [= <-]. split; [reflexivity|].
  rewrite rewrite_spec. apply splitlines_join.
  - apply with_import_site_not_nil.
  - apply with_import_site_no_break, splitlines_no_break.
Qed.

(** X20. [enable_site_packages_in_embedded] writes only when it reports
    success, and a second call on the file that a successful call has
    written changes nothing: it reports that the file already enables
    site-packages. *)
Theorem enable_site_once (e e' : Site.env) (w path base : string) :
  (Site.ok (Site.enable_site_packages_in_embedded e) = false ->
   Site.written (Site.enable_site_packages_in_embedded e) = None)
  /\ (Site.written (Site.enable_site_packages_in_embedded e) = Some w ->
      Site.pth e' = Some (path, base) ->
      Site.read_result e' = inl w ->
      Site.enable_site_packages_in_embedded e'
      = Site.mk_result false (base ++ " already enables site-packages.") None).
Proof.
  split.
  - unfold Site.enable_site_packages_in_embedded.
    destruct (Site.pth e) as [[p b]|]; [|reflexivity].
    destruct (Site.read_result e) as [c|err]; [|reflexivity].
    cbv zeta. destruct (existsb _ _); [reflexivity|].
    destruct (Site.write_error e); [reflexivity|discriminate].
  - intros Hw Hp Hr.
    assert (Hl : exists lines, Py.splitlines w = with_import_site lines).
    { revert Hw. unfold Site.enable_site_packages_in_embedded.
      destruct (Site.pth e) as [[p b]|]; [|discriminate].
      destruct (Site.read_result e) as [c|err]; [|discriminate].
      cbv zeta. destruct (existsb _ _); [discriminate|].
      destruct (Site.write_error e); [discriminate|].
      cbn [Site.written]. intros [= <-]. exists (Py.splitlines c).
      rewrite rewrite_spec. apply splitlines_join.
      - apply with_import_site_not_nil.
      - apply with_import_site_no_break, splitlines_no_break. }
    destruct Hl as [lines Hl].
    unfold Site.enable_site_packages_in_embedded. rewrite Hp, Hr. cbv zeta.
    now rewrite Hl, with_import_site_has_import.
Qed.

(* ===================================================================== *)
(** * Further properties of jobs *)
(* ===================================================================== *)

Section JobMore.

Import Job.

Lemma poll_new (uuid kind : string) (pos : Z) :
  poll (new uuid kind) pos = idle_reply.
Proof.
  unfold poll, idle_reply. cbn [new text done returncode String.length Z.of_nat].
  f_equal. destruct (pos <? 0)%Z eqn:E; [|reflexivity].
  unfold Py.slice_from. rewrite E. apply drop_all. cbn. lia.
Qed.

Lemma slice_from_suffix (pos : Z) (s : string) :
  exists n, Py.slice_from pos s = Py.drop n s.
Proof. unfold Py.slice_from. destruct (pos <? 0)%Z; eauto. Qed.

End JobMore.

(** X21. A job that one of the four [start_job_...] functions has just
    started is in the table under its id: until its thread writes, every
    poll of it answers no text, cursor 0 and not done. The jobs that were in
    the table under other ids answer as before, and an id that is not in
    the table is answered with 404. *)
Theorem start_registers (exe uuid pkg ver req_path : string)
    (over : option string) (pkgs : list string) (table : Job.table)
    (st : Start.started) (pos : Z) (k : string) :
  In st [Start.start_job_install_exact exe uuid pkg ver table;
         Start.start_job_install_name exe uuid pkg over table;
         Start.start_job_uninstall_multi exe uuid pkgs table;
         Start.start_job_restore_requirements exe uuid req_path table] ->
  Start.jid st = uuid
  /\ Job.handle_poll (Start.jobs st) uuid pos = Some idle_reply
  /\ (k <> uuid ->
      Job.handle_poll (Start.jobs st) k pos = Job.handle_poll table k pos)
  /\ (Job.get_job k table = None -> Job.handle_poll table k pos = None).
Proof.
  assert (G : forall kind command,
            let s0 := Start.start uuid kind command table in
            Start.jid s0 = uuid
            /\ Job.handle_poll (Start.jobs s0) uuid pos = Some idle_reply
            /\ (k <> uuid ->
                Job.handle_poll (Start.jobs s0) k pos
                = Job.handle_poll table k pos)
            /\ (Job.get_job k table = None ->
                Job.handle_poll table k pos = None)).
  { intros kind command. cbv zeta.
    unfold Start.start, Job.handle_poll. cbn [Start.jid Start.jobs].
    split; [reflexivity|]. split; [|split].
    - pose proof (get_register_eq (Job.new uuid kind) table) as E.
      change (Job.id (Job.new uuid kind)) with uuid in E.
      rewrite E. now rewrite poll_new.
    - intros N. now rewrite get_register_ne.
    - intros H. now rewrite H. }
  intros [<-|[<-|[<-|[<-|[]]]]]; apply G.
Qed.

(** X22. After the thread of a new job has read the output of its
    process to the end and the process has ended, a poll from cursor 0
    answers the whole output, done and the return code; a poll at the
    cursor of that answer then answers no text, the same cursor, done and
    the return code. When reading the output raises instead, a poll from
    cursor 0 answers the lines that were read, not done and no return
    code. The job is done after the thread exactly in the first case. *)
Theorem poll_after_run (uuid kind : string) (lines : list string) (rc : Z) :
  let j := fst (Job._run_and_stream (Job.new uuid kind) (Job.Exits lines rc)) in
  let out := String.concat EmptyString lines in
  let len := Z.of_nat (String.length out) in
  Job.poll j 0%Z
  = {| Job.r_text := out; Job.r_pos := len; Job.r_done := true;
       Job.r_returncode := Some rc |}
  /\ Job.poll j len
     = {| Job.r_text := EmptyString; Job.r_pos := len; Job.r_done := true;
          Job.r_returncode := Some rc |}
  /\ Job.poll (fst (Job._run_and_stream (Job.new uuid kind)
                      (Job.ReadFails lines))) 0%Z
     = {| Job.r_text := out; Job.r_pos := len; Job.r_done := false;
          Job.r_returncode := None |}
  /\ (forall p,
        Job.done (fst (Job._run_and_stream (Job.new uuid kind) p)) = true <->
        exists ls c, p = Job.Exits ls c).
Proof.
  cbv zeta.
  assert (P0 : forall out : string,
             (if (0 <? Z.of_nat (String.length out))%Z
              then Py.slice_from 0 out else EmptyString) = out).
  { intros out. destruct (0 <? _)%Z eqn:E; [reflexivity|].
    destruct out; [reflexivity|].
    apply Z.ltb_ge in E. cbn [String.length] in E. lia. }
  assert (D : forall ls, Job.done (fold_left Job.append ls (Job.new uuid kind))
                         = false).
  { intros ls. destruct (fold_append_text ls (Job.new uuid kind)) as [_ Hd].
    exact (proj1 Hd). }
  assert (R : forall ls, Job.returncode
                           (fold_left Job.append ls (Job.new uuid kind))
                         = None).
  { intros ls. destruct (fold_append_text ls (Job.new uuid kind)) as [_ Hd].
    exact (proj2 Hd). }
  cbn [Job._run_and_stream fst].
  destruct (fold_append_text lines (Job.new uuid kind)) as [Ht _].
  cbn [Job.new Job.text append] in Ht. unfold Job.poll.
  cbn [Job.text Job.done Job.returncode]. rewrite Ht, D, R, P0.
  split; [reflexivity|]. split; [now rewrite Z.ltb_irrefl|].
  split; [reflexivity|].
  intros [|ls c|ls]; cbn [Job._run_and_stream fst Job.done].
  - split; [discriminate|]. intros [ls [c H]]. discriminate.
  - split; [intros _; now exists ls, c|reflexivity].
  - rewrite D. split; [discriminate|]. intros [ls' [c H]]. discriminate.
Qed.

(** X23. Whatever cursor is sent, also a negative one or one past the end,
    the text that the poll answers is an end piece of the buffer, and the
    cursor that it answers is the length of the buffer. *)
Theorem poll_answers_suffix (j : Job.t) (pos : Z) :
  (exists before, Job.text j = (before ++ Job.r_text (Job.poll j pos))%string)
  /\ Job.r_pos (Job.poll j pos) = Z.of_nat (String.length (Job.text j))
  /\ String.length (Job.r_text (Job.poll j pos)) <= String.length (Job.text j).
Proof.
  assert (H : exists n, Job.r_text (Job.poll j pos) = Py.drop n (Job.text j)).
  { unfold Job.poll. cbn [Job.r_text].
    destruct (pos <? _)%Z; [apply slice_from_suffix|].
    exists (String.length (Job.text j)). symmetry. now apply drop_all. }
  destruct H as [n H]. rewrite H. split; [|split].
  - exists (Py.take n (Job.text j)). symmetry. apply take_drop.
  - reflexivity.
  - rewrite length_drop. lia.
Qed.

(** X24. The restore request starts no job for a snapshot of which a
    record is missing, or whose metadata file holds a JSON document that
    is false: it answers 404. For a snapshot that [get_snapshot] finds,
    with a metadata record or another document that is true, it starts one
    job of the kind [restore_snapshot] whose command installs from the
    payload file of that snapshot. *)
Theorem restore_request (e : Snap.env) (uuid sid : string)
    (fs : Snap.store) (table : Job.table) :
  (Snap.exists_ (sid ++ ".json") fs = false
   \/ Snap.exists_ (sid ++ ".txt") fs = false
   \/ (exists d, Snap.read (sid ++ ".json") fs = Some (Snap.Json d)
                 /\ Snap.doc_truthy d = false) ->
   Start.post_job_restore e uuid sid fs table = Return None)
  /\ (forall d, Snap.read (sid ++ ".json") fs = Some (Snap.Json d) ->
        Snap.doc_truthy d = true ->
        Snap.exists_ (sid ++ ".txt") fs = true ->
        exists st,
          Start.post_job_restore e uuid sid fs table = Return (Some st)
          /\ Start.cmd st
             = [Snap.sys_executable e; "-m"; "pip"; "install"; "-r";
                Snap.path_join e (sid ++ ".txt")]
          /\ Job.get_job uuid (Start.jobs st)
             = Some (Job.new uuid "restore_snapshot"))
  /\ (forall m : Snap.Meta,
        Snap.read (sid ++ ".json") fs = Some (Snap.Json m) ->
        Snap.exists_ (sid ++ ".txt") fs = true ->
        exists st,
          Start.post_job_restore e uuid sid fs table = Return (Some st)
          /\ Start.cmd st
             = [Snap.sys_executable e; "-m"; "pip"; "install"; "-r";
                Snap.path_join e (sid ++ ".txt")]
          /\ Job.get_job uuid (Start.jobs st)
             = Some (Job.new uuid "restore_snapshot")).
Proof.
  assert (F : forall d, Snap.read (sid ++ ".json") fs = Some (Snap.Json d) ->
                Snap.doc_truthy d = true ->
                Snap.exists_ (sid ++ ".txt") fs = true ->
                exists st,
                  Start.post_job_restore e uuid sid fs table
                  = Return (Some st)
                  /\ Start.cmd st
                     = [Snap.sys_executable e; "-m"; "pip"; "install"; "-r";
                        Snap.path_join e (sid ++ ".txt")]
                  /\ Job.get_job uuid (Start.jobs st)
                     = Some (Job.new uuid "restore_snapshot")).
  { intros d Hj Hd Ht. unfold Start.post_job_restore, Snap.get_snapshot.
    unfold Snap.exists_ at 1. rewrite Hj, Ht. cbn [andb negb]. rewrite Hd.
    eexists. split; [reflexivity|]. split; [reflexivity|].
    cbn [Start.start_job_restore_requirements Start.start Start.jobs].
    exact (get_register_eq (Job.new uuid "restore_snapshot") table). }
  split; [|split; [exact F|]].
  - unfold Start.post_job_restore, Snap.get_snapshot.
    intros [H|[H|[d [Hj Hd]]]].
    + now rewrite H.
    + rewrite H. now rewrite andb_false_r.
    + unfold Snap.exists_ at 1. rewrite Hj.
      destruct (Snap.exists_ (sid ++ ".txt") fs); cbn [andb negb];
        [now rewrite Hd|reflexivity].
  - intros m Hj Ht. now apply (F (Snap.MetaDoc m)).
Qed.

(* ===================================================================== *)
(** * The further properties at concrete inputs *)
(* ===================================================================== *)

(** [save_then_delete] on the sample save into the empty store. *)
Lemma save_then_delete_witness :
  Snap.save_snapshot sample_env "env" "note" []
  = (sample_store, Return sample_meta)
  /\ Snap.exists_ (Snap.m_id sample_meta ++ ".json") [] = false
  /\ Snap.exists_ (Snap.m_id sample_meta ++ ".txt") [] = false
  /\ Snap.delete_snapshot never (Snap.m_id sample_meta) sample_store
     = (true, []).
Proof.
  split; [reflexivity|]. split; [reflexivity|]. split; [reflexivity|].
  exact (save_then_delete sample_env "env" "note" [] sample_store sample_meta
           never eq_refl eq_refl eq_refl eq_refl eq_refl).
Defined.

(** [save_then_listed] on the sample save. *)
Lemma save_then_listed_witness :
  Snap.save_snapshot sample_env "env" "note" []
  = (sample_store, Return sample_meta)
  /\ Snap.list_snapshots sample_store = Return [Snap.MetaDoc sample_meta]
  /\ In (Snap.MetaDoc sample_meta) [Snap.MetaDoc sample_meta].
Proof.
  split; [reflexivity|]. split; [reflexivity|].
  exact (proj1 (proj1 (save_then_listed sample_env "env" "note" []
                         sample_store sample_meta eq_refl)
                  [Snap.MetaDoc sample_meta] eq_refl)).
Defined.

(** [failed_save_effect] on a save whose metadata file breaks off while it
    is written, over a metadata record of the same id. *)
Lemma failed_save_effect_witness :
  Snap.save_snapshot json_torn_env "env" "c" lone_store
  = ([("env_20240101_120000.json", Snap.Text "{");
      ("env_20240101_120000.txt", Snap.Text "a==3")], Raise)
  /\ (Snap.read "env_20240101_120000.json"
        [("env_20240101_120000.json", Snap.Text "{");
         ("env_20240101_120000.txt", Snap.Text "a==3")]
      = Snap.read "env_20240101_120000.json" lone_store
      \/ exists part,
           Snap.read "env_20240101_120000.json"
             [("env_20240101_120000.json", Snap.Text "{");
              ("env_20240101_120000.txt", Snap.Text "a==3")]
           = Some (Snap.Text part)).
Proof.
  split; [reflexivity|].
  exact (proj1 (proj2 (proj2
           (failed_save_effect json_torn_env "env" "c" lone_store
              [("env_20240101_120000.json", Snap.Text "{");
               ("env_20240101_120000.txt", Snap.Text "a==3")]
              eq_refl)))).
Defined.

(** [preview_after_save] on the sample save. *)
Lemma preview_after_save_witness :
  Snap.save_snapshot sample_env "env" "note" []
  = (sample_store, Return sample_meta)
  /\ exists p,
       Preview.preview_snapshot_vs_current sample_dumps sample_env
         (Snap.m_id sample_meta) sample_store = Return (Some p)
       /\ Preview.p_commands p = [].
Proof.
  split; [reflexivity|].
  destruct (preview_after_save sample_dumps sample_env "env" "note" []
              sample_store sample_meta eq_refl)
    as [p [H1 [_ [_ [_ [H2 _]]]]]].
  exists p. split; [exact H1|exact H2].
Defined.

(** [diff_of_snapshot_with_itself] on the sample save. *)
Lemma diff_of_snapshot_with_itself_witness :
  Snap.get_snapshot sample_env "env_20240101_120000" sample_store
  = Return (Some sample_meta, Some (Snap.m_path sample_meta))
  /\ exists d,
       Preview.preview_snapshot_vs_snapshot sample_dumps sample_env
         "env_20240101_120000" "env_20240101_120000" sample_store
       = Return (Some d)
       /\ Preview.d_commands d = [].
Proof.
  split; [reflexivity|].
  destruct (diff_of_snapshot_with_itself sample_dumps sample_env
              "env_20240101_120000" sample_store sample_meta
              (Some (Snap.m_path sample_meta)) eq_refl)
    as [d [H1 [_ [_ [_ [_ H2]]]]]].
  exists d. split; [exact H1|exact H2].
Defined.

(** [enable_site_writes] on a path file with the import commented out. *)
Lemma enable_site_writes_witness :
  Site.pth sample_pth = Some ("python311._pth", "python311._pth")
  /\ Site.read_result sample_pth
     = inl (text_of ["python311.zip"; "."; "#import site"])
  /\ Site.written (Site.enable_site_packages_in_embedded sample_pth)
     = Some (text_of ["python311.zip"; "."; "import site"] ++ nl)%string
  /\ Py.splitlines (text_of ["python311.zip"; "."; "import site"] ++ nl)
     = with_import_site
         (Py.splitlines (text_of ["python311.zip"; "."; "#import site"])).
Proof.
  split; [reflexivity|]. split; [reflexivity|]. split; [reflexivity|].
  exact (proj2 (enable_site_writes sample_pth
                  (text_of ["python311.zip"; "."; "import site"] ++ nl)
                  "python311._pth" "python311._pth"
                  (text_of ["python311.zip"; "."; "#import site"])
                  eq_refl eq_refl eq_refl)).
Defined.

Example enable_site_sample :
  Site.enable_site_packages_in_embedded sample_pth
  = Site.mk_result true
      "Updated python311._pth: enabled site-packages (added 'import site')."
      (Some (text_of ["python311.zip"; "."; "import site"] ++ nl)%string).
Proof. reflexivity. Qed.

(** A line that only mentions the import in a comment is replaced as
    well. *)
Example enable_site_comment_with_text :
  Site.rewrite ["# to load site-packages, add: import site"; "."]
  = ["import site"; "."].
Proof. reflexivity. Qed.

Example list_installed_sample :
  Installed.list_installed
    [Installed.mk_dist (Return (Some "zlib")) None (Return (Some "1.3"));
     Installed.mk_dist (Return None) None (Return (Some "9"));
     Installed.mk_dist Raise (Some "Attrs") (Return None);
     Installed.mk_dist (Return (Some "attrs")) None (Return (Some "23.1"))]
  = Return
      [Installed.mk_item "Attrs" "unknown"; Installed.mk_item "attrs" "23.1";
       Installed.mk_item "zlib" "1.3"].
Proof. reflexivity. Qed.

Example preview_sample :
  Preview.preview_snapshot_vs_current sample_dumps sample_now
    "env_20240101_120000" sample_store
  = Return (Some sample_preview).
Proof. reflexivity. Qed.

(** The empty object in a metadata file, with the payload in place: the
    preview and the restore request answer "not found". *)
Example preview_empty_object :
  Preview.preview_snapshot_vs_current sample_dumps sample_now "s"
    [("s.json", Snap.Json (Snap.ObjectDoc "{}" None false));
     ("s.txt", Snap.Text "a==1")]
  = Return None
  /\ Start.post_job_restore sample_now "j1" "s"
       [("s.json", Snap.Json (Snap.ObjectDoc "{}" None false));
        ("s.txt", Snap.Text "a==1")] []
     = Return None.
Proof. split; reflexivity. Qed.


(** [render_commands_count] on the preview of the sample snapshot. *)
Lemma render_commands_count_witness :
  Preview.preview_snapshot_vs_current sample_dumps sample_now
    "env_20240101_120000" sample_store
  = Return (Some sample_preview)
  /\ List.length
       ["python -m pip uninstall -y qux"; "python -m pip install baz==2"]
     = commands_for 1 1.
Proof.
  split; [reflexivity|].
  exact (proj2 (proj1 (render_commands_count sample_dumps sample_now
                         sample_store)
                  "env_20240101_120000" sample_preview eq_refl)).
Defined.

(** [start_registers] on an install by name into an empty table. *)
Lemma start_registers_witness :
  In (Start.start_job_install_name "python" "j1" "requests" None [])
    [Start.start_job_install_exact "python" "j1" "requests" "2.0" [];
     Start.start_job_install_name "python" "j1" "requests" None [];
     Start.start_job_uninstall_multi "python" "j1" ["requests"] [];
     Start.start_job_restore_requirements "python" "j1" "r.txt" []]
  /\ Job.handle_poll
       (Start.jobs (Start.start_job_install_name "python" "j1" "requests" None []))
       "j1" 0%Z
     = Some idle_reply.
Proof.
  split; [right; left; reflexivity|].
  exact (proj1 (proj2
           (start_registers "python" "j1" "requests" "2.0" "r.txt" None
              ["requests"] []
              (Start.start_job_install_name "python" "j1" "requests" None [])
              0%Z "j2" (or_intror (or_introl eq_refl))))).
Defined.

(** The empty version is no version: the command installs the bare
    name. *)
Example install_name_empty_version :
  Start.cmd (Start.start_job_install_name "python" "j1" "requests" (Some EmptyString) [])
  = ["python"; "-m"; "pip"; "install"; "requests"].
Proof. reflexivity. Qed.
